(** * epubHighlighter: dictionary markup parsers, entry renderer and
      multi-source resolver

    A shallow embedding of [parse.py], [parse_oald.py] and
    [dictionary_lookup.py].

    Python [str] values are Rocq strings holding the UTF-8 bytes of the
    text, so that the structural glyphs of the dictionaries (the arrow of
    a cross-reference, the sense delimiter, the part-of-speech bullets)
    are ordinary substrings.  Case mapping is the ASCII part of
    [str.lower]; whitespace is the set recognised by [str.isspace]. *)

From stdpp Require Import gmap strings list.
From Stdlib Require Import Ascii String Bool Arith Lia.

Local Open Scope string_scope.
Local Open Scope list_scope.

#[local] Set Warnings "-clear-no-such-hyp".

(** ** Python string primitives *)

Module Py.

Definition code (a : ascii) : nat := nat_of_ascii a.

Definition between (lo hi : nat) (a : ascii) : bool :=
  (lo <=? code a)%nat && (code a <=? hi)%nat.

(** One-byte whitespace: TAB LF VT FF CR, FS GS RS US and SPACE. *)
Definition ws1 (a : ascii) : bool := between 9 13 a || between 28 32 a.

(** Two-byte whitespace: U+0085 and U+00A0. *)
Definition ws2 (a b : ascii) : bool :=
  (code a =? 194)%nat && ((code b =? 133)%nat || (code b =? 160)%nat).

(** Three-byte whitespace: U+1680, U+2000..U+200A, U+2028, U+2029,
    U+202F, U+205F and U+3000. *)
Definition ws3 (a b c : ascii) : bool :=
  ((code a =? 225)%nat && (code b =? 154)%nat && (code c =? 128)%nat)
  || ((code a =? 226)%nat && (code b =? 128)%nat
      && (between 128 138 c || between 168 169 c || (code c =? 175)%nat))
  || ((code a =? 226)%nat && (code b =? 129)%nat && (code c =? 159)%nat)
  || ((code a =? 227)%nat && (code b =? 128)%nat && (code c =? 128)%nat).

(** Number of bytes of the whitespace character at the head of [s], or
    [0] when [s] does not start with whitespace. *)
Definition ws_head (s : string) : nat :=
  match s with
  | String a t =>
      if ws1 a then 1
      else match t with
           | String b u =>
               if ws2 a b then 2
               else match u with
                    | String c _ => if ws3 a b c then 3 else 0
                    | EmptyString => 0
                    end
           | EmptyString => 0
           end
  | EmptyString => 0
  end.

(** [str.lstrip()] *)
Fixpoint lstrip (s : string) : string :=
  match s with
  | String a t =>
      if ws1 a then lstrip t
      else match t with
           | String b u =>
               if ws2 a b then lstrip u
               else match u with
                    | String c v => if ws3 a b c then lstrip v else s
                    | EmptyString => s
                    end
           | EmptyString => s
           end
  | EmptyString => EmptyString
  end.

Definition is_empty (s : string) : bool :=
  match s with EmptyString => true | _ => false end.

(** [s.isspace()] or [s] empty: nothing but whitespace. *)
Definition blank (s : string) : bool := is_empty (lstrip s).

(** [str.rstrip()] *)
Fixpoint rstrip (s : string) : string :=
  match s with
  | String a t => if blank s then EmptyString else String a (rstrip t)
  | EmptyString => EmptyString
  end.

(** [str.strip()] *)
Definition strip (s : string) : string := rstrip (lstrip s).

Definition is_upper (a : ascii) : bool := between 65 90 a.
Definition is_lower (a : ascii) : bool := between 97 122 a.
Definition is_alpha (a : ascii) : bool := is_upper a || is_lower a.
Definition is_digit (a : ascii) : bool := between 48 57 a.

Definition lower_char (a : ascii) : ascii :=
  if is_upper a then ascii_of_nat (code a + 32) else a.

(** [str.lower()] *)
Fixpoint lower (s : string) : string :=
  match s with
  | String a t => String (lower_char a) (lower t)
  | EmptyString => EmptyString
  end.

(** [str.startswith(p)] *)
Fixpoint startswith (p s : string) : bool :=
  match p, s with
  | EmptyString, _ => true
  | String a p', String b s' => Ascii.eqb a b && startswith p' s'
  | String _ _, EmptyString => false
  end.

(** [s[n:]] *)
Fixpoint drop (n : nat) (s : string) : string :=
  match n, s with
  | O, _ => s
  | S n', String _ t => drop n' t
  | S _, EmptyString => EmptyString
  end.

(** [s[:n]] *)
Fixpoint take (n : nat) (s : string) : string :=
  match n, s with
  | O, _ => EmptyString
  | S n', String a t => String a (take n' t)
  | S _, EmptyString => EmptyString
  end.

(** [str.endswith(p)] *)
Definition endswith (p s : string) : bool :=
  (String.length p <=? String.length s)%nat
  && String.eqb (drop (String.length s - String.length p) s) p.

(** [p in s] *)
Fixpoint contains (p s : string) : bool :=
  startswith p s
  || match s with
     | String _ t => contains p t
     | EmptyString => false
     end.

(** [sep.join(l)] *)
Fixpoint join (sep : string) (l : list string) : string :=
  match l with
  | [] => EmptyString
  | [x] => x
  | x :: rest => x ++ sep ++ join sep rest
  end.

(** Keep the characters satisfying [p]: [re.sub] of a negated class
    by the empty string. *)
Fixpoint keep (p : ascii -> bool) (s : string) : string :=
  match s with
  | String a t => if p a then String a (keep p t) else keep p t
  | EmptyString => EmptyString
  end.

(** Longest prefix of characters satisfying [p], and the rest. *)
Fixpoint span (p : ascii -> bool) (s : string) : string * string :=
  match s with
  | String a t =>
      if p a then let '(x, y) := span p t in (String a x, y)
      else (EmptyString, s)
  | EmptyString => (EmptyString, EmptyString)
  end.

(** [str.rstrip(chars)] and [str.strip(chars)] for a set of one-byte
    characters. *)
Fixpoint all_in (p : ascii -> bool) (s : string) : bool :=
  match s with
  | String a t => p a && all_in p t
  | EmptyString => true
  end.

Fixpoint rstrip_chars (p : ascii -> bool) (s : string) : string :=
  match s with
  | String a t => if all_in p s then EmptyString else String a (rstrip_chars p t)
  | EmptyString => EmptyString
  end.

Definition strip_chars (p : ascii -> bool) (s : string) : string :=
  rstrip_chars p (snd (span p s)).

(** [len(s.split())]: the number of maximal runs of non-whitespace. *)
Fixpoint count_words_from (fuel : nat) (inword : bool) (s : string) : nat :=
  match fuel with
  | O => 0
  | S fuel' =>
      match s with
      | EmptyString => 0
      | String _ t =>
          match ws_head s with
          | O => (if inword then 0 else 1) + count_words_from fuel' true t
          | S k => count_words_from fuel' false (drop k t)
          end
      end
  end.

Definition count_words (s : string) : nat :=
  count_words_from (String.length s) false s.

(** [re.sub(r"\s+", " ", s)] *)
Fixpoint collapse_ws_from (fuel : nat) (inws : bool) (s : string) : string :=
  match fuel with
  | O => EmptyString
  | S fuel' =>
      match s with
      | EmptyString => EmptyString
      | String a t =>
          match ws_head s with
          | O => String a (collapse_ws_from fuel' false t)
          | S k =>
              if inws then collapse_ws_from fuel' true (drop k t)
              else String " " (collapse_ws_from fuel' true (drop k t))
          end
      end
  end.

Definition collapse_ws (s : string) : string :=
  collapse_ws_from (String.length s) false s.

End Py.

(** ** The tag tree of [bs4]

    [BeautifulSoup(markup, "html.parser")] is a collaborator outside the
    repository: the development takes it as a function from markup to a
    tree and is stated for every such function.  A tree is made of text
    nodes and tags (comments and declarations are left out); [uid]
    stands for the identity of the Python object.
    The document object itself is a tag named ["[document]"]. *)

#[warnings="-register-all"]
Inductive node : Type :=
| NavigableString (uid : nat) (text : string)
| Tag (uid : nat) (name : string) (attrs : list (string * string))
      (contents : list node).

Module Soup.

Definition uid_of (n : node) : nat :=
  match n with NavigableString u _ => u | Tag u _ _ _ => u end.

Definition is_tag (n : node) : bool :=
  match n with Tag _ _ _ _ => true | NavigableString _ _ => false end.

Definition name_of (n : node) : string :=
  match n with Tag _ nm _ _ => nm | NavigableString _ _ => EmptyString end.

Definition contents_of (n : node) : list node :=
  match n with Tag _ _ _ cs => cs | NavigableString _ _ => [] end.

Definition has_name (nm : string) (n : node) : bool :=
  is_tag n && String.eqb (name_of n) nm.

(** [tag.get(key, default)] with the empty string as default. *)
Fixpoint assoc_get (key : string) (l : list (string * string)) : option string :=
  match l with
  | [] => None
  | (k, v) :: rest => if String.eqb k key then Some v else assoc_get key rest
  end.

Definition get_attr (key : string) (n : node) : string :=
  match n with
  | Tag _ _ at_ _ => default EmptyString (assoc_get key at_)
  | NavigableString _ _ => EmptyString
  end.

(** [tag.descendants]: every node below [n], in document order. *)
Fixpoint descendants (n : node) : list node :=
  match n with
  | NavigableString _ _ => []
  | Tag _ _ _ cs => flat_map (fun c => c :: descendants c) cs
  end.

(** [tag.find_all(string=True)]: the text nodes below [n]. *)
Fixpoint strings (n : node) : list node :=
  match n with
  | NavigableString _ _ => [n]
  | Tag _ _ _ cs => flat_map strings cs
  end.

Definition text_of (n : node) : string :=
  match n with NavigableString _ s => s | Tag _ _ _ _ => EmptyString end.

(** [tag._all_strings(strip=True)]: stripped, empty ones left out. *)
Definition stripped_strings (n : node) : list string :=
  List.filter (fun s => negb (Py.is_empty s))
              (map (fun t => Py.strip (text_of t)) (strings n)).

(** [tag.get_text(sep, strip=True)] *)
Definition get_text (sep : string) (n : node) : string :=
  Py.join sep (stripped_strings n).

(** [tag.find(...)]: the first descendant satisfying [p]. *)
Definition find (p : node -> bool) (n : node) : option node :=
  List.find p (descendants n).

(** [tag.find_all(name, recursive=False)] *)
Definition find_all_children (nm : string) (n : node) : list node :=
  List.filter (has_name nm) (contents_of n).

(** [tag.string] *)
Fixpoint dot_string (n : node) : option string :=
  match n with
  | NavigableString _ s => Some s
  | Tag _ _ _ cs =>
      match cs with
      | [c] => dot_string c
      | _ => None
      end
  end.

(** Serialisation with the "minimal" formatter. *)
Fixpoint escape_text (s : string) : string :=
  match s with
  | String a t =>
      (if Ascii.eqb a "&" then "&amp;"
       else if Ascii.eqb a "<" then "&lt;"
       else if Ascii.eqb a ">" then "&gt;"
       else String a EmptyString) ++ escape_text t
  | EmptyString => EmptyString
  end.

Fixpoint replace_char (a : ascii) (by_ : string) (s : string) : string :=
  match s with
  | String b t =>
      (if Ascii.eqb a b then by_ else String b EmptyString)
        ++ replace_char a by_ t
  | EmptyString => EmptyString
  end.

Definition dq : ascii := ascii_of_nat 34.
Definition sq : ascii := ascii_of_nat 39.

Definition has_char (a : ascii) (s : string) : bool :=
  negb (Py.all_in (fun b => negb (Ascii.eqb a b)) s).

Definition quoted_attribute_value (v : string) : string :=
  let v := escape_text v in
  if has_char dq v then
    if has_char sq v then
      String dq (replace_char dq "&quot;" v) ++ String dq EmptyString
    else String sq v ++ String sq EmptyString
  else String dq v ++ String dq EmptyString.

Fixpoint decode_attrs (l : list (string * string)) : string :=
  match l with
  | [] => EmptyString
  | (k, v) :: rest => " " ++ k ++ "=" ++ quoted_attribute_value v ++ decode_attrs rest
  end.

Definition empty_element_tags : list string :=
  ["area"; "base"; "br"; "col"; "embed"; "hr"; "img"; "input"; "keygen";
   "link"; "menuitem"; "meta"; "param"; "source"; "track"; "wbr";
   "basefont"; "bgsound"; "command"; "frame"; "image"; "isindex";
   "nextid"; "spacer"].

Definition is_void (nm : string) : bool :=
  existsb (String.eqb nm) empty_element_tags.

Definition document_name : string := "[document]".

(** [tag.decode()] *)
Fixpoint decode (n : node) : string :=
  match n with
  | NavigableString _ s => escape_text s
  | Tag _ nm at_ cs =>
      let inner := String.concat EmptyString (map decode cs) in
      if String.eqb nm document_name then inner
      else if is_void nm && match cs with [] => true | _ => false end
      then "<" ++ nm ++ decode_attrs at_ ++ "/>"
      else "<" ++ nm ++ decode_attrs at_ ++ ">" ++ inner ++ "</" ++ nm ++ ">"
  end.

(** [tag.decode_contents()] *)
Definition decode_contents (n : node) : string :=
  String.concat EmptyString (map decode (contents_of n)).

(** [str(node)]: a text node yields its text, a tag its markup. *)
Definition str (n : node) : string :=
  match n with
  | NavigableString _ s => s
  | Tag _ _ _ _ => decode n
  end.

(** No visible text: [not tag.get_text(strip=True)]. *)
Definition no_text (n : node) : bool := Py.is_empty (get_text EmptyString n).

(** [found = tag.find(p); parent = found.parent; found.extract()], then,
    when [prune] is set, [parent.decompose()] if the parent is left
    without visible text.  [None]: no descendant satisfies [p].
    [Some None]: [n] itself was the parent and has been decomposed. *)
Fixpoint extract_first (prune : bool) (p : node -> bool) (n : node)
  : option (option node) :=
  match n with
  | NavigableString _ _ => None
  | Tag u nm at_ cs =>
      let go :=
        fix go (l : list node) : option (list node * bool) :=
          match l with
          | [] => None
          | c :: rest =>
              if p c then Some (rest, true)
              else match extract_first prune p c with
                   | Some (Some c') => Some (c' :: rest, false)
                   | Some None => Some (rest, false)
                   | None =>
                       match go rest with
                       | Some (rest', direct) => Some (c :: rest', direct)
                       | None => None
                       end
                   end
          end in
      match go cs with
      | None => None
      | Some (cs', direct) =>
          let n' := Tag u nm at_ cs' in
          if direct && prune && no_text n' then Some None
          else Some (Some n')
      end
  end.

(** The clone after the extraction; a decomposed tag has no contents. *)
Definition after_extract (prune : bool) (p : node -> bool) (n : node) : node :=
  match extract_first prune p n with
  | None => n
  | Some (Some n') => n'
  | Some None => Tag (uid_of n) (name_of n) [] []
  end.

End Soup.

(** ** A tree builder for well-nested markup

    [html_parser] builds the tree of markup made of start tags, end tags
    and text without character references, comments or declarations: the
    fragment of [html.parser] that the examples of this development need.
    Unclosed tags are closed at the end of the input and an end tag
    without a start tag is dropped, as [bs4] does.  Theorems never depend
    on it: they hold for every tree builder. *)

Module HtmlParser.

Inductive token : Type :=
| TText (s : string)
| TOpen (name : string) (attrs : list (string * string)) (selfclose : bool)
| TClose (name : string).

Definition is_char (c : ascii) (a : ascii) : bool := Ascii.eqb a c.

Definition name_char (a : ascii) : bool :=
  negb (Py.ws1 a || is_char "/" a || is_char ">" a).

Definition attr_name_char (a : ascii) : bool :=
  negb (Py.ws1 a || is_char "/" a || is_char ">" a || is_char "=" a).

Definition unquoted_char (a : ascii) : bool :=
  negb (Py.ws1 a || is_char ">" a).

(** The attributes of a start tag and what follows its [>]. *)
Fixpoint parse_attrs (fuel : nat) (s : string)
  : option (list (string * string) * bool * string) :=
  match fuel with
  | O => None
  | S fuel' =>
      let s := Py.lstrip s in
      match s with
      | EmptyString => None
      | String a t =>
          if is_char ">" a then Some ([], false, t)
          else if Py.startswith "/>" s then Some ([], true, Py.drop 2 s)
          else if is_char "/" a then parse_attrs fuel' t
          else
            let '(k, r) := Py.span attr_name_char s in
            let k := Py.lower k in
            match r with
            | String e r' =>
                if is_char "=" e then
                  let '(v, r'') :=
                    match r' with
                    | String q body =>
                        if is_char Soup.dq q || is_char Soup.sq q then
                          let '(v, after) := Py.span (fun c => negb (is_char q c)) body in
                          (v, Py.drop 1 after)
                        else Py.span unquoted_char r'
                    | EmptyString => (EmptyString, EmptyString)
                    end in
                  match parse_attrs fuel' r'' with
                  | Some (rest, sc, out) => Some ((k, v) :: rest, sc, out)
                  | None => None
                  end
                else
                  match parse_attrs fuel' r with
                  | Some (rest, sc, out) => Some ((k, EmptyString) :: rest, sc, out)
                  | None => None
                  end
            | EmptyString => None
            end
      end
  end.

Definition flush_text (acc : string) (l : list token) : list token :=
  match acc with
  | EmptyString => l
  | _ => TText acc :: l
  end.

(** [acc] is the text read so far, most recent character last. *)
Fixpoint tokenize (fuel : nat) (acc : string) (s : string) : list token :=
  match fuel with
  | O => flush_text (acc ++ s) []
  | S fuel' =>
      match s with
      | EmptyString => flush_text acc []
      | String a t =>
          if is_char "<" a then
            match t with
            | String b u =>
                if is_char "/" b then
                  let '(nm, r) := Py.span (fun c => negb (is_char ">" c)) u in
                  match r with
                  | String _ r' =>
                      flush_text acc (TClose (Py.lower (Py.strip nm)) :: tokenize fuel' EmptyString r')
                  | EmptyString => flush_text (acc ++ s) []
                  end
                else if Py.is_alpha b then
                  let '(nm, r) := Py.span name_char t in
                  match parse_attrs (S (String.length r)) r with
                  | Some (at_, sc, out) =>
                      flush_text acc (TOpen (Py.lower nm) at_ sc :: tokenize fuel' EmptyString out)
                  | None => flush_text (acc ++ s) []
                  end
                else tokenize fuel' (acc ++ String a EmptyString) t
            | EmptyString => flush_text (acc ++ s) []
            end
          else tokenize fuel' (acc ++ String a EmptyString) t
      end
  end.

(** An open element: its identity, name, attributes and the children
    read so far, most recent first. *)
Record frame : Type := Frame {
  f_uid : nat; f_name : string;
  f_attrs : list (string * string); f_kids : list node }.

Definition close_frame (f : frame) : node :=
  Tag (f_uid f) (f_name f) (f_attrs f) (rev (f_kids f)).

Definition add_kid (n : node) (f : frame) : frame :=
  Frame (f_uid f) (f_name f) (f_attrs f) (n :: f_kids f).

(** Close the innermost open elements up to and including [nm]. *)
Fixpoint pop_to (nm : string) (top : frame) (below : list frame)
  : frame * list frame :=
  match below with
  | [] => (top, [])
  | parent :: rest =>
      let parent' := add_kid (close_frame top) parent in
      if String.eqb (f_name top) nm then (parent', rest)
      else pop_to nm parent' rest
  end.

Fixpoint close_all (top : frame) (below : list frame) : node :=
  match below with
  | [] => close_frame top
  | parent :: rest => close_all (add_kid (close_frame top) parent) rest
  end.

Fixpoint build (next : nat) (toks : list token) (top : frame)
  (below : list frame) : node :=
  match toks with
  | [] => close_all top below
  | TText s :: rest =>
      build (S next) rest (add_kid (NavigableString next s) top) below
  | TOpen nm at_ sc :: rest =>
      if sc || Soup.is_void nm
      then build (S next) rest (add_kid (Tag next nm at_ []) top) below
      else build (S next) rest (Frame next nm at_ []) (top :: below)
  | TClose nm :: rest =>
      if existsb (fun f => String.eqb (f_name f) nm)
                 (removelast (top :: below))
      then let '(top', below') := pop_to nm top below in
           build next rest top' below'
      else build next rest top below
  end.

Definition html_parser (markup : string) : node :=
  build 1 (tokenize (String.length markup) EmptyString markup)
        (Frame 0 Soup.document_name [] []) [].

End HtmlParser.

(** ** Exceptions

    A Python call either returns or raises.  [OutOfFuel] is the outcome
    of a recursion that was cut before it ended: it is never produced by
    the code itself. *)

Inductive exn : Type :=
  KeyError | ValueError | FileNotFoundError | AttributeError.

Inductive res (A : Type) : Type :=
| Ret (a : A)
| Raise (e : exn)
| OutOfFuel.

Arguments Ret {A} a.
Arguments Raise {A} e.
Arguments OutOfFuel {A}.

(** A Python [dict] whose iteration order matters: bindings in insertion
    order, at most one per key. *)
Module Dict.

Section WithValue.
Context {V : Type}.

Fixpoint get (key : string) (d : list (string * V)) : option V :=
  match d with
  | [] => None
  | (k, v) :: rest => if String.eqb k key then Some v else get key rest
  end.

(** [d[key] = f(d[key])] for a key that is present. *)
Fixpoint alter (f : V -> V) (key : string) (d : list (string * V))
  : list (string * V) :=
  match d with
  | [] => []
  | (k, v) :: rest =>
      if String.eqb k key then (k, f v) :: rest
      else (k, v) :: alter f key rest
  end.

(** [d.setdefault(key, v0)] *)
Definition setdefault (key : string) (v0 : V) (d : list (string * V))
  : list (string * V) :=
  match get key d with
  | Some _ => d
  | None => d ++ [(key, v0)]
  end.

(** [d.pop(key, None)] *)
Fixpoint remove (key : string) (d : list (string * V)) : list (string * V) :=
  match d with
  | [] => []
  | (k, v) :: rest =>
      if String.eqb k key then remove key rest else (k, v) :: remove key rest
  end.

End WithValue.

(** [d.setdefault(key, []).append(x)] *)
Definition setdefault_append {A : Type} (key : string) (x : A)
  (d : list (string * list A)) : list (string * list A) :=
  alter (fun l => l ++ [x]) key (setdefault key [] d).

End Dict.

(** ** parse.py: data containers *)

Module Sense.
Record t : Type := Build {
  text : string;
  marker : option string;
  html : option string }.
End Sense.

Module PartOfSpeechBlock.
Record t : Type := Build {
  label : string;
  html : string;
  senses : list Sense.t }.
End PartOfSpeechBlock.

Module SectionEntry.
Record t : Type := Build {
  text : string;
  label : option string;
  html : option string }.
End SectionEntry.

Module ParsedEntry.
Record t : Type := Build {
  headword : string;
  pos_blocks : list PartOfSpeechBlock.t;
  sections : list (string * list SectionEntry.t);
  raw_html : string }.
End ParsedEntry.

(** ** parse.py: helpers *)

Module Parse.

(** The glyphs of the dictionaries, as UTF-8. *)
Definition utf8 (a b c : nat) : string :=
  String (ascii_of_nat a) (String (ascii_of_nat b) (String (ascii_of_nat c) EmptyString)).

(** U+25A0, U+25AA, U+2022 and U+25B8 *)
Definition POS_BULLETS : list string :=
  [utf8 226 150 160; utf8 226 150 170; utf8 226 128 162; utf8 226 150 184].

(** U+300B, the delimiter after the numeral of a sense. *)
Definition SENSE_DELIM : string := utf8 227 128 139.

Definition SECTION_HEADER_NAMES : list string :=
  ["phrases"; "derivatives"; "origin"; "usage"; "grammar"].

Definition SECTION_DISPLAY_NAMES : list (string * string) :=
  [("headnote", "Headnote"); ("phrases", "Phrases");
   ("derivatives", "Derivatives"); ("origin", "Origin");
   ("usage", "Usage"); ("grammar", "Grammar");
   ("verb_forms", "Verb forms"); ("thesaurus", "Thesaurus");
   ("extra_examples", "Extra examples"); ("more_about", "More about");
   ("notes", "Notes")].

Definition _normalize_ws (text : string) : string :=
  Py.strip (Py.collapse_ws text).

Definition _strip_pos_bullet (text : string) : string :=
  let text := Py.lstrip text in
  let text :=
    if existsb (fun b => Py.startswith b text) POS_BULLETS
    then Py.drop 3 text else text in
  Py.strip text.

(** The text after the parenthesis that closes the one opening [s]:
    the inner [for] loop of [_strip_leading_parentheticals]. *)
Fixpoint after_balanced (depth : Z) (s : string) : option string :=
  match s with
  | EmptyString => None
  | String a t =>
      if Ascii.eqb a "(" then after_balanced (depth + 1) t
      else if Ascii.eqb a ")" then
        if (depth - 1 =? 0)%Z then Some t else after_balanced (depth - 1) t
      else after_balanced depth t
  end.

Fixpoint strip_parens_loop (fuel : nat) (remaining : string) : string :=
  match fuel with
  | O => Py.strip remaining
  | S fuel' =>
      if Py.startswith "(" remaining then
        match after_balanced 0 remaining with
        | Some rest => strip_parens_loop fuel' (Py.lstrip rest)
        | None => Py.strip remaining
        end
      else Py.strip remaining
  end.

Definition _strip_leading_parentheticals (text : string) : string :=
  strip_parens_loop (String.length text) (Py.lstrip text).

Definition closing_punct (a : ascii) : bool :=
  existsb (Ascii.eqb a) ["," ; "." ; ";" ; ":" ; ")" ; "]"]%char.

(** [re.sub(r"\s+([,.;:)\]])", r"\1", text)] *)
Fixpoint tidy_before (fuel : nat) (s : string) : string :=
  match fuel with
  | O => s
  | S fuel' =>
      match s with
      | EmptyString => EmptyString
      | String a t =>
          match Py.ws_head s with
          | O => String a (tidy_before fuel' t)
          | S _ =>
              let r := Py.lstrip s in
              let run := Py.take (String.length s - String.length r) s in
              match r with
              | String p _ =>
                  if closing_punct p then tidy_before fuel' r
                  else run ++ tidy_before fuel' r
              | EmptyString => run
              end
          end
      end
  end.

(** [re.sub(r"([(])\s+", r"\1", text)] *)
Fixpoint tidy_after (fuel : nat) (s : string) : string :=
  match fuel with
  | O => s
  | S fuel' =>
      match s with
      | EmptyString => EmptyString
      | String a t =>
          if Ascii.eqb a "(" then String a (tidy_after fuel' (Py.lstrip t))
          else String a (tidy_after fuel' t)
      end
  end.

Definition _tidy_punctuation_spacing (text : string) : string :=
  let text := tidy_before (String.length text) text in
  let text := tidy_after (String.length text) text in
  Py.strip text.

Definition _tag_to_html (tag : node) : string :=
  Py.strip (Soup.decode_contents tag).

Definition _tag_to_text (tag : node) : string :=
  _normalize_ws (Soup.get_text " " tag).

(** [SENSE_MARKER_RE.match(text)]: the numeral and the text after the
    delimiter, up to the end of the line. *)
Definition sense_marker_match (text : string) : option (string * string) :=
  let '(digits, rest) := Py.span Py.is_digit text in
  if Py.is_empty digits then None
  else if Py.startswith SENSE_DELIM rest then
    let body := Py.lstrip (Py.drop 3 rest) in
    Some (digits, fst (Py.span (fun a => negb (Ascii.eqb a (ascii_of_nat 10))) body))
  else None.

(** [re.compile(r"^green$", re.I).search(value)]: [$] also matches before
    a final newline. *)
Definition green_re (value : string) : bool :=
  let v := Py.lower value in
  String.eqb v "green" || String.eqb v ("green" ++ String (ascii_of_nat 10) EmptyString).

Definition is_green_c (n : node) : bool :=
  match n with
  | Tag _ nm at_ _ =>
      String.eqb nm "c"
      && match Soup.assoc_get "c" at_ with
         | Some v => green_re v
         | None => false
         end
  | NavigableString _ _ => false
  end.

(** [html.escape(s)] *)
Fixpoint escape (s : string) : string :=
  match s with
  | String a t =>
      (if Ascii.eqb a "&" then "&amp;"
       else if Ascii.eqb a "<" then "&lt;"
       else if Ascii.eqb a ">" then "&gt;"
       else if Ascii.eqb a Soup.dq then "&quot;"
       else if Ascii.eqb a Soup.sq then "&#x27;"
       else String a EmptyString) ++ escape t
  | EmptyString => EmptyString
  end.

End Parse.

(** ** parse.py: ConciseOxfordParser *)

Module Concise.

(** The local variables of the loop of [_parse_html].  [current_block]
    is a reference to one of the blocks of [entry.pos_blocks]: its
    position in that list. *)
Record loop_state : Type := LoopState {
  entry : ParsedEntry.t;
  current_section : string;
  current_block : option nat }.

Definition append_sense (s : Sense.t) (b : PartOfSpeechBlock.t)
  : PartOfSpeechBlock.t :=
  PartOfSpeechBlock.Build (PartOfSpeechBlock.label b)
    (PartOfSpeechBlock.html b) (PartOfSpeechBlock.senses b ++ [s]).

Definition with_pos_blocks (bs : list PartOfSpeechBlock.t) (e : ParsedEntry.t)
  : ParsedEntry.t :=
  ParsedEntry.Build (ParsedEntry.headword e) bs (ParsedEntry.sections e)
    (ParsedEntry.raw_html e).

Definition with_sections (ss : list (string * list SectionEntry.t))
  (e : ParsedEntry.t) : ParsedEntry.t :=
  ParsedEntry.Build (ParsedEntry.headword e) (ParsedEntry.pos_blocks e) ss
    (ParsedEntry.raw_html e).

Section WithParser.
Variable BeautifulSoup : string -> node.

Definition _match_section_header (block : node) : option string :=
  let text := Py.lower (Parse._tag_to_text block) in
  List.find (fun name => String.eqb (Py.lower (Py.strip text)) name)
            Parse.SECTION_HEADER_NAMES.

Definition _looks_like_pos_header (block : node) : bool :=
  let text := Parse._strip_pos_bullet (Parse._tag_to_text block) in
  let has_pos_tag := bool_decide (is_Some (Soup.find Parse.is_green_c block)) in
  negb (Py.is_empty text) && has_pos_tag.

Definition _inline_sense_text (block : node) : string :=
  match Soup.find (Soup.has_name "blockquote") (BeautifulSoup (Soup.str block)) with
  | None => EmptyString
  | Some clone =>
      let clone := Soup.after_extract false Parse.is_green_c clone in
      let text := Parse._strip_pos_bullet (Parse._tag_to_text clone) in
      let text := Parse._strip_leading_parentheticals text in
      Parse._tidy_punctuation_spacing text
  end.

Definition _extract_pos_label (block : node) : string :=
  let text := Parse._strip_pos_bullet (Parse._tag_to_text block) in
  let inline_text := _inline_sense_text block in
  let text :=
    if negb (Py.is_empty inline_text) && Py.endswith inline_text text
    then Py.rstrip (Py.take (String.length text - String.length inline_text) text)
    else text in
  Parse._tidy_punctuation_spacing text.

Definition _build_sense (block : node) : option Sense.t :=
  let target :=
    match Soup.find (Soup.has_name "blockquote") block with
    | Some inner => inner
    | None => block
    end in
  let text := Parse._tag_to_text target in
  if Py.is_empty text then None
  else
    let html_content := Parse._tag_to_html target in
    match Parse.sense_marker_match text with
    | Some (marker, body) =>
        let prefix := (marker ++ Parse.SENSE_DELIM)%string in
        let html_content :=
          if Py.startswith prefix html_content
          then Py.lstrip (Py.drop (String.length prefix) html_content)
          else html_content in
        Some (Sense.Build (Parse._tidy_punctuation_spacing (Py.strip body))
                          (Some marker) (Some html_content))
    | None =>
        Some (Sense.Build (Parse._tidy_punctuation_spacing text) None
                          (Some html_content))
    end.

Definition _build_inline_sense (block : node) : option Sense.t :=
  let text := _inline_sense_text block in
  if Py.is_empty text then None
  else Some (Sense.Build text None (Some text)).

Definition _build_section_entry (block : node) : SectionEntry.t :=
  match Soup.find (Soup.has_name "blockquote") (BeautifulSoup (Soup.str block)) with
  | None =>
      SectionEntry.Build (Parse._tag_to_text block) None
                         (Some (Parse._tag_to_html block))
  | Some clone =>
      let label := option_map Parse._tag_to_text (Soup.find (Soup.has_name "b") clone) in
      let clone := Soup.after_extract true (Soup.has_name "b") clone in
      SectionEntry.Build
        (Parse._tidy_punctuation_spacing (Parse._tag_to_text clone))
        label (Some (Parse._tag_to_html clone))
  end.

(** One turn of the [for block in root.find_all("blockquote",
    recursive=False)] loop. *)
Definition step (st : loop_state) (block : node) : loop_state :=
  let e := entry st in
  if Py.is_empty (Parse._tag_to_text block) then st
  else
    match _match_section_header block with
    | Some section =>
        LoopState (with_sections (Dict.setdefault section [] (ParsedEntry.sections e)) e)
                  section (current_block st)
    | None =>
        if String.eqb (current_section st) "senses" && _looks_like_pos_header block
        then
          let blk := PartOfSpeechBlock.Build (_extract_pos_label block)
                       (Parse._tag_to_html block) [] in
          let idx := List.length (ParsedEntry.pos_blocks e) in
          let blocks := ParsedEntry.pos_blocks e ++ [blk] in
          let blocks :=
            match _build_inline_sense block with
            | Some inline => alter (append_sense inline) idx blocks
            | None => blocks
            end in
          LoopState (with_pos_blocks blocks e) "senses" (Some idx)
        else if negb (String.eqb (current_section st) "senses") then
          (* the key is present: a section header has been seen *)
          LoopState
            (with_sections
               (Dict.alter (fun l => l ++ [_build_section_entry block])
                           (current_section st) (ParsedEntry.sections e)) e)
            (current_section st) (current_block st)
        else
          match _build_sense block with
          | Some sense =>
              match current_block st with
              | Some idx =>
                  LoopState
                    (with_pos_blocks
                       (alter (append_sense sense) idx (ParsedEntry.pos_blocks e)) e)
                    (current_section st) (Some idx)
              | None =>
                  let idx := List.length (ParsedEntry.pos_blocks e) in
                  let blocks :=
                    ParsedEntry.pos_blocks e
                      ++ [PartOfSpeechBlock.Build "general" EmptyString []] in
                  LoopState
                    (with_pos_blocks (alter (append_sense sense) idx blocks) e)
                    (current_section st) (Some idx)
              end
          | None =>
              LoopState
                (with_sections
                   (Dict.setdefault_append "notes" (_build_section_entry block)
                      (ParsedEntry.sections e)) e)
                (current_section st) (current_block st)
          end
    end.

Definition _parse_html (fallback_word raw_html : string) : res ParsedEntry.t :=
  let soup := BeautifulSoup ("<entry>" ++ raw_html ++ "</entry>")%string in
  match Soup.find (Soup.has_name "entry") soup with
  | None => Raise ValueError
  | Some root =>
      let headword :=
        match Soup.find (Soup.has_name "k") root with
        | Some headword_tag => Soup.get_text EmptyString headword_tag
        | None => fallback_word
        end in
      let st0 := LoopState (ParsedEntry.Build headword [] [] raw_html) "senses" None in
      Ret (entry (fold_left step (Soup.find_all_children "blockquote" root) st0))
  end.

(** [get_entry] on the loaded dictionary [_dict]. *)
Definition get_entry (_dict : gmap string string) (word : string)
  : res ParsedEntry.t :=
  let raw := default EmptyString (_dict !! word) in
  if Py.is_empty raw then Raise KeyError
  else _parse_html word raw.

End WithParser.
End Concise.

(** ** parse_oald.py: OxfordAdvancedLearnersParser *)

Module Oald.

Definition SECTION_KEYWORDS : list (string * string) :=
  [("word origin", "origin"); ("verb forms", "verb_forms");
   ("thesaurus", "thesaurus"); ("extra examples", "extra_examples");
   ("more about", "more_about")].

Definition SECTION_ALWAYS_COLLECT : list string := ["thesaurus"].

Definition _normalize_ws (text : string) : string :=
  Py.strip (Py.collapse_ws text).

Definition _tag_text (tag : node) : string :=
  _normalize_ws (Soup.get_text " " tag).

Definition _tag_html (tag : node) : string :=
  Py.strip (Soup.decode_contents tag).

Definition is_colon (a : ascii) : bool := Ascii.eqb a ":".
Definition is_dot (a : ascii) : bool := Ascii.eqb a ".".

Definition _looks_like_section_label (text_lower keyword : string) : bool :=
  String.eqb (Py.rstrip_chars is_colon text_lower) keyword.

(** [MARKER_RE.search(s)]: digits, an optional full stop, the end of the
    string or a final newline.  The result is the group of digits. *)
Definition marker_re (s : string) : option string :=
  let '(digits, rest) := Py.span Py.is_digit s in
  let rest := if Py.startswith "." rest then Py.drop 1 rest else rest in
  if Py.is_empty digits then None
  else if Py.is_empty rest || String.eqb rest (String (ascii_of_nat 10) EmptyString)
  then Some digits
  else None.

(** The filter of [find("b", string=MARKER_RE)]. *)
Definition is_marker_b (n : node) : bool :=
  Soup.has_name "b" n
  && match Soup.dot_string n with
     | Some s => bool_decide (is_Some (marker_re s))
     | None => false
     end.

Definition _is_pos_label (tag : node) : bool :=
  String.eqb (Py.lower (Soup.get_attr "c" tag)) "orange".

Definition _detect_section (text_lower : string) : option (string * string) :=
  List.find (fun kw => Py.startswith (fst kw) text_lower) SECTION_KEYWORDS.

Definition _looks_like_sense (block : node) : bool :=
  bool_decide (is_Some (Soup.find is_marker_b block)).

(** The local variables of the loop of [_parse_entry].  [current_block]
    and [last_sense] are references into [entry.pos_blocks]: a position
    in that list, and a position in the list of senses of that block. *)
Record loop_state : Type := LoopState {
  entry : ParsedEntry.t;
  headnote_fragments : list string;
  before_first_sense : bool;
  current_block : option nat;
  last_sense : option (nat * nat);
  pending_section : option string;
  active_section : option string }.

Definition with_pos_blocks := Concise.with_pos_blocks.
Definition with_sections := Concise.with_sections.

Definition set_entry (e : ParsedEntry.t) (st : loop_state) : loop_state :=
  LoopState e (headnote_fragments st) (before_first_sense st)
    (current_block st) (last_sense st) (pending_section st) (active_section st).

Definition sense_note (html : string) : string :=
  ("<div class=" ++ String Soup.dq "sense-note" ++ String Soup.dq ">"
     ++ html ++ "</div>")%string.

Definition _append_to_sense (sense : Sense.t) (block : node) : Sense.t :=
  let html := _tag_html block in
  if Py.is_empty html then sense
  else Sense.Build (Sense.text sense) (Sense.marker sense)
         (Some (default EmptyString (Sense.html sense) ++ sense_note html)%string).

Definition _append_section (e : ParsedEntry.t) (key : string) (block : node)
  : ParsedEntry.t :=
  let html := _tag_html block in
  if Py.is_empty html then e
  else with_sections
         (Dict.setdefault_append key
            (SectionEntry.Build (_tag_text block) None (Some html))
            (ParsedEntry.sections e)) e.

Definition alter_senses (f : list Sense.t -> list Sense.t)
  (b : PartOfSpeechBlock.t) : PartOfSpeechBlock.t :=
  PartOfSpeechBlock.Build (PartOfSpeechBlock.label b)
    (PartOfSpeechBlock.html b) (f (PartOfSpeechBlock.senses b)).

Section WithParser.
Variable BeautifulSoup : string -> node.

(** Returns the entry and the emptied list of fragments. *)
Definition _flush_headnote (e : ParsedEntry.t) (fragments : list string)
  : ParsedEntry.t * list string :=
  match fragments with
  | [] => (e, [])
  | _ =>
      let html := Py.strip (String.concat EmptyString fragments) in
      if Py.is_empty html then (e, [])
      else
        let text := _normalize_ws (Soup.get_text " " (BeautifulSoup html)) in
        (with_sections
           (Dict.setdefault_append "headnote"
              (SectionEntry.Build text None (Some html))
              (ParsedEntry.sections e)) e, [])
  end.

(** [clone.find] on a missing clone is an [AttributeError]. *)
Definition _build_sense (block : node) : res Sense.t :=
  match Soup.find (Soup.has_name "blockquote") (BeautifulSoup (Soup.str block)) with
  | None => Raise AttributeError
  | Some clone =>
      let marker :=
        match Soup.find is_marker_b clone with
        | Some marker_tag =>
            marker_re (Py.rstrip_chars is_dot (Soup.get_text EmptyString marker_tag))
        | None => None
        end in
      let clone := Soup.after_extract true is_marker_b clone in
      Ret (Sense.Build (_tag_text clone) marker (Some (_tag_html clone)))
  end.

(** The flush at the first part-of-speech label or block quote. *)
Definition leave_headnote (st : loop_state) : loop_state :=
  if before_first_sense st then
    let '(e, frags) := _flush_headnote (entry st) (headnote_fragments st) in
    LoopState e frags false (current_block st) (last_sense st)
      (pending_section st) (active_section st)
  else st.

Definition step_blockquote (st : loop_state) (child : node) : res loop_state :=
  let st := leave_headnote st in
  let e := entry st in
  let text_lower := Py.lower (_tag_text child) in
  match _detect_section text_lower with
  | Some (keyword, section_key) =>
      if _looks_like_section_label text_lower keyword then
        Ret (LoopState e (headnote_fragments st) (before_first_sense st)
               (current_block st) (last_sense st) (Some section_key)
               (Some section_key))
      else
        Ret (LoopState (_append_section e section_key child)
               (headnote_fragments st) (before_first_sense st)
               (current_block st) (last_sense st) None (Some section_key))
  | None =>
      match pending_section st with
      | Some pending =>
          Ret (LoopState (_append_section e pending child)
                 (headnote_fragments st) (before_first_sense st)
                 (current_block st) (last_sense st) None (active_section st))
      | None =>
          let collect :=
            match active_section st with
            | Some active =>
                if existsb (String.eqb active) SECTION_ALWAYS_COLLECT
                   || negb (_looks_like_sense child)
                then Some active else None
            | None => None
            end in
          match collect with
          | Some active => Ret (set_entry (_append_section e active child) st)
          | None =>
              if _looks_like_sense child then
                let '(blocks, idx) :=
                  match current_block st with
                  | Some idx => (ParsedEntry.pos_blocks e, idx)
                  | None =>
                      ((ParsedEntry.pos_blocks e
                          ++ [PartOfSpeechBlock.Build "entry" EmptyString []])%list,
                       List.length (ParsedEntry.pos_blocks e))
                  end in
                match _build_sense child with
                | Ret sense =>
                    let pos :=
                      List.length
                        (default [] (PartOfSpeechBlock.senses <$> blocks !! idx)) in
                    Ret (LoopState
                           (with_pos_blocks
                              (alter (alter_senses (fun l => l ++ [sense])%list) idx blocks) e)
                           (headnote_fragments st) (before_first_sense st)
                           (Some idx) (Some (idx, pos)) None None)
                | Raise x => Raise x
                | OutOfFuel => OutOfFuel
                end
              else
                match last_sense st with
                | Some (bi, si) =>
                    Ret (set_entry
                           (with_pos_blocks
                              (alter (alter_senses
                                        (alter (fun s => _append_to_sense s child) si))
                                     bi (ParsedEntry.pos_blocks e)) e) st)
                | None => Ret (set_entry (_append_section e "notes" child) st)
                end
          end
      end
  end.

(** One turn of the [for child in list(root.children)] loop. *)
Definition step (st : loop_state) (child : node) : res loop_state :=
  match child with
  | NavigableString _ s =>
      if before_first_sense st && negb (Py.is_empty (Py.strip s))
      then Ret (LoopState (entry st) (headnote_fragments st ++ [s])%list
                  (before_first_sense st) (current_block st) (last_sense st)
                  (pending_section st) (active_section st))
      else Ret st
  | Tag _ nm _ _ =>
      if String.eqb nm "k" then Ret st
      else if String.eqb nm "c" && _is_pos_label child then
        let st := leave_headnote st in
        let e := entry st in
        let label := _normalize_ws (Soup.get_text " " child) in
        let blk := PartOfSpeechBlock.Build label (Soup.decode child) [] in
        Ret (LoopState
               (with_pos_blocks (ParsedEntry.pos_blocks e ++ [blk])%list e)
               (headnote_fragments st) (before_first_sense st)
               (Some (List.length (ParsedEntry.pos_blocks e))) None
               (pending_section st) None)
      else if String.eqb nm "blockquote" then step_blockquote st child
      else if before_first_sense st then
        Ret (LoopState (entry st)
               (headnote_fragments st ++ [Soup.decode child])%list
               (before_first_sense st) (current_block st) (last_sense st)
               (pending_section st) (active_section st))
      else
        Ret (LoopState (_append_section (entry st) "notes" child)
               (headnote_fragments st) (before_first_sense st)
               (current_block st) (last_sense st) (pending_section st) None)
  end.

Fixpoint run_loop (children : list node) (st : loop_state) : res loop_state :=
  match children with
  | [] => Ret st
  | child :: rest =>
      match step st child with
      | Ret st' => run_loop rest st'
      | Raise x => Raise x
      | OutOfFuel => OutOfFuel
      end
  end.

Definition has_senses (block : PartOfSpeechBlock.t) : bool :=
  match PartOfSpeechBlock.senses block with [] => false | _ => true end.

(** The end of [_parse_entry]: the last flush and the pruning of the
    blocks without senses. *)
Definition finish (st : loop_state) : ParsedEntry.t :=
  let '(e, _) := _flush_headnote (entry st) (headnote_fragments st) in
  with_pos_blocks (List.filter has_senses (ParsedEntry.pos_blocks e)) e.

Definition init_state (headword raw_html : string) : loop_state :=
  LoopState (ParsedEntry.Build headword [] [] raw_html) [] true None None None None.

Definition _parse_entry (fallback_word raw_html : string) : res ParsedEntry.t :=
  let soup := BeautifulSoup ("<entry>" ++ raw_html ++ "</entry>")%string in
  match Soup.find (Soup.has_name "entry") soup with
  | None => Raise ValueError
  | Some root =>
      let headword :=
        match Soup.find (Soup.has_name "k") root with
        | Some headword_tag => Soup.get_text EmptyString headword_tag
        | None => fallback_word
        end in
      match run_loop (Soup.contents_of root) (init_state headword raw_html) with
      | Ret st => Ret (finish st)
      | Raise x => Raise x
      | OutOfFuel => OutOfFuel
      end
  end.

Definition get_entry (_dict : gmap string string) (word : string)
  : res ParsedEntry.t :=
  let raw := default EmptyString (_dict !! word) in
  if Py.is_empty raw then Raise KeyError
  else _parse_entry word raw.

End WithParser.
End Oald.

(** ** parse.py: render_entry_html *)

Module Render.

(** The value found under a key of a mapping: no such key, [None], or a
    string. *)
Inductive field : Type := Missing | PyNone | Str (s : string).

(** [str(d.get(key, dflt))] *)
Definition str_or (dflt : string) (f : field) : string :=
  match f with
  | Missing => dflt
  | PyNone => "None"
  | Str s => s
  end.

(** The value when it is truthy. *)
Definition truthy (f : field) : option string :=
  match f with
  | Str s => if Py.is_empty s then None else Some s
  | _ => None
  end.

Record SenseMap : Type := MkSense {
  sense_text : string; sense_marker : field; sense_html : field }.

Record BlockMap : Type := MkBlock {
  block_label : field; block_html : field; block_senses : list SenseMap }.

Record ItemMap : Type := MkItem {
  item_text : string; item_label : field; item_html : field }.

Record EntryMap : Type := MkEntry {
  headword : field;
  pos_blocks : list BlockMap;
  sections : list (string * list ItemMap) }.

Definition of_option (o : option string) : field :=
  match o with Some s => Str s | None => PyNone end.

(** [_entry_mapping] of a [ParsedEntry]: [dataclasses.asdict]. *)
Definition _entry_mapping (e : ParsedEntry.t) : EntryMap :=
  MkEntry (Str (ParsedEntry.headword e))
    (map (fun b =>
            MkBlock (Str (PartOfSpeechBlock.label b))
              (Str (PartOfSpeechBlock.html b))
              (map (fun s => MkSense (Sense.text s) (of_option (Sense.marker s))
                                     (of_option (Sense.html s)))
                   (PartOfSpeechBlock.senses b)))
         (ParsedEntry.pos_blocks e))
    (map (fun kv =>
            (fst kv,
             map (fun i => MkItem (SectionEntry.text i)
                                  (of_option (SectionEntry.label i))
                                  (of_option (SectionEntry.html i)))
                 (snd kv)))
         (ParsedEntry.sections e)).

Definition upper_char (a : ascii) : ascii :=
  if Py.is_lower a then ascii_of_nat (Py.code a - 32) else a.

(** [str.title()] *)
Fixpoint title_from (in_word : bool) (s : string) : string :=
  match s with
  | String a t =>
      String (if in_word then Py.lower_char a else upper_char a)
             (title_from (Py.is_alpha a) t)
  | EmptyString => EmptyString
  end.

Definition _get_display_name (section_key : string) : string :=
  match Soup.assoc_get section_key Parse.SECTION_DISPLAY_NAMES with
  | Some name => name
  | None => title_from false (Soup.replace_char "_" " " section_key)
  end.

Definition class_char (a : ascii) : bool :=
  Py.is_digit a || Py.is_alpha a || Ascii.eqb a "_" || Ascii.eqb a "-".

(** [re.sub(r"[^0-9a-zA-Z_-]+", "-", s)] *)
Fixpoint dash_runs (in_run : bool) (s : string) : string :=
  match s with
  | String a t =>
      if class_char a then String a (dash_runs false t)
      else if in_run then dash_runs true t
      else String "-" (dash_runs true t)
  | EmptyString => EmptyString
  end.

Definition _section_class_name (section_key : string) : string :=
  let safe := dash_runs false section_key in
  let safe := Py.lower (Py.strip_chars (fun a => Ascii.eqb a "-") safe) in
  if Py.is_empty safe then "section" else safe.

Definition _html_or_text (html_value : field) (text_value : string) : string :=
  match truthy html_value with
  | Some h => h
  | None => Parse.escape text_value
  end.

(** [ class="value"] *)
Definition class_attr (value : string) : string :=
  (" class=" ++ String Soup.dq value ++ String Soup.dq EmptyString)%string.

Definition clamp_level (heading_level : Z) : Z :=
  Z.min 6 (Z.max 1 heading_level).

(** The decimal form of a level between 1 and 6. *)
Definition level_digit (z : Z) : string :=
  String (ascii_of_nat (48 + Z.to_nat z)) EmptyString.

Definition dot_colon (a : ascii) : bool := Ascii.eqb a "." || Ascii.eqb a ":".

Definition render_item (item : ItemMap) : string :=
  let label :=
    match item_label item with
    | Missing | PyNone => EmptyString
    | Str s => Py.strip s
    end in
  let label :=
    if negb (Py.is_empty label)
       && String.eqb (Py.strip_chars dot_colon (Py.lower label)) "none"
    then EmptyString else label in
  let label_html :=
    if Py.is_empty label then EmptyString
    else ("<strong" ++ class_attr "section-label" ++ ">"
            ++ Parse.escape label ++ "</strong> ")%string in
  let body_html := _html_or_text (item_html item) (item_text item) in
  ("<li>" ++ label_html ++ body_html ++ "</li>")%string.

(** The inner function [_append_section_block]: the lines it appends. *)
Definition _append_section_block (subseq_tag section_key : string)
  (entries : list ItemMap) : list string :=
  match entries with
  | [] => []
  | _ =>
      let section_name := Parse.escape (_get_display_name section_key) in
      [("<section"
          ++ class_attr ("entry-section entry-section-"
                           ++ _section_class_name section_key) ++ ">")%string;
       ("<" ++ subseq_tag ++ ">" ++ section_name ++ "</" ++ subseq_tag ++ ">")%string;
       "<ul>"]
      ++ map render_item entries
      ++ ["</ul></section>"]
  end%list.

Definition render_sense (sense : SenseMap) : string :=
  let text_html := _html_or_text (sense_html sense) (sense_text sense) in
  let marker := Py.strip (str_or EmptyString (sense_marker sense)) in
  let marker_html :=
    if Py.is_empty marker then EmptyString
    else ("<span" ++ class_attr "sense-marker" ++ ">"
            ++ Parse.escape marker ++ ".</span> ")%string in
  ("<li>" ++ marker_html ++ text_html ++ "</li>")%string.

Definition render_block (subseq_tag : string) (block : BlockMap) : list string :=
  let label := Parse.escape (Py.strip (str_or EmptyString (block_label block))) in
  (["<section" ++ class_attr "pos-block" ++ ">"]%string
   ++ (if Py.is_empty label then []
       else [("<" ++ subseq_tag ++ class_attr "pos-label" ++ ">" ++ label
                ++ "</" ++ subseq_tag ++ ">")%string])
   ++ match block_senses block with
      | [] =>
          match truthy (block_html block) with
          | Some h => [("<p>" ++ h ++ "</p>")%string]
          | None => []
          end
      | senses =>
          ["<ol" ++ class_attr "sense-list" ++ ">"]%string
          ++ map render_sense senses ++ ["</ol>"]
      end
   ++ ["</section>"])%list.

(** The text of the headword heading. *)
Definition heading_text (entry_dict : EntryMap) : string :=
  let shown := Py.strip (str_or EmptyString (headword entry_dict)) in
  Parse.escape (if Py.is_empty shown then "Entry" else shown).

Definition heading_line (h_tag headword : string) : string :=
  ("<" ++ h_tag ++ class_attr "entry-headword" ++ ">" ++ headword
     ++ "</" ++ h_tag ++ ">")%string.

Definition render_parts (entry_dict : EntryMap) (heading_level : Z) : list string :=
  let heading_level := clamp_level heading_level in
  let headword := heading_text entry_dict in
  let h_tag := ("h" ++ level_digit heading_level)%string in
  let subseq_tag := ("h" ++ level_digit (Z.min 6 (heading_level + 1)))%string in
  let headnote_entries := default [] (Dict.get "headnote" (sections entry_dict)) in
  let rest := Dict.remove "headnote" (sections entry_dict) in
  (["<article" ++ class_attr "concise-oxford-entry" ++ ">";
    heading_line h_tag headword]%string
   ++ _append_section_block subseq_tag "headnote" headnote_entries
   ++ flat_map (render_block subseq_tag) (pos_blocks entry_dict)
   ++ flat_map (fun kv => _append_section_block subseq_tag (fst kv) (snd kv)) rest
   ++ ["</article>"])%list.

Definition newline : string := String (ascii_of_nat 10) EmptyString.

Definition render_mapping (entry_dict : EntryMap) (heading_level : Z) : string :=
  Py.join newline (render_parts entry_dict heading_level).

(** [render_entry_html] on a [ParsedEntry]. *)
Definition render_entry_html (e : ParsedEntry.t) (heading_level : Z) : string :=
  render_mapping (_entry_mapping e) heading_level.

End Render.

(** ** dictionary_lookup.py: HTMLDefinitionLookup *)

Module Lookup.

(** U+2192, the arrow before the target of a cross-reference. *)
Definition ARROW : string := Parse.utf8 226 134 146.

Definition word_char (a : ascii) : bool :=
  Py.is_alpha a || Ascii.eqb a Soup.sq || Ascii.eqb a "_" || Ascii.eqb a "-".

(** The target word at the head of [s]: a letter, then letters,
    apostrophes, underscores and hyphens, as many as there are. *)
Definition take_word (s : string) : option string :=
  match s with
  | String a _ => if Py.is_alpha a then Some (fst (Py.span word_char s)) else None
  | EmptyString => None
  end.

(** [re.search] of the arrow, optional whitespace and a target word:
    the leftmost position where the whole pattern matches. *)
Fixpoint search_arrow (s : string) : option string :=
  match s with
  | EmptyString => None
  | String _ t =>
      match (if Py.startswith ARROW s then take_word (Py.lstrip (Py.drop 3 s))
             else None) with
      | Some w => Some w
      | None => search_arrow t
      end
  end.

(** Whitespace, at least once, and a target word. *)
Definition ws_then_word (s : string) : option string :=
  match Py.ws_head s with
  | O => None
  | S _ => take_word (Py.lstrip s)
  end.

(** [re.match] of [see], an optional [also] and a target word, without
    regard to case; the optional group is given up when the rest does
    not match after it. *)
Definition match_see (s : string) : option string :=
  if Py.startswith "see" (Py.lower s) then
    let r := Py.drop 3 s in
    let after_also :=
      match Py.ws_head r with
      | O => None
      | S _ =>
          if Py.startswith "also" (Py.lower (Py.lstrip r))
          then ws_then_word (Py.drop 4 (Py.lstrip r))
          else None
      end in
    match after_also with
    | Some w => Some w
    | None => ws_then_word r
    end
  else None.

(** The test of [_should_drop] on a text node. *)
Definition bracketed (raw : string) : bool :=
  match raw with
  | String a t =>
      Ascii.eqb a "["
      && match Py.span (fun c => negb (Ascii.eqb c "]")) t with
         | (inner, close) => negb (Py.is_empty inner) && String.eqb close "]"
         end
  | EmptyString => false
  end.

Definition letters_only (normalized : string) : string :=
  Py.keep Py.is_lower normalized.

Definition _should_drop (text : string) : bool :=
  let raw := Py.strip text in
  if Py.is_empty raw then false
  else
    let normalized := Py.lower raw in
    if existsb (String.eqb (letters_only normalized)) ["bre"; "name"; "nam e"]
    then true
    else if bracketed raw then true
    else if Py.endswith ".wav" (Py.lower raw) then true
    else Py.contains "pronunciation" normalized && (Py.count_words raw <=? 3)%nat.

Definition is_audio (n : node) : bool :=
  Soup.has_name "rref" n || Soup.has_name "audio" n.

(** [for tag in soup.find_all(["rref", "audio"]): tag.decompose()] *)
Fixpoint remove_audio (n : node) : node :=
  match n with
  | NavigableString _ _ => n
  | Tag u nm at_ cs =>
      Tag u nm at_
        (flat_map (fun c => if is_audio c then [] else [remove_audio c]) cs)
  end.

Definition mentions (u : nat) (n : node) : bool :=
  existsb (fun t => Nat.eqb (Soup.uid_of t) u) (Soup.strings n).

(** [parent = text_node.parent; text_node.extract()] and the loop that
    decomposes the parents left without visible text, for the text node
    of identity [u].  [None]: [n] itself is gone. *)
Fixpoint drop_text (u : nat) (n : node) : option node :=
  match n with
  | NavigableString v _ => if Nat.eqb v u then None else Some n
  | Tag v nm at_ cs =>
      let cs' :=
        flat_map (fun c => match drop_text u c with
                           | Some c' => [c']
                           | None => []
                           end) cs in
      let n' := Tag v nm at_ cs' in
      if mentions u n && Py.is_empty (Soup.get_text " " n') then None
      else Some n'
  end.

(** A decomposed document has no contents left. *)
Definition drop_in_soup (u : nat) (soup : node) : node :=
  match drop_text u soup with
  | Some soup' => soup'
  | None => Tag (Soup.uid_of soup) (Soup.name_of soup) [] []
  end.

(** One turn of [for text_node in list(soup.find_all(string=True))]. *)
Definition sanitize_step (soup : node) (text_node : node) : node :=
  if _should_drop (Soup.text_of text_node)
  then drop_in_soup (Soup.uid_of text_node) soup
  else soup.

(** The tree that [_strip_unwanted_segments] serialises. *)
Definition sanitize_tree (soup : node) : node :=
  let soup := remove_audio soup in
  fold_left sanitize_step (Soup.strings soup) soup.

Inductive parser_slot : Type :=
| Uninit
| Failed
| Ready (_dict : gmap string string).

(** The attributes of the resolver that change. *)
Record state : Type := State {
  _oald_parser : parser_slot;
  _concise_parser : parser_slot;
  _cache : gmap string string }.

Section WithWorld.
(** The tree builder; what constructing each parser finds on disk
    ([None]: [FileNotFoundError]); the [get_def] of the fallback. *)
Variable BeautifulSoup : string -> node.
Variable oald_files : option (gmap string string).
Variable concise_files : option (gmap string string).
Variable _fallback : string -> string.

Definition _strip_unwanted_segments (html : string) : string :=
  if Py.is_empty html then EmptyString
  else Soup.decode (sanitize_tree (BeautifulSoup html)).

Definition plain_text (html : string) : string :=
  Soup.get_text " " (BeautifulSoup html).

Definition _is_valid_definition (html : string) : bool :=
  if Py.is_empty html then false
  else
    let text := plain_text html in
    if Py.is_empty text then false
    else
      let normalized := Py.lower text in
      let stripped := Py.strip normalized in
      if Py.startswith "see " stripped then false
      else if Py.startswith "see also " stripped then false
      else if Py.startswith ARROW stripped then false
      else if Py.startswith ("none. " ++ ARROW) stripped then false
      else true.

Definition _extract_cross_reference (html : string) : option string :=
  if Py.is_empty html then None
  else
    let text := plain_text html in
    if Py.is_empty text then None
    else
      match search_arrow text with
      | Some target => Some target
      | None => match_see (Py.strip text)
      end.

Definition _get_oald_parser (st : state) : option (gmap string string) * state :=
  match _oald_parser st with
  | Uninit =>
      match oald_files with
      | Some d => (Some d, State (Ready d) (_concise_parser st) (_cache st))
      | None => (None, State Failed (_concise_parser st) (_cache st))
      end
  | Failed => (None, st)
  | Ready d => (Some d, st)
  end.

Definition _get_concise_parser (st : state) : option (gmap string string) * state :=
  match _concise_parser st with
  | Uninit =>
      match concise_files with
      | Some d => (Some d, State (_oald_parser st) (Ready d) (_cache st))
      | None => (None, State (_oald_parser st) Failed (_cache st))
      end
  | Failed => (None, st)
  | Ready d => (Some d, st)
  end.

(** [try: entry = parser.get_entry(word) / except KeyError: return ""],
    then [render_entry_html(entry)]. *)
Definition render_or_miss (r : res ParsedEntry.t) : res string :=
  match r with
  | Ret e => Ret (Render.render_entry_html e 2)
  | Raise KeyError => Ret EmptyString
  | Raise x => Raise x
  | OutOfFuel => OutOfFuel
  end.

Definition _lookup_oald (word : string) (st : state) : res string * state :=
  match _get_oald_parser st with
  | (None, st) => (Ret EmptyString, st)
  | (Some d, st) => (render_or_miss (Oald.get_entry BeautifulSoup d word), st)
  end.

Definition _lookup_concise (word : string) (st : state) : res string * state :=
  match _get_concise_parser st with
  | (None, st) => (Ret EmptyString, st)
  | (Some d, st) => (render_or_miss (Concise.get_entry BeautifulSoup d word), st)
  end.

Definition _lookup_fallback (word : string) (st : state) : res string * state :=
  (Ret (_fallback word), st).

(** [seen] is the set shared by the calls of one resolution.  [fuel]
    bounds the depth of the recursion. *)
Fixpoint _lookup_with_cross_reference {S : Type} (fuel : nat)
  (provider : option (string -> S -> res string * S)) (word : string)
  (seen : gset string) (st : S) : res string * gset string * S :=
  match fuel with
  | O => (OutOfFuel, seen, st)
  | Datatypes.S fuel' =>
      match provider with
      | None => (Ret EmptyString, seen, st)
      | Some call =>
          let key := Py.strip word in
          if Py.is_empty key then (Ret EmptyString, seen, st)
          else
            let lowered := Py.lower key in
            if decide (lowered ∈ seen) then (Ret EmptyString, seen, st)
            else
              let seen := {[lowered]} ∪ seen in
              match call key st with
              | (Ret html, st) =>
                  if _is_valid_definition html then (Ret html, seen, st)
                  else
                    match _extract_cross_reference html with
                    | Some target =>
                        if negb (Py.is_empty target)
                           && bool_decide (Py.lower target ∉ seen)
                        then _lookup_with_cross_reference fuel' provider target seen st
                        else (Ret EmptyString, seen, st)
                    | None => (Ret EmptyString, seen, st)
                    end
              | (Raise x, st) => (Raise x, seen, st)
              | (OutOfFuel, st) => (OutOfFuel, seen, st)
              end
      end
  end.

(** One source of [get_def]: a resolution with a fresh [seen]. *)
Definition resolve (fuel : nat) (provider : string -> state -> res string * state)
  (key : string) (st : state) : res string * state :=
  let '(r, _, st) := _lookup_with_cross_reference fuel (Some provider) key ∅ st in
  (r, st).

(** [a or b] on the results of two sources: [b] is evaluated only when
    [a] returned the empty string. *)
Definition or_else (a : state -> res string * state)
  (b : state -> res string * state) (st : state) : res string * state :=
  match a st with
  | (Ret html, st') => if Py.is_empty html then b st' else (Ret html, st')
  | other => other
  end.

Definition get_def (fuel : nat) (word : string) (st : state) : res string * state :=
  let key := Py.strip word in
  if Py.is_empty key then (Ret EmptyString, st)
  else
    let cache_key := Py.lower key in
    match _cache st !! cache_key with
    | Some html => (Ret html, st)
    | None =>
        match or_else (resolve fuel _lookup_oald key)
                (or_else (resolve fuel _lookup_concise key)
                         (resolve fuel _lookup_fallback key)) st with
        | (Ret html, st) =>
            let html := _strip_unwanted_segments html in
            (Ret html,
             State (_oald_parser st) (_concise_parser st)
                   (<[cache_key := html]> (_cache st)))
        | other => other
        end
    end.

End WithWorld.
End Lookup.

(** ** Vocabulary of the statements *)

Module Terms.

(** The prefixes of a plain text that is a redirect notice. *)
Definition INVALID_PREFIXES : list string :=
  ["see "; "see also "; Lookup.ARROW; ("none. " ++ Lookup.ARROW)%string].

(** The plain text [none. -> foo], with the arrow glyph. *)
Definition NONE_ARROW_FOO : string :=
  ("none. " ++ Lookup.ARROW ++ " foo")%string.

(** The first line of a rendered entry. *)
Definition article_line : string :=
  ("<article" ++ Render.class_attr "concise-oxford-entry" ++ ">")%string.

(** The headword of a mapping, as [str] shows it. *)
Definition headword_str (m : Render.EntryMap) : string :=
  Render.str_or EmptyString (Render.headword m).

(** The three sources of [get_def], tried in order. *)
Definition sources (BeautifulSoup : string -> node)
  (oald_files concise_files : option (gmap string string))
  (_fallback : string -> string) (fuel : nat) (key : string)
  : Lookup.state -> res string * Lookup.state :=
  Lookup.or_else
    (Lookup.resolve BeautifulSoup fuel
       (Lookup._lookup_oald BeautifulSoup oald_files) key)
    (Lookup.or_else
       (Lookup.resolve BeautifulSoup fuel
          (Lookup._lookup_concise BeautifulSoup concise_files) key)
       (Lookup.resolve BeautifulSoup fuel (Lookup._lookup_fallback _fallback) key)).

End Terms.

(** ** Vocabulary of the statements on cross-references *)

Module Chain.

(** The words of [W] that a resolution has not visited yet. *)
Definition unseen (W : list string) (seen : gset string) : list string :=
  filter (fun k => Py.lower k ∉ seen) W.

(** A provider that returns [f k] and records the word it was asked. *)
Definition logged (f : string -> string) (k : string) (log : list string)
  : res string * list string :=
  (Ret (f k), (log ++ [k])%list).

(** The state after calling the provider on each word of [ks]. *)
Definition run_calls {S : Type} (call : string -> S -> res string * S)
  (ks : list string) (st : S) : S :=
  fold_left (fun s k => snd (call k s)) ks st.

(** The definition [html] ends a resolution: it is valid, or it names
    no target. *)
Definition stops (BeautifulSoup : string -> node) (html : string) : Prop :=
  Lookup._is_valid_definition BeautifulSoup html = true
  \/ Lookup._extract_cross_reference BeautifulSoup html = None.

(** The words of [W] redirect among each other: the target named by
    the definition of a word of [W] is a word of [W]. *)
Definition closed (BeautifulSoup : string -> node) (f : string -> string)
  (W : list string) : Prop :=
  forall k t, k ∈ W ->
    Lookup._is_valid_definition BeautifulSoup (f k) = false ->
    Lookup._extract_cross_reference BeautifulSoup (f k) = Some t ->
    Py.strip t ∈ W.

(** The same, as a test. *)
Definition closedb (BeautifulSoup : string -> node) (f : string -> string)
  (W : list string) : bool :=
  forallb
    (fun k =>
       Lookup._is_valid_definition BeautifulSoup (f k)
       || match Lookup._extract_cross_reference BeautifulSoup (f k) with
          | Some t => bool_decide (Py.strip t ∈ W)
          | None => true
          end) W.

(** The parser that a lookup uses: the one already built, or the one
    that the first use builds from the files. *)
Definition effective (slot : Lookup.parser_slot)
  (files : option (gmap string string)) : option (gmap string string) :=
  match slot with
  | Lookup.Uninit => files
  | Lookup.Failed => None
  | Lookup.Ready d => Some d
  end.

Definition is_ret {A : Type} (r : res A) : bool :=
  match r with Ret _ => true | _ => false end.

(** Every payload of the dictionary of a parser is parsed. *)
Definition parses (parse : string -> string -> res ParsedEntry.t)
  (D : option (gmap string string)) : Prop :=
  forall d k raw, D = Some d -> d !! k = Some raw -> raw <> EmptyString ->
    is_ret (parse k raw) = true.

(** The words that a parser defines. *)
Definition defined_words (D : option (gmap string string)) : list string :=
  match D with
  | Some d => (map_to_list d).*1
  | None => []
  end.

End Chain.

(** ** Vocabulary of the statements on the sources *)

Module Sources.

(** What [_lookup_oald] and [_lookup_concise] return for a word, given
    the parser in use and outside of any raised error. *)
Definition rendered (get : gmap string string -> string -> res ParsedEntry.t)
  (D : option (gmap string string)) (k : string) : string :=
  match D with
  | Some d =>
      match get d k with
      | Ret e => Render.render_entry_html e 2
      | _ => EmptyString
      end
  | None => EmptyString
  end.

(** The parsers in use are those of [Do] and [Dc]. *)
Definition uses (oald_files concise_files Do Dc : option (gmap string string))
  (st : Lookup.state) : Prop :=
  Chain.effective (Lookup._oald_parser st) oald_files = Do
  /\ Chain.effective (Lookup._concise_parser st) concise_files = Dc.

(** A tree builder that finds no element. *)
Definition empty_document (markup : string) : node :=
  Tag 0 Soup.document_name [] [].

End Sources.

(** ** Vocabulary of the statements on the parsers *)

Module Blocks.

(** A block without senses that a part-of-speech header of the Concise
    dialect left behind: the header carries no inline sense. *)
Definition bare_header (BeautifulSoup : string -> node)
  (b : PartOfSpeechBlock.t) : Prop :=
  exists block : node,
    Concise._looks_like_pos_header block = true
    /\ Concise._build_inline_sense BeautifulSoup block = None
    /\ b = PartOfSpeechBlock.Build
             (Concise._extract_pos_label BeautifulSoup block)
             (Parse._tag_to_html block) [].

(** The condition on the blocks met while the Concise parser runs. *)
Definition sensed_or_bare (BeautifulSoup : string -> node)
  (b : PartOfSpeechBlock.t) : Prop :=
  PartOfSpeechBlock.senses b <> [] \/ bare_header BeautifulSoup b.

End Blocks.

(** ** Vocabulary of the statements on the headnote *)

Module Headnote.

(** The children of the root at which the OALD parser leaves the
    headnote: a part-of-speech label or a block quote. *)
Definition is_break (c : node) : bool :=
  match c with
  | Tag _ nm _ _ =>
      (String.eqb nm "c" && Oald._is_pos_label c)
      || String.eqb nm "blockquote"
  | NavigableString _ _ => false
  end.

(** The children before the first break, and the others. *)
Fixpoint split_at_break (cs : list node) : list node * list node :=
  match cs with
  | [] => ([], [])
  | c :: rest =>
      if is_break c then ([], cs)
      else let '(pre, post) := split_at_break rest in (c :: pre, post)
  end.

(** What a child before the first break adds to the headnote: a text
    that is not blank as it is, a tag other than [k] as its markup. *)
Definition fragment (c : node) : list string :=
  match c with
  | NavigableString _ s => if Py.is_empty (Py.strip s) then [] else [s]
  | Tag _ nm _ _ => if String.eqb nm "k" then [] else [Soup.decode c]
  end.

(** The headnote section made of the fragments: one entry, or nothing
    when the fragments are blank. *)
Definition headnote_section (BeautifulSoup : string -> node)
  (fragments : list string) : list (string * list SectionEntry.t) :=
  let html := Py.strip (String.concat EmptyString fragments) in
  if Py.is_empty html then []
  else [("headnote",
         [SectionEntry.Build
            (Oald._normalize_ws (Soup.get_text " " (BeautifulSoup html)))
            None (Some html)])].

(** The OALD parser on a list of children of the root. *)
Definition parse_children (BeautifulSoup : string -> node)
  (headword raw_html : string) (children : list node) : res ParsedEntry.t :=
  match Oald.run_loop BeautifulSoup children (Oald.init_state headword raw_html) with
  | Ret st => Ret (Oald.finish BeautifulSoup st)
  | Raise x => Raise x
  | OutOfFuel => OutOfFuel
  end.

(** The headword that [_parse_entry] gives the entry of [root]. *)
Definition headword_of (root : node) (fallback_word : string) : string :=
  match Soup.find (Soup.has_name "k") root with
  | Some headword_tag => Soup.get_text EmptyString headword_tag
  | None => fallback_word
  end.

(** The entry [e] with the bindings [hn] before its sections. *)
Definition prepend (hn : list (string * list SectionEntry.t))
  (e : ParsedEntry.t) : ParsedEntry.t :=
  Oald.with_sections (hn ++ ParsedEntry.sections e)%list e.

Definition lift (hn : list (string * list SectionEntry.t))
  (st : Oald.loop_state) : Oald.loop_state :=
  Oald.set_entry (prepend hn (Oald.entry st)) st.

Definition add_fragments (fr : list string) (st : Oald.loop_state)
  : Oald.loop_state :=
  Oald.LoopState (Oald.entry st) (Oald.headnote_fragments st ++ fr)%list
    (Oald.before_first_sense st) (Oald.current_block st) (Oald.last_sense st)
    (Oald.pending_section st) (Oald.active_section st).

(** The bindings of the headnote: none, or one. *)
Definition only_headnote {A : Type} (hn : list (string * list A)) : Prop :=
  hn = [] \/ exists l, hn = [("headnote", l)].

(** The state of the loop once the headnote is left: no fragment is
    pending and no open section is the headnote. *)
Definition past_headnote (st : Oald.loop_state) : Prop :=
  Oald.before_first_sense st = false
  /\ Oald.headnote_fragments st = []
  /\ Oald.pending_section st <> Some "headnote"
  /\ Oald.active_section st <> Some "headnote".

End Headnote.

(** ** Vocabulary of the statements on sanitization *)

Module Clean.

(** The text node reads [bre] once trimmed, lowercased and reduced to
    its letters, as the node [BrE] does. *)
Definition is_bre (t : node) : Prop :=
  Lookup.letters_only (Py.lower (Py.strip (Soup.text_of t))) = "bre".

(** The identities of the nodes below [n]. *)
Definition uids_below (n : node) : list nat :=
  map Soup.uid_of (Soup.descendants n).

(** The text node [X] is the only visible text of [E]. *)
Definition only_visible_text (E X : node) : Prop :=
  In X (Soup.strings E)
  /\ forall Y, In Y (Soup.strings E) -> Y <> X ->
       Py.blank (Soup.text_of Y) = true.

(** [n] after the removal of the text node [u] and of the parents it
    leaves without visible text, before [n] itself is examined. *)
Definition drop_body (u : nat) (n : node) : node :=
  match n with
  | NavigableString _ _ => n
  | Tag v nm at_ cs =>
      Tag v nm at_
        (flat_map (fun c => match Lookup.drop_text u c with
                            | Some c' => [c']
                            | None => []
                            end) cs)
  end.

(** The test that removes [n] itself. *)
Definition dropped (u : nat) (n : node) : bool :=
  match n with
  | NavigableString v _ => Nat.eqb v u
  | Tag _ _ _ _ =>
      Lookup.mentions u n && Py.is_empty (Soup.get_text " " (drop_body u n))
  end.

(** [E'] is what is left of [E0] after the removal of the text node
    [u]: the same node, its strings among those of [E0], the visible
    ones other than [u] all there, and with visible text if it is a tag
    that held [u]. *)
Definition remains (u : nat) (E0 E' : node) : Prop :=
  Soup.uid_of E' = Soup.uid_of E0
  /\ Soup.is_tag E' = Soup.is_tag E0
  /\ (forall t, In t (Soup.strings E') ->
        In t (Soup.strings E0) /\ Soup.uid_of t <> u)
  /\ (forall t, In t (Soup.strings E0) -> Soup.uid_of t <> u ->
        Py.blank (Soup.text_of t) = false -> In t (Soup.strings E'))
  /\ (Soup.is_tag E' = true -> Lookup.mentions u E0 = true ->
        Py.is_empty (Soup.get_text " " E') = false).

(** Whatever has the identity of [E] in the tree [T] still holds [X]
    and holds no string that [E] did not hold. *)
Definition holds_X (E X T : node) : Prop :=
  forall E', In E' (Soup.descendants T) ->
    Soup.uid_of E' = Soup.uid_of E ->
    In X (Soup.strings E')
    /\ forall t, In t (Soup.strings E') -> In t (Soup.strings E).

(** No tag of the tree [T] has the identity of [E]. *)
Definition gone (E T : node) : Prop :=
  forall E', In E' (Soup.descendants T) -> Soup.is_tag E' = true ->
    Soup.uid_of E' <> Soup.uid_of E.

(** The identities of the tags below [n]. *)
Definition tag_uids_below (n : node) : list nat :=
  map Soup.uid_of (List.filter Soup.is_tag (Soup.descendants n)).

End Clean.

(** ** A small world for the examples *)

Module Sample.

Definition st0 : Lookup.state := Lookup.State Lookup.Uninit Lookup.Uninit ∅.

(** A fallback that defines [run], whatever its case. *)
Definition run_only (word : string) : string :=
  if String.eqb (Py.lower word) "run" then "<p>to move fast</p>"
  else EmptyString.

(** Two words that redirect to each other. *)
Definition cycle (word : string) : string :=
  if String.eqb word "a" then "<p>see b</p>"
  else if String.eqb word "b" then "<p>see also a</p>"
  else EmptyString.

Definition no_fallback (word : string) : string := EmptyString.

Definition concise_dict : gmap string string :=
  {["run" := "<k>run</k><blockquote><c c=green>v</c> to move fast</blockquote>"]}.

Definition oald_raw : string :=
  "<k>abandon</k> intro <i>more</i><c c=orange>verb</c><blockquote><b>1</b> to leave</blockquote><c c=orange>noun</c>".

Definition boilerplate : string :=
  "<div><span>BrE</span> real text</div>".

(** A fallback in which [bar] points to [foo]. *)
Definition redirecting (word : string) : string :=
  if String.eqb word "bar" then "see also foo"
  else if String.eqb word "foo" then "<p>a real definition</p>"
  else EmptyString.

End Sample.

(** ** render_entry_preview.py and render_oald_preview.py: file names *)

Module Preview.

Definition is_dash (a : ascii) : bool := Ascii.eqb a "-".

(** render_entry_preview.py: [_safe_filename] *)
Definition _safe_filename (word : string) : string :=
  let slug := Render.dash_runs false (Py.strip word) in
  let slug := Py.lower (Py.strip_chars is_dash slug) in
  let slug := if Py.is_empty slug then "entry" else slug in
  ("anki_preview_" ++ slug ++ ".html")%string.

(** render_oald_preview.py: [_safe_slug] *)
Definition _safe_slug (word : string) : string :=
  let slug := Render.dash_runs false (Py.strip word) in
  let stripped := Py.strip_chars is_dash slug in
  ("oald_preview_"
     ++ Py.lower (if Py.is_empty stripped then "entry" else stripped)
     ++ ".html")%string.

(** The characters of a slug: digits, lowercase letters, underscore and
    hyphen. *)
Definition slug_char (a : ascii) : bool :=
  Py.is_digit a || Py.is_lower a || Ascii.eqb a "_" || Ascii.eqb a "-".

End Preview.

(** ** Vocabulary of the statements on the renderer *)

Module Shown.

(** The section has items. *)
Definition has_items {A : Type} (kv : string * list A) : bool :=
  match snd kv with [] => false | _ => true end.

(** The mapping without its sections that have no item. *)
Definition without_empty_sections (m : Render.EntryMap) : Render.EntryMap :=
  Render.MkEntry (Render.headword m) (Render.pos_blocks m)
    (List.filter has_items (Render.sections m)).

(** The line of a sense of text [body] that carries the marker
    [marker]. *)
Definition marked_line (marker body : string) : string :=
  ("<li><span" ++ Render.class_attr "sense-marker" ++ ">" ++ marker
     ++ ".</span> " ++ body ++ "</li>")%string.

End Shown.

(** ** Vocabulary of the statements on the parsed entries *)

Module Shape.

(** The keys of the sections that each parser writes. *)
Definition CONCISE_KEYS : list string :=
  (Parse.SECTION_HEADER_NAMES ++ ["notes"])%list.

Definition OALD_SECTIONS : list string := map snd Oald.SECTION_KEYWORDS.

Definition OALD_KEYS : list string :=
  ("headnote" :: OALD_SECTIONS ++ ["notes"])%list.

Definition keys {V : Type} (d : list (string * V)) : list string := map fst d.

(** The keys of [d] are distinct and among [K]. *)
Definition keys_in {V : Type} (K : list string) (d : list (string * V)) : Prop :=
  NoDup (keys d) /\ forall k, In k (keys d) -> In k K.

(** Every value of [d] has an item. *)
Definition filled {A : Type} (d : list (string * list A)) : Prop :=
  forall kv, In kv d -> snd kv <> [].

Definition entry_of (headword raw_html : string) (e : ParsedEntry.t) : Prop :=
  ParsedEntry.headword e = headword /\ ParsedEntry.raw_html e = raw_html.

(** The variables of [ConciseOxfordParser._parse_html] before its loop,
    and after the loop has run over [blocks]. *)
Definition concise_start (headword raw_html : string) : Concise.loop_state :=
  Concise.LoopState (ParsedEntry.Build headword [] [] raw_html) "senses" None.

Definition concise_after (BeautifulSoup : string -> node)
  (headword raw_html : string) (blocks : list node) : Concise.loop_state :=
  fold_left (Concise.step BeautifulSoup) blocks (concise_start headword raw_html).

(** What the loop of [ConciseOxfordParser._parse_html] keeps true. *)
Definition concise_inv (headword raw_html : string) (st : Concise.loop_state)
  : Prop :=
  entry_of headword raw_html (Concise.entry st)
  /\ keys_in CONCISE_KEYS (ParsedEntry.sections (Concise.entry st))
  /\ (Concise.current_section st = "senses"
      \/ (In (Concise.current_section st) Parse.SECTION_HEADER_NAMES
          /\ In (Concise.current_section st)
                (keys (ParsedEntry.sections (Concise.entry st)))))
  /\ (forall idx, Concise.current_block st = Some idx ->
        (idx < List.length (ParsedEntry.pos_blocks (Concise.entry st)))%nat).

(** What the loop of [OxfordAdvancedLearnersParser._parse_entry] keeps
    true. *)
Definition oald_entry_inv (headword raw_html : string) (e : ParsedEntry.t)
  : Prop :=
  entry_of headword raw_html e
  /\ keys_in OALD_KEYS (ParsedEntry.sections e)
  /\ filled (ParsedEntry.sections e).

Definition oald_inv (headword raw_html : string) (st : Oald.loop_state) : Prop :=
  oald_entry_inv headword raw_html (Oald.entry st)
  /\ (forall s, Oald.pending_section st = Some s -> In s OALD_SECTIONS)
  /\ (forall s, Oald.active_section st = Some s -> In s OALD_SECTIONS).

End Shape.

(** ** endict.py: StarDictWrapper *)

Module Endict.

(** [s.split(sep)] for a separator of one character. *)
Fixpoint split_on (sep : ascii) (s : string) : list string :=
  match s with
  | EmptyString => [EmptyString]
  | String a t =>
      if Ascii.eqb a sep then EmptyString :: split_on sep t
      else match split_on sep t with
           | x :: rest => String a x :: rest
           | [] => [String a EmptyString]
           end
  end.

(** The text before and the text after the first occurrence of [p]. *)
Fixpoint cut (p s : string) : option (string * string) :=
  if Py.startswith p s then Some (EmptyString, Py.drop (String.length p) s)
  else match s with
       | String a t =>
           match cut p t with
           | Some (x, y) => Some (String a x, y)
           | None => None
           end
       | EmptyString => None
       end.

(** A value between double quotes. *)
Definition quoted (v : string) : string :=
  String Soup.dq (v ++ String Soup.dq EmptyString).

(** [XML_TO_HTML_MAP]: each [k] element becomes an [h3] element; the
    pattern is not greedy and its dot matches every character. *)
Fixpoint convert_from (fuel : nat) (text : string) : string :=
  match fuel with
  | O => text
  | S fuel' =>
      match text with
      | EmptyString => EmptyString
      | String a t =>
          if Py.startswith "<k>" text then
            match cut "</k>" (Py.drop 3 text) with
            | Some (inner, rest) =>
                ("<h3>" ++ inner ++ "</h3>" ++ convert_from fuel' rest)%string
            | None => text
            end
          else String a (convert_from fuel' t)
      end
  end.

Definition _convert_xml_to_html (text : string) : string :=
  convert_from (String.length text) text.

Definition STYLE_OPEN : string := ("style=" ++ String Soup.dq EmptyString)%string.

Definition not_quote (a : ascii) : bool := negb (Ascii.eqb a Soup.dq).

(** The declarations that [_clean_style] leaves out. *)
Definition unwanted (p : string) : bool :=
  let lower := Py.lower p in
  Py.contains "writing-mode" lower
  || Py.startswith "border" lower
  || Py.contains "border-left" lower || Py.contains "border-right" lower.

Definition _clean_style (style_val : string) : string :=
  let parts :=
    List.filter (fun p => negb (Py.is_empty p))
      (map Py.strip (split_on ";" style_val)) in
  let cleaned := List.filter (fun p => negb (unwanted p)) parts in
  match cleaned with
  | [] => EmptyString
  | _ => (STYLE_OPEN ++ Py.join "; " cleaned ++ String Soup.dq EmptyString)%string
  end.

(** [STYLE_ATTR_RE.sub(_clean_style, html)] *)
Fixpoint sanitize_from (fuel : nat) (html : string) : string :=
  match fuel with
  | O => html
  | S fuel' =>
      match html with
      | EmptyString => EmptyString
      | String a t =>
          if Py.startswith STYLE_OPEN html then
            let '(value, rest) := Py.span not_quote (Py.drop 7 html) in
            match rest with
            | String _ rest' =>
                (_clean_style value ++ sanitize_from fuel' rest')%string
            | EmptyString => String a (sanitize_from fuel' t)
            end
          else String a (sanitize_from fuel' t)
      end
  end.

Definition _sanitize_styles (html : string) : string :=
  sanitize_from (String.length html) html.

Definition BLOCK_OPEN : string :=
  ("<div class=" ++ quoted "dict-block" ++ " style="
     ++ quoted "margin:0 0 .5em 0; padding:0.35em 0.6em; border-left:0;"
     ++ ">")%string.

Definition DIVIDER : string :=
  ("<div style=" ++ quoted "border-top:1px solid #eee; margin:0.5em 0;"
     ++ "></div>")%string.

(** One turn of the loop that keeps the first occurrence of each
    candidate that is not empty. *)
Definition keep_first (acc : gset string * list string) (c : string)
  : gset string * list string :=
  if negb (Py.is_empty c) && bool_decide (c ∉ fst acc)
  then ({[c]} ∪ fst acc, (snd acc ++ [c])%list)
  else acc.

Section WithWorld.
(** The lemmas of the tokens that spaCy finds in a text, and the
    dictionaries that were loaded. *)
Variable nlp : string -> list string.
Variable dicts : list (gmap string string).

Definition _lemmatize (word : string) : string :=
  match nlp word with
  | lemma_ :: _ => Py.lower lemma_
  | [] => Py.lower word
  end.

Definition _collect_from_all (key : string) : list string :=
  flat_map (fun d : gmap string string =>
              let val := default EmptyString (d !! key) in
              if Py.is_empty val then [] else [val]) dicts.

(** The list [candidates] of [_candidate_keys]. *)
Definition candidates (word : string) : list string :=
  let word_l := Py.lower word in
  ([_lemmatize word; word_l; word]
   ++ (if Py.endswith "ies" word_l
       then [(Py.take (String.length word_l - 3) word_l ++ "y")%string] else [])
   ++ (if Py.endswith "es" word_l
       then [Py.take (String.length word_l - 2) word_l] else [])
   ++ (if Py.endswith "s" word_l
       then [Py.take (String.length word_l - 1) word_l] else []))%list.

Definition _candidate_keys (word : string) : list string :=
  snd (fold_left keep_first (candidates word) (∅, [])).

Definition block (raw : string) : string :=
  (BLOCK_OPEN ++ _sanitize_styles (_convert_xml_to_html raw) ++ "</div>")%string.

Definition get_def (word : string) : string :=
  match dicts with
  | [] => EmptyString
  | _ =>
      let raw_defs := flat_map _collect_from_all (_candidate_keys word) in
      match raw_defs with
      | [] => EmptyString
      | _ => Py.join DIVIDER (map block raw_defs)
      end
  end.

End WithWorld.
End Endict.

(** ** epub_highlighter.py *)

Module Epub.

Definition WORD_SEEN_MAX : Z := 1.

Definition BACKSLASH : ascii := ascii_of_nat 92.
Definition TAB : ascii := ascii_of_nat 9.
Definition CR : ascii := ascii_of_nat 13.
Definition LF : ascii := ascii_of_nat 10.

Definition normalize_name (name : string) : string :=
  List.last (Endict.split_on "/" (Soup.replace_char BACKSLASH "/" name))
            EmptyString.

(** One turn of the loop of [count_matches_delete_frequent]. *)
Definition count_step (d : gmap string Z) (m : string) : gmap string Z :=
  match d !! m with
  | Some n =>
      let d := <[m := (n + 1)%Z]> d in
      if (WORD_SEEN_MAX <=? n + 1)%Z then delete m d else d
  | None => d
  end.

Definition count_matches_delete_frequent (d : gmap string Z)
  (matched_words : list string) : gmap string Z :=
  fold_left count_step matched_words d.

(** The three [replace] calls on a field of the TSV. *)
Definition clean (s : string) : string :=
  Soup.replace_char LF " "
    (Soup.replace_char CR EmptyString (Soup.replace_char TAB " " s)).

(** The local variable [full_html] of [write_anki_tsv]. *)
Definition full_html (html_def ctx_sent : string) : string :=
  if Py.is_empty ctx_sent then html_def
  else ("<p><em>" ++ ctx_sent ++ "</em></p>" ++ html_def)%string.

Definition anki_line (entry : string * string * string) : list string :=
  let '(word, html_def, ctx_sent) := entry in
  if Py.is_empty html_def then []
  else
    [(clean word ++ String TAB EmptyString
        ++ clean (full_html html_def ctx_sent))%string].

(** The entry has a definition. *)
Definition has_definition (entry : string * string * string) : bool :=
  negb (Py.is_empty (snd (fst entry))).

(** The two fields of the card of an entry. *)
Definition card (entry : string * string * string) : list string :=
  [clean (fst (fst entry)); clean (full_html (snd (fst entry)) (snd entry))].

(** A character that is no tabulation, carriage return or line feed. *)
Definition plain_char (b : ascii) : bool :=
  negb (Ascii.eqb b TAB) && negb (Ascii.eqb b CR) && negb (Ascii.eqb b LF).

(** The cache holds definitions of the dictionary only. *)
Definition consistent (get_def : string -> string)
  (def_cache : gmap string string) : Prop :=
  forall w v, def_cache !! w = Some v -> v = get_def w.

(** The text that [write_anki_tsv] writes to the file, if it writes
    one. *)
Definition write_anki_tsv (all_entries : list (string * string * string))
  : option string :=
  match flat_map anki_line all_entries with
  | [] => None
  | lines => Some (Py.join (String LF EmptyString) lines)
  end.

Section WithDictionary.
(** [d.get_def], for the dictionary [d] that the caller passes. *)
Variable get_def : string -> string.
Variable context_map : gmap string string.

Definition glossary_head (section_title : string) : string :=
  (String LF "    <section style=" ++ Endict.quoted "margin-bottom: 0; padding: 0;"
     ++ ">" ++ String LF "        <h2 style="
     ++ Endict.quoted "text-align: center; font-size: 1.5em; margin: 0; padding: 0;"
     ++ ">Glossary " ++ section_title ++ "</h2>"
     ++ String LF "    </section>" ++ String LF "    ")%string.

Definition entry_open : string :=
  ("<div class=" ++ Endict.quoted "dict-entry" ++ " style="
     ++ Endict.quoted "margin:0.35em 0;" ++ ">")%string.

(** One turn of the loop of [build_glossary_section]: the markup so
    far and the cache of definitions. *)
Definition glossary_step (acc : string * gmap string string) (word : string)
  : string * gmap string string :=
  let '(section_html, def_cache) := acc in
  let '(definition, def_cache) :=
    match def_cache !! word with
    | Some definition => (definition, def_cache)
    | None => (get_def word, <[word := get_def word]> def_cache)
    end in
  let sentence := default EmptyString (context_map !! word) in
  let section_html :=
    if Py.is_empty sentence then section_html
    else (section_html ++ "<p style="
            ++ Endict.quoted "font-style:italic; margin:0.25em 0 0.4em 0;"
            ++ ">" ++ sentence ++ "</p>")%string in
  let section_html :=
    if Py.is_empty definition
    then (section_html ++ entry_open ++ "<h3>" ++ word ++ "</h3></div>")%string
    else (section_html ++ entry_open ++ definition ++ "</div>")%string in
  (section_html, def_cache).

(** Returns the markup and the cache as the call leaves it. *)
Definition build_glossary_section (matched_words : list string)
  (section_title : string) (def_cache : gmap string string)
  : string * gmap string string :=
  let '(section_html, def_cache) :=
    fold_left glossary_step matched_words
      (glossary_head section_title, def_cache) in
  ((section_html ++ "</section>")%string, def_cache).

End WithDictionary.
End Epub.

(** * Verification *)

(** ** Facts on the string primitives *)

Module PyFacts.

Lemma ws_head_lstrip_below (n : nat) :
  forall s, (String.length s < n)%nat -> Py.ws_head (Py.lstrip s) = 0%nat.
Proof.
  induction n as [|n IH]; intros s Hlen; [lia|].
  destruct s as [|a t]; [reflexivity|].
  cbn [Py.lstrip]. destruct (Py.ws1 a) eqn:E1.
  { apply IH. cbn in Hlen. lia. }
  destruct t as [|b u]; [cbn; now rewrite E1|].
  destruct (Py.ws2 a b) eqn:E2.
  { apply IH. cbn in Hlen. lia. }
  destruct u as [|c v]; [cbn; now rewrite E1, E2|].
  destruct (Py.ws3 a b c) eqn:E3.
  { apply IH. cbn in Hlen. lia. }
  cbn. now rewrite E1, E2, E3.
Qed.

Lemma ws_head_lstrip (s : string) : Py.ws_head (Py.lstrip s) = 0%nat.
Proof. apply (ws_head_lstrip_below (S (String.length s))). lia. Qed.

Lemma lstrip_no_ws (s : string) : Py.ws_head s = 0%nat -> Py.lstrip s = s.
Proof.
  destruct s as [|a t]; [reflexivity|]. cbn.
  destruct (Py.ws1 a); [discriminate|].
  destruct t as [|b u]; [reflexivity|].
  destruct (Py.ws2 a b); [discriminate|].
  destruct u as [|c v]; [reflexivity|].
  destruct (Py.ws3 a b c); [discriminate|reflexivity].
Qed.

Lemma lstrip_idempotent (s : string) : Py.lstrip (Py.lstrip s) = Py.lstrip s.
Proof. apply lstrip_no_ws, ws_head_lstrip. Qed.

Lemma is_empty_true (s : string) : Py.is_empty s = true <-> s = EmptyString.
Proof. destruct s; cbn; split; congruence. Qed.

Lemma is_empty_false (s : string) : Py.is_empty s = false <-> s <> EmptyString.
Proof. destruct s; cbn; split; congruence. Qed.

Lemma rstrip_blank (s : string) : Py.blank s = true -> Py.rstrip s = EmptyString.
Proof. destruct s as [|a t]; [reflexivity|]. intros H. cbn [Py.rstrip]. now rewrite H. Qed.

Lemma rstrip_not_blank (s : string) :
  Py.blank s = false -> Py.is_empty (Py.rstrip s) = false.
Proof.
  destruct s as [|a t]; [discriminate|]. intros H. cbn [Py.rstrip]. now rewrite H.
Qed.

(** [strip] leaves nothing exactly of the strings made of whitespace. *)
Lemma is_empty_strip (s : string) : Py.is_empty (Py.strip s) = Py.blank s.
Proof.
  unfold Py.strip. destruct (Py.blank s) eqn:E.
  - unfold Py.blank in E. apply is_empty_true in E. now rewrite E.
  - apply rstrip_not_blank. unfold Py.blank in *. now rewrite lstrip_idempotent.
Qed.

Lemma strip_blank (s : string) : Py.blank s = true -> Py.strip s = EmptyString.
Proof. intros H. apply is_empty_true. now rewrite is_empty_strip. Qed.

Lemma lower_is_empty (s : string) : Py.is_empty (Py.lower s) = Py.is_empty s.
Proof. now destruct s. Qed.

Lemma join_cons2 (sep a b : string) (l : list string) :
  Py.join sep (a :: b :: l) = (a ++ sep ++ Py.join sep (b :: l))%string.
Proof. reflexivity. Qed.

End PyFacts.

(** ** The resolver: cache and empty input *)

Module LookupFacts.
Import Lookup.

Section WithWorld.
Variable BeautifulSoup : string -> node.
Variable oald_files concise_files : option (gmap string string).
Variable _fallback : string -> string.


(** What a provider leaves unchanged, a whole resolution leaves
    unchanged. *)
Lemma xref_preserves {S : Type} (P : S -> Prop)
  (call : string -> S -> res string * S) :
  (forall k st r st', call k st = (r, st') -> P st -> P st') ->
  forall fuel word seen st r seen' st',
    _lookup_with_cross_reference BeautifulSoup fuel (Some call) word seen st
      = (r, seen', st') -> P st -> P st'.
Proof.
  intros Hcall. induction fuel as [|fuel IH]; intros word seen st r seen' st' H HP.
  - cbn in H. now inversion H; subst.
  - cbn in H.
    destruct (Py.is_empty (Py.strip word)); [now inversion H; subst|].
    destruct (decide (Py.lower (Py.strip word) ∈ seen)); [now inversion H; subst|].
    destruct (call (Py.strip word) st) as [r1 st1] eqn:Ec.
    pose proof (Hcall _ _ _ _ Ec HP) as HP1.
    destruct r1 as [html|x|]; try (now inversion H; subst).
    destruct (_is_valid_definition BeautifulSoup html); [now inversion H; subst|].
    destruct (_extract_cross_reference BeautifulSoup html) as [target|];
      [|now inversion H; subst].
    destruct (negb (Py.is_empty target) && _); [|now inversion H; subst].
    eapply IH; eauto.
Qed.

Lemma lookup_oald_cache word st r st' :
  _lookup_oald BeautifulSoup oald_files word st = (r, st') -> _cache st' = _cache st.
Proof.
  unfold _lookup_oald, _get_oald_parser.
  destruct (_oald_parser st); [destruct oald_files| |]; intros H; now inversion H.
Qed.

Lemma lookup_concise_cache word st r st' :
  _lookup_concise BeautifulSoup concise_files word st = (r, st') ->
  _cache st' = _cache st.
Proof.
  unfold _lookup_concise, _get_concise_parser.
  destruct (_concise_parser st); [destruct concise_files| |]; intros H; now inversion H.
Qed.

Lemma lookup_fallback_cache word st r st' :
  _lookup_fallback _fallback word st = (r, st') -> _cache st' = _cache st.
Proof. unfold _lookup_fallback. intros H. now inversion H. Qed.

Lemma resolve_cache fuel call key st r st' :
  (forall k s r' s', call k s = (r', s') -> _cache s' = _cache s) ->
  resolve BeautifulSoup fuel call key st = (r, st') -> _cache st' = _cache st.
Proof.
  intros Hcall. unfold resolve.
  destruct (_lookup_with_cross_reference BeautifulSoup fuel (Some call) key ∅ st) as [[r1 seen1] st1] eqn:E.
  intros H. inversion H; subst.
  apply (xref_preserves (fun s => _cache s = _cache st) call) in E; [done| |done].
  intros k s r' s' Hc Hs. rewrite <- Hs. eauto.
Qed.

Lemma or_else_cache a b st r st' :
  (forall s r' s', a s = (r', s') -> _cache s' = _cache s) ->
  (forall s r' s', b s = (r', s') -> _cache s' = _cache s) ->
  or_else a b st = (r, st') -> _cache st' = _cache st.
Proof.
  intros Ha Hb. unfold or_else. destruct (a st) as [r1 st1] eqn:E.
  apply Ha in E. destruct r1 as [html|x|].
  - destruct (Py.is_empty html).
    + intros H. apply Hb in H. congruence.
    + intros H. inversion H; subst. done.
  - intros H. inversion H; subst. done.
  - intros H. inversion H; subst. done.
Qed.


Lemma sources_cache fuel key st r st' :
  Terms.sources BeautifulSoup oald_files concise_files _fallback fuel key st
    = (r, st') ->
  _cache st' = _cache st.
Proof.
  unfold Terms.sources. apply or_else_cache.
  - intros s r' s'. apply resolve_cache. apply lookup_oald_cache.
  - intros s r' s'. apply or_else_cache.
    + intros s0 r0 s0'. apply resolve_cache. apply lookup_concise_cache.
    + intros s0 r0 s0'. apply resolve_cache. apply lookup_fallback_cache.
Qed.

(** A call never replaces a binding of the cache. *)
Lemma get_def_keeps_cache fuel word st r st' :
  get_def BeautifulSoup oald_files concise_files _fallback fuel word st = (r, st') ->
  forall k v, _cache st !! k = Some v -> _cache st' !! k = Some v.
Proof.
  unfold Lookup.get_def. destruct (Py.is_empty (Py.strip word)).
  { intros H; inversion H; subst; auto. }
  destruct (_cache st !! Py.lower (Py.strip word)) as [h|] eqn:Ec.
  { intros H; inversion H; subst; auto. }
  change (or_else _ _ st) with
    (Terms.sources BeautifulSoup oald_files concise_files _fallback fuel
       (Py.strip word) st).
  destruct (Terms.sources _ _ _ _ _ _ st) as [r1 st1] eqn:Es.
  apply sources_cache in Es.
  destruct r1 as [html|x|]; intros H; inversion H; subst; cbn; intros k v Hk.
  - destruct (decide (Py.lower (Py.strip word) = k)) as [<-|Hne]; [congruence|].
    rewrite lookup_insert_ne by done. congruence.
  - congruence.
  - congruence.
Qed.

(** C7. Empty or whitespace-only input: [get_def] returns the empty
    string and the resolver, its cache included, is left as it was. *)
Theorem get_def_blank_input (fuel : nat) (word : string) (st : state) :
  Py.blank word = true ->
  get_def BeautifulSoup oald_files concise_files _fallback fuel word st = (Ret EmptyString, st).
Proof.
  intros H. unfold Lookup.get_def. now rewrite (PyFacts.strip_blank _ H).
Qed.


End WithWorld.
End LookupFacts.

(** ** Validity classification and redirect targets *)

Module ClassifyFacts.
Import Lookup.

Section WithParser.
Variable BeautifulSoup : string -> node.

(** C4. A rendered definition is valid exactly when it is not empty,
    its plain text is not empty, and that text, lowercased and trimmed,
    starts with none of [see ], [see also ], the arrow and [none. ]
    followed by the arrow; whatever follows such a prefix plays no
    part. *)
Theorem is_valid_definition_iff (html : string) :
  _is_valid_definition BeautifulSoup html = true <->
  html <> EmptyString
  /\ plain_text BeautifulSoup html <> EmptyString
  /\ existsb
       (fun p => Py.startswith p
                   (Py.strip (Py.lower (plain_text BeautifulSoup html))))
       Terms.INVALID_PREFIXES = false.
Proof.
  unfold _is_valid_definition, Terms.INVALID_PREFIXES. cbn [existsb].
  destruct (Py.is_empty html) eqn:Eh.
  { apply PyFacts.is_empty_true in Eh. split; [discriminate|]. intros [H _]. done. }
  apply PyFacts.is_empty_false in Eh.
  destruct (Py.is_empty (plain_text BeautifulSoup html)) eqn:Et.
  { apply PyFacts.is_empty_true in Et. split; [discriminate|]. intros (_ & H & _). done. }
  apply PyFacts.is_empty_false in Et.
  set (t := Py.strip (Py.lower (plain_text BeautifulSoup html))).
  destruct (Py.startswith "see " t); [split; [discriminate|]; intros (_ & _ & H); discriminate|].
  destruct (Py.startswith "see also " t); [split; [discriminate|]; intros (_ & _ & H); discriminate|].
  destruct (Py.startswith ARROW t); [split; [discriminate|]; intros (_ & _ & H); discriminate|].
  destruct (Py.startswith ("none. " ++ ARROW) t);
    [split; [discriminate|]; intros (_ & _ & H); discriminate|].
  split; [|reflexivity]. intros _. repeat split; done.
Qed.

(** The arrow pattern has precedence over the [see] pattern. *)
Lemma extract_arrow_first (html target : string) :
  html <> EmptyString ->
  plain_text BeautifulSoup html <> EmptyString ->
  search_arrow (plain_text BeautifulSoup html) = Some target ->
  _extract_cross_reference BeautifulSoup html = Some target.
Proof.
  intros Hh Ht Hs. unfold _extract_cross_reference.
  apply PyFacts.is_empty_false in Hh, Ht. now rewrite Hh, Ht, Hs.
Qed.

(** C9. An entry whose plain text is exactly [none. ], the arrow and
    [ foo] is not a valid definition, and its redirect target is
    [foo]. *)
Theorem none_arrow_redirects_to_foo (html : string) :
  html <> EmptyString ->
  plain_text BeautifulSoup html = Terms.NONE_ARROW_FOO ->
  _is_valid_definition BeautifulSoup html = false
  /\ _extract_cross_reference BeautifulSoup html = Some "foo".
Proof.
  intros Hh Ht. apply PyFacts.is_empty_false in Hh.
  unfold _is_valid_definition, _extract_cross_reference.
  rewrite Hh, Ht. split; vm_compute; reflexivity.
Qed.

End WithParser.

Lemma none_arrow_redirects_to_foo_witness :
  Lookup._is_valid_definition HtmlParser.html_parser
    ("<p>none. " ++ Lookup.ARROW ++ " foo</p>") = false
  /\ Lookup._extract_cross_reference HtmlParser.html_parser
       ("<p>none. " ++ Lookup.ARROW ++ " foo</p>") = Some "foo".
Proof.
  apply (none_arrow_redirects_to_foo HtmlParser.html_parser).
  - discriminate.
  - vm_compute. reflexivity.
Defined.

End ClassifyFacts.

(** ** The renderer *)

Module RenderFacts.
Import Render.


End RenderFacts.

(** ** Cross-reference following *)

Module ChainFacts.
Import Lookup.

Lemma unseen_shrinks (W : list string) (seen : gset string) (k : string) :
  k ∈ W -> Py.lower k ∉ seen ->
  (List.length (Chain.unseen W ({[Py.lower k]} ∪ seen))
   < List.length (Chain.unseen W seen))%nat.
Proof.
  intros Hk Hs. unfold Chain.unseen.
  rewrite (list_filter_iff _ (fun x => Py.lower x ≠ Py.lower k ∧ Py.lower x ∉ seen)).
  2:{ intros x. rewrite not_elem_of_union, not_elem_of_singleton. tauto. }
  rewrite <- list_filter_filter.
  apply (length_filter_lt _ _ k).
  - apply list_elem_of_filter. done.
  - intros H. done.
Qed.

Section Master.
Variable BeautifulSoup : string -> node.
Context {S : Type}.
Variable Inv : S -> Prop.
Variable call : string -> S -> res string * S.
Variable f : string -> string.
Variable W : list string.
Variable R : string -> Prop.

Hypothesis Hcall :
  forall k st, Inv st -> exists st', call k st = (Ret (f k), st') /\ Inv st'.
Hypothesis HR : forall k, R k -> k ∈ W \/ Chain.stops BeautifulSoup (f k).
Hypothesis Hclos :
  forall k t, R k ->
    _is_valid_definition BeautifulSoup (f k) = false ->
    _extract_cross_reference BeautifulSoup (f k) = Some t ->
    R (Py.strip t).

Lemma run_calls_cons k ks st st1 r :
  call k st = (r, st1) ->
  Chain.run_calls call (k :: ks) st = Chain.run_calls call ks st1.
Proof. intros H. unfold Chain.run_calls. cbn. now rewrite H. Qed.

(** A resolution among words that satisfy [R] returns once the fuel
    exceeds the number of words of [W] not yet seen; the words it asks
    the provider are pairwise distinct up to case and were not seen. *)
Lemma xref_returns :
  forall fuel word seen st,
    Inv st -> R (Py.strip word) ->
    (List.length (Chain.unseen W seen) < fuel)%nat ->
    exists html seen' new,
      _lookup_with_cross_reference BeautifulSoup fuel (Some call) word seen st
      = (Ret html, seen', Chain.run_calls call new st)
      /\ Inv (Chain.run_calls call new st)
      /\ seen ⊆ seen'
      /\ NoDup (Py.lower <$> new)
      /\ forall k, k ∈ new -> R k /\ (Py.lower k ∉ seen) /\ (Py.lower k ∈ seen').
Proof.
  induction fuel as [|fuel IH]; intros word seen st HI HRw Hlen; [lia|].
  cbn [_lookup_with_cross_reference].
  set (key := Py.strip word) in *.
  assert (Hnone : forall h : string,
             exists html seen' new,
               (Ret h, seen, st) = (Ret html, seen', Chain.run_calls call new st)
               /\ Inv (Chain.run_calls call new st)
               /\ seen ⊆ seen'
               /\ NoDup (Py.lower <$> new)
               /\ forall k, k ∈ new ->
                    R k /\ (Py.lower k ∉ seen) /\ (Py.lower k ∈ seen')).
  { intros h. exists h, seen, []. split; [done|]. split; [done|].
    split; [done|]. split; [constructor|]. intros k Hk. inversion Hk. }
  destruct (Py.is_empty key); [apply Hnone|].
  destruct (decide (Py.lower key ∈ seen)) as [Hin|Hnin]; [apply Hnone|].
  clear Hnone.
  destruct (Hcall key st HI) as (st1 & Ec & HI1). rewrite Ec.
  assert (Hst1 : Chain.run_calls call [key] st = st1)
    by now rewrite (run_calls_cons _ _ _ _ _ Ec).
  assert (Hone : forall h : string,
             exists html seen' new,
               (Ret h, ({[Py.lower key]} ∪ seen), st1)
               = (Ret html, seen', Chain.run_calls call new st)
               /\ Inv (Chain.run_calls call new st)
               /\ seen ⊆ seen'
               /\ NoDup (Py.lower <$> new)
               /\ forall k, k ∈ new ->
                    R k /\ (Py.lower k ∉ seen) /\ (Py.lower k ∈ seen')).
  { intros h. exists h, ({[Py.lower key]} ∪ seen), [key]. rewrite Hst1.
    split; [done|]. split; [done|]. split; [set_solver|].
    split; [apply NoDup_singleton|].
    intros k Hk. apply list_elem_of_singleton in Hk. subst k.
    split; [done|]. split; [done|]. set_solver. }
  destruct (_is_valid_definition BeautifulSoup (f key)) eqn:Ev; [apply Hone|].
  destruct (_extract_cross_reference BeautifulSoup (f key)) as [t|] eqn:Ex;
    [|apply Hone].
  destruct (negb (Py.is_empty t) && _) eqn:Eb; [|apply Hone].
  clear Hone.
  assert (HkW : key ∈ W).
  { destruct (HR key HRw) as [?|[Hs|Hs]]; [done|congruence|congruence]. }
  pose proof (unseen_shrinks W seen key HkW Hnin) as Hlt.
  destruct (IH t ({[Py.lower key]} ∪ seen) st1 HI1 (Hclos _ _ HRw Ev Ex))
    as (h & seen' & new & Hrun & HInv' & Hsub & Hnd' & Hall'); [lia|].
  exists h, seen', (key :: new).
  rewrite (run_calls_cons _ _ _ _ _ Ec).
  split; [done|]. split; [done|]. split; [set_solver|]. split.
  - rewrite fmap_cons. apply NoDup_cons. split; [|done].
    intros Hin. apply list_elem_of_fmap in Hin as (k & Hk1 & Hk2).
    destruct (Hall' k Hk2) as (_ & Hn & _). apply Hn. rewrite <- Hk1. set_solver.
  - intros k Hk. apply elem_of_cons in Hk as [->|Hk].
    + split; [done|]. split; [done|]. set_solver.
    + destruct (Hall' k Hk) as (Hr & Hn & Hi). split; [done|].
      split; [set_solver|done].
Qed.

End Master.
End ChainFacts.

(** ** Termination and the bound on hops *)

Module HopFacts.
Import Lookup.

Lemma run_calls_logged (f : string -> string) (new log : list string) :
  Chain.run_calls (Chain.logged f) new log = (log ++ new)%list.
Proof.
  revert log. induction new as [|k new IH]; intros log.
  - cbn. now rewrite app_nil_r.
  - unfold Chain.run_calls in *. cbn. rewrite IH. now rewrite <- app_assoc.
Qed.

Lemma closedb_closed (BeautifulSoup : string -> node) (f : string -> string)
  (W : list string) :
  Chain.closedb BeautifulSoup f W = true -> Chain.closed BeautifulSoup f W.
Proof.
  unfold Chain.closedb, Chain.closed. rewrite forallb_forall.
  intros H k t Hk Hv Hx. apply list_elem_of_In in Hk. specialize (H k Hk).
  rewrite Hv, Hx in H. cbn in H. now apply bool_decide_eq_true in H.
Qed.

(** C5. Among [N] words that redirect to each other, in a cycle or
    not, a resolution against one source returns as soon as the fuel
    exceeds [N]; the words it asks the source are words of the set,
    pairwise distinct up to case, hence at most [N]. *)
Theorem cross_reference_terminates (BeautifulSoup : string -> node)
  (f : string -> string) (W : list string) (word : string) (fuel : nat) :
  Chain.closed BeautifulSoup f W ->
  Py.strip word ∈ W ->
  (List.length W < fuel)%nat ->
  exists html seen visited,
    _lookup_with_cross_reference BeautifulSoup fuel (Some (Chain.logged f))
      word ∅ []
    = (Ret html, seen, visited)
    /\ NoDup (Py.lower <$> visited)
    /\ (forall k, k ∈ visited -> k ∈ W)
    /\ (List.length visited <= List.length W)%nat.
Proof.
  intros Hclosed Hword Hfuel.
  destruct (ChainFacts.xref_returns BeautifulSoup (fun _ => True)
              (Chain.logged f) f W (fun k => k ∈ W)) with
    (fuel := fuel) (word := word) (seen := (∅ : gset string))
    (st := ([] : list string))
    as (html & seen & new & Hrun & _ & _ & Hnd & Hall).
  - intros k st _. eexists. split; [reflexivity|exact I].
  - intros k Hk. now left.
  - intros k t Hk Hv Hx. exact (Hclosed k t Hk Hv Hx).
  - exact I.
  - exact Hword.
  - eapply Nat.le_lt_trans; [apply length_filter|exact Hfuel].
  - rewrite run_calls_logged in Hrun. cbn in Hrun.
    exists html, seen, new. split; [exact Hrun|]. split; [exact Hnd|].
    split; [intros k Hk; now destruct (Hall k Hk)|].
    rewrite <- (length_fmap Py.lower new), <- (length_fmap Py.lower W).
    apply submseteq_length, NoDup_submseteq; [exact Hnd|].
    intros x Hx. apply list_elem_of_fmap in Hx as (k & -> & Hk).
    apply list_elem_of_fmap_2. now destruct (Hall k Hk).
Qed.

End HopFacts.

(** ** Errors of the sources *)

Module ErrorFacts.
Import Lookup.

Section WithWorld.
Variable BeautifulSoup : string -> node.
Variable oald_files concise_files : option (gmap string string).
Variable _fallback : string -> string.

Lemma render_or_miss_no_key_error (r : res ParsedEntry.t) :
  render_or_miss r <> Raise KeyError.
Proof. destruct r as [e|[]|]; cbn; congruence. Qed.

Lemma xref_no_key_error {S : Type} (call : string -> S -> res string * S) :
  (forall k st, fst (call k st) <> Raise KeyError) ->
  forall fuel word seen st,
    fst (fst (_lookup_with_cross_reference BeautifulSoup fuel (Some call)
                word seen st)) <> Raise KeyError.
Proof.
  intros Hcall. induction fuel as [|fuel IH]; intros word seen st; [cbn; congruence|].
  cbn [_lookup_with_cross_reference].
  destruct (Py.is_empty (Py.strip word)); [cbn; congruence|].
  destruct (decide (Py.lower (Py.strip word) ∈ seen)); [cbn; congruence|].
  pose proof (Hcall (Py.strip word) st) as Hc.
  destruct (call (Py.strip word) st) as [[html|x|] st1]; cbn in Hc;
    [|cbn; congruence|cbn; congruence].
  destruct (_is_valid_definition BeautifulSoup html); [cbn; congruence|].
  destruct (_extract_cross_reference BeautifulSoup html) as [t|]; [|cbn; congruence].
  destruct (negb (Py.is_empty t) && _); [apply IH|cbn; congruence].
Qed.

Lemma resolve_no_key_error call fuel key st :
  (forall k s, fst (call k s) <> Raise KeyError) ->
  fst (resolve BeautifulSoup fuel call key st) <> Raise KeyError.
Proof.
  intros Hcall. unfold resolve.
  pose proof (xref_no_key_error call Hcall fuel key ∅ st) as H.
  destruct (_lookup_with_cross_reference BeautifulSoup fuel (Some call) key ∅ st)
    as [[r seen] st']. exact H.
Qed.

Lemma or_else_no_key_error a b st :
  (forall s, fst (a s) <> Raise KeyError) ->
  (forall s, fst (b s) <> Raise KeyError) ->
  fst (or_else a b st) <> Raise KeyError.
Proof.
  intros Ha Hb. unfold or_else. pose proof (Ha st) as H.
  destruct (a st) as [[html|x|] st1]; cbn in *; try congruence.
  destruct (Py.is_empty html); [apply Hb|cbn; congruence].
Qed.

Lemma lookup_oald_no_key_error k st :
  fst (_lookup_oald BeautifulSoup oald_files k st) <> Raise KeyError.
Proof.
  unfold _lookup_oald. destruct (_get_oald_parser oald_files st) as [[d|] st1]; cbn.
  - apply render_or_miss_no_key_error.
  - congruence.
Qed.

Lemma lookup_concise_no_key_error k st :
  fst (_lookup_concise BeautifulSoup concise_files k st) <> Raise KeyError.
Proof.
  unfold _lookup_concise. destruct (_get_concise_parser concise_files st) as [[d|] st1]; cbn.
  - apply render_or_miss_no_key_error.
  - congruence.
Qed.

Lemma sources_no_key_error fuel key st :
  fst (Terms.sources BeautifulSoup oald_files concise_files _fallback fuel key st)
  <> Raise KeyError.
Proof.
  unfold Terms.sources. apply or_else_no_key_error.
  - intros s. apply resolve_no_key_error, lookup_oald_no_key_error.
  - intros s. apply or_else_no_key_error.
    + intros s0. apply resolve_no_key_error, lookup_concise_no_key_error.
    + intros s0. apply resolve_no_key_error. intros k s1. cbn. congruence.
Qed.

Lemma get_def_no_key_error fuel word st :
  fst (get_def BeautifulSoup oald_files concise_files _fallback fuel word st)
  <> Raise KeyError.
Proof.
  unfold get_def. destruct (Py.is_empty (Py.strip word)); [cbn; congruence|].
  destruct (_cache st !! Py.lower (Py.strip word)); [cbn; congruence|].
  change (or_else _ _ st) with
    (Terms.sources BeautifulSoup oald_files concise_files _fallback fuel
       (Py.strip word) st).
  pose proof (sources_no_key_error fuel (Py.strip word) st) as H.
  destruct (Terms.sources _ _ _ _ _ _ st) as [[html|x|] st1]; cbn in *; congruence.
Qed.

(** *** When every payload parses *)

Variable Do Dc : option (gmap string string).
Hypothesis Hoald : Chain.parses (Oald._parse_entry BeautifulSoup) Do.
Hypothesis Hconcise : Chain.parses (Concise._parse_html BeautifulSoup) Dc.

Lemma get_entry_cases
  (parse : string -> string -> res ParsedEntry.t)
  (get : gmap string string -> string -> res ParsedEntry.t)
  (D : option (gmap string string)) d k :
  (forall d k, get d k
               = if Py.is_empty (default EmptyString (d !! k)) then Raise KeyError
                 else parse k (default EmptyString (d !! k))) ->
  Chain.parses parse D -> D = Some d ->
  (get d k = Raise KeyError /\ (d !! k = None \/ d !! k = Some EmptyString))
  \/ (exists e, get d k = Ret e /\ is_Some (d !! k)).
Proof.
  intros Hget Hp HD. rewrite Hget.
  destruct (d !! k) as [raw|] eqn:Ek; cbn.
  - destruct raw as [|a raw]; cbn; [left; auto|]. right.
    pose proof (Hp d k (String a raw) HD Ek ltac:(discriminate)) as H.
    destruct (parse k (String a raw)) as [e| |]; cbn in H; try discriminate.
    eauto.
  - left; auto.
Qed.

Lemma rendered_stops
  (parse : string -> string -> res ParsedEntry.t)
  (get : gmap string string -> string -> res ParsedEntry.t)
  (D : option (gmap string string)) k :
  (forall d k, get d k
               = if Py.is_empty (default EmptyString (d !! k)) then Raise KeyError
                 else parse k (default EmptyString (d !! k))) ->
  Chain.parses parse D ->
  k ∈ Chain.defined_words D
  \/ Chain.stops BeautifulSoup (Sources.rendered get D k).
Proof.
  intros Hget Hp. destruct D as [d|]; [|right; right; reflexivity].
  destruct (get_entry_cases parse get (Some d) d k Hget Hp eq_refl)
    as [[Hk _]|(e & He & [raw Hraw])].
  - right. right. unfold Sources.rendered. now rewrite Hk.
  - left. cbn. apply list_elem_of_fmap. exists (k, raw). split; [done|].
    now apply elem_of_map_to_list.
Qed.

Lemma lookup_oald_rendered k st :
  Sources.uses oald_files concise_files Do Dc st ->
  exists st',
    _lookup_oald BeautifulSoup oald_files k st
    = (Ret (Sources.rendered (Oald.get_entry BeautifulSoup) Do k), st')
    /\ Sources.uses oald_files concise_files Do Dc st'.
Proof.
  intros [Ho Hc]. unfold _lookup_oald, _get_oald_parser.
  assert (Hgen : forall d, Do = Some d ->
            render_or_miss (Oald.get_entry BeautifulSoup d k)
            = Ret (Sources.rendered (Oald.get_entry BeautifulSoup) Do k)).
  { intros d HD. subst Do.
    destruct (get_entry_cases (Oald._parse_entry BeautifulSoup)
                (Oald.get_entry BeautifulSoup) _ d k ltac:(reflexivity) Hoald HD)
      as [[Hk _]|(e & He & _)]; unfold Sources.rendered; rewrite HD.
    - now rewrite Hk.
    - now rewrite He. }
  destruct (_oald_parser st) as [| |d] eqn:Es; cbn in Ho.
  - destruct oald_files as [d|] eqn:Ef.
    + eexists. split; [rewrite (Hgen d (eq_sym Ho)); reflexivity|].
      split; cbn; [now rewrite <- Ho|exact Hc].
    + eexists. split; [rewrite <- Ho; reflexivity|].
      split; cbn; [exact Ho|exact Hc].
  - eexists. split; [rewrite <- Ho; reflexivity|].
    split; [now rewrite Es|exact Hc].
  - eexists. split; [rewrite (Hgen d (eq_sym Ho)); reflexivity|].
    split; [now rewrite Es|exact Hc].
Qed.

Lemma lookup_concise_rendered k st :
  Sources.uses oald_files concise_files Do Dc st ->
  exists st',
    _lookup_concise BeautifulSoup concise_files k st
    = (Ret (Sources.rendered (Concise.get_entry BeautifulSoup) Dc k), st')
    /\ Sources.uses oald_files concise_files Do Dc st'.
Proof.
  intros [Ho Hc]. unfold _lookup_concise, _get_concise_parser.
  assert (Hgen : forall d, Dc = Some d ->
            render_or_miss (Concise.get_entry BeautifulSoup d k)
            = Ret (Sources.rendered (Concise.get_entry BeautifulSoup) Dc k)).
  { intros d HD. subst Dc.
    destruct (get_entry_cases (Concise._parse_html BeautifulSoup)
                (Concise.get_entry BeautifulSoup) _ d k ltac:(reflexivity) Hconcise HD)
      as [[Hk _]|(e & He & _)]; unfold Sources.rendered; rewrite HD.
    - now rewrite Hk.
    - now rewrite He. }
  destruct (_concise_parser st) as [| |d] eqn:Es; cbn in Hc.
  - destruct concise_files as [d|] eqn:Ef.
    + eexists. split; [rewrite (Hgen d (eq_sym Hc)); reflexivity|].
      split; cbn; [exact Ho|now rewrite <- Hc].
    + eexists. split; [rewrite <- Hc; reflexivity|].
      split; cbn; [exact Ho|exact Hc].
  - eexists. split; [rewrite <- Hc; reflexivity|].
    split; [exact Ho|now rewrite Es].
  - eexists. split; [rewrite (Hgen d (eq_sym Hc)); reflexivity|].
    split; [exact Ho|now rewrite Es].
Qed.

Lemma resolve_returns (call : string -> state -> res string * state)
  (f : string -> string) (W : list string) fuel key st :
  (forall k s, Sources.uses oald_files concise_files Do Dc s ->
     exists s', call k s = (Ret (f k), s')
                /\ Sources.uses oald_files concise_files Do Dc s') ->
  (forall k, k ∈ W \/ Chain.stops BeautifulSoup (f k)) ->
  Sources.uses oald_files concise_files Do Dc st ->
  (List.length W < fuel)%nat ->
  exists html st',
    resolve BeautifulSoup fuel call key st = (Ret html, st')
    /\ Sources.uses oald_files concise_files Do Dc st'.
Proof.
  intros Hcall HR Hst Hfuel. unfold resolve.
  destruct (ChainFacts.xref_returns BeautifulSoup
              (Sources.uses oald_files concise_files Do Dc) call f W
              (fun _ => True) Hcall (fun k _ => HR k) (fun _ _ _ _ _ => I)
              fuel key ∅ st Hst I)
    as (html & seen & new & Hrun & Hinv & _).
  { eapply Nat.le_lt_trans; [apply length_filter|exact Hfuel]. }
  rewrite Hrun. eauto.
Qed.

Lemma or_else_returns (a b : state -> res string * state) st :
  (forall s, Sources.uses oald_files concise_files Do Dc s ->
     exists html s', a s = (Ret html, s')
                     /\ Sources.uses oald_files concise_files Do Dc s') ->
  (forall s, Sources.uses oald_files concise_files Do Dc s ->
     exists html s', b s = (Ret html, s')
                     /\ Sources.uses oald_files concise_files Do Dc s') ->
  Sources.uses oald_files concise_files Do Dc st ->
  exists html st',
    or_else a b st = (Ret html, st')
    /\ Sources.uses oald_files concise_files Do Dc st'.
Proof.
  intros Ha Hb Hst. unfold or_else.
  destruct (Ha st Hst) as (html & s1 & Ea & Hs1). rewrite Ea.
  destruct (Py.is_empty html); [apply Hb, Hs1|eauto].
Qed.

Lemma fallback_stops (Wf : list string) :
  (forall k, k ∉ Wf -> _fallback k = EmptyString) ->
  forall k, k ∈ Wf \/ Chain.stops BeautifulSoup (_fallback k).
Proof.
  intros H k. destruct (decide (k ∈ Wf)) as [Hin|Hout]; [now left|].
  right. right. now rewrite (H k Hout).
Qed.

Lemma get_def_returns (Wf : list string) fuel word st :
  Sources.uses oald_files concise_files Do Dc st ->
  (forall k, k ∉ Wf -> _fallback k = EmptyString) ->
  (List.length (Chain.defined_words Do) < fuel)%nat ->
  (List.length (Chain.defined_words Dc) < fuel)%nat ->
  (List.length Wf < fuel)%nat ->
  exists html st',
    get_def BeautifulSoup oald_files concise_files _fallback fuel word st
    = (Ret html, st').
Proof.
  intros Hst Hfb Hfo Hfc Hff. unfold get_def.
  destruct (Py.is_empty (Py.strip word)); [eauto|].
  destruct (_cache st !! Py.lower (Py.strip word)); [eauto|].
  destruct (or_else_returns
              (resolve BeautifulSoup fuel (_lookup_oald BeautifulSoup oald_files)
                 (Py.strip word))
              (or_else
                 (resolve BeautifulSoup fuel
                    (_lookup_concise BeautifulSoup concise_files) (Py.strip word))
                 (resolve BeautifulSoup fuel (_lookup_fallback _fallback)
                    (Py.strip word))) st)
    as (html & st1 & E & _); [| |exact Hst|rewrite E; eauto].
  - intros s Hs.
    apply (resolve_returns _
             (Sources.rendered (Oald.get_entry BeautifulSoup) Do)
             (Chain.defined_words Do)); [|  |exact Hs|exact Hfo].
    + intros k s0. apply lookup_oald_rendered.
    + intros k. apply (rendered_stops (Oald._parse_entry BeautifulSoup));
        [reflexivity|exact Hoald].
  - intros s Hs. apply or_else_returns; [| |exact Hs].
    + intros s0 Hs0.
      apply (resolve_returns _
               (Sources.rendered (Concise.get_entry BeautifulSoup) Dc)
               (Chain.defined_words Dc)); [|  |exact Hs0|exact Hfc].
      * intros k s1. apply lookup_concise_rendered.
      * intros k. apply (rendered_stops (Concise._parse_html BeautifulSoup));
          [reflexivity|exact Hconcise].
    + intros s0 Hs0.
      apply (resolve_returns _ _fallback Wf); [| |exact Hs0|exact Hff].
      * intros k s1 Hs1. eexists. split; [reflexivity|exact Hs1].
      * apply fallback_stops, Hfb.
Qed.

End WithWorld.



End ErrorFacts.

(** ** Blocks without senses *)

Module BlockFacts.

Lemma append_sense_senses (s : Sense.t) (b : PartOfSpeechBlock.t) :
  PartOfSpeechBlock.senses (Concise.append_sense s b) <> [].
Proof. cbn. destruct (PartOfSpeechBlock.senses b); discriminate. Qed.

Lemma alter_last {A : Type} (f : A -> A) (l : list A) (x : A) :
  alter f (List.length l) (l ++ [x]) = (l ++ [f x])%list.
Proof.
  replace (List.length l) with (List.length l + 0)%nat by lia.
  now rewrite alter_app_r.
Qed.

Section WithParser.
Variable BeautifulSoup : string -> node.

Lemma ok_alter_append (s : Sense.t) (i : nat) (l : list PartOfSpeechBlock.t) :
  Forall (Blocks.sensed_or_bare BeautifulSoup) l -> Forall (Blocks.sensed_or_bare BeautifulSoup) (alter (Concise.append_sense s) i l).
Proof.
  intros H. apply Forall_alter; [exact H|].
  intros x _ _. left. apply append_sense_senses.
Qed.

Lemma concise_step_ok (st : Concise.loop_state) (block : node) :
  Forall (Blocks.sensed_or_bare BeautifulSoup) (ParsedEntry.pos_blocks (Concise.entry st)) ->
  Forall (Blocks.sensed_or_bare BeautifulSoup) (ParsedEntry.pos_blocks
               (Concise.entry (Concise.step BeautifulSoup st block))).
Proof.
  intros H. unfold Concise.step.
  destruct (Py.is_empty (Parse._tag_to_text block)); [exact H|].
  destruct (Concise._match_section_header block); [exact H|].
  destruct (String.eqb (Concise.current_section st) "senses"
            && Concise._looks_like_pos_header block) eqn:Eh.
  { apply andb_prop in Eh as [_ Eh]. cbn.
    destruct (Concise._build_inline_sense BeautifulSoup block) as [inline|] eqn:Ei.
    - rewrite alter_last. apply Forall_app. split; [exact H|].
      apply Forall_singleton. left. apply append_sense_senses.
    - apply Forall_app. split; [exact H|]. apply Forall_singleton.
      right. exists block. auto. }
  destruct (negb (String.eqb (Concise.current_section st) "senses")); [exact H|].
  destruct (Concise._build_sense block) as [sense|]; [|exact H].
  destruct (Concise.current_block st) as [idx|]; cbn.
  - now apply ok_alter_append.
  - rewrite alter_last. apply Forall_app. split; [exact H|].
    apply Forall_singleton. left. apply append_sense_senses.
Qed.

Lemma concise_loop_ok (blocks : list node) (st : Concise.loop_state) :
  Forall (Blocks.sensed_or_bare BeautifulSoup) (ParsedEntry.pos_blocks (Concise.entry st)) ->
  Forall (Blocks.sensed_or_bare BeautifulSoup) (ParsedEntry.pos_blocks
               (Concise.entry (fold_left (Concise.step BeautifulSoup) blocks st))).
Proof.
  revert st. induction blocks as [|b blocks IH]; intros st H; [exact H|].
  cbn. apply IH, concise_step_ok, H.
Qed.

End WithParser.

(** C2, as the code has it.  Every block of an entry returned by the
    OALD parser has a sense: the blocks without senses are pruned
    before the entry is returned.  The Concise parser prunes nothing:
    a block of its entry without senses is a part-of-speech header
    that carries no inline sense and was followed by no sense. *)
Theorem blocks_with_senses (BeautifulSoup : string -> node)
  (fallback_word raw_html : string) (e : ParsedEntry.t)
  (b : PartOfSpeechBlock.t) :
  (Oald._parse_entry BeautifulSoup fallback_word raw_html = Ret e ->
   In b (ParsedEntry.pos_blocks e) -> PartOfSpeechBlock.senses b <> [])
  /\ (Concise._parse_html BeautifulSoup fallback_word raw_html = Ret e ->
      In b (ParsedEntry.pos_blocks e) ->
      PartOfSpeechBlock.senses b = [] ->
      Blocks.bare_header BeautifulSoup b).
Proof.
  split.
  - unfold Oald._parse_entry.
    destruct (Soup.find _ _) as [root|]; [|discriminate].
    destruct (Oald.run_loop _ _ _) as [st| |]; try discriminate.
    intros H Hb. inversion H; subst e. clear H. unfold Oald.finish in Hb.
    destruct (Oald._flush_headnote _ _ _) as [e0 frags]. cbn in Hb.
    apply filter_In in Hb as [_ Hb]. unfold Oald.has_senses in Hb.
    destruct (PartOfSpeechBlock.senses b); [discriminate|discriminate].
  - unfold Concise._parse_html.
    destruct (Soup.find _ _) as [root|]; [|discriminate].
    intros H Hb Hs. inversion H; subst e. clear H.
    pose proof (concise_loop_ok BeautifulSoup
                  (Soup.find_all_children "blockquote" root)
                  (Concise.LoopState
                     (ParsedEntry.Build
                        match Soup.find (Soup.has_name "k") root with
                        | Some headword_tag => Soup.get_text EmptyString headword_tag
                        | None => fallback_word
                        end [] [] raw_html) "senses" None)) as Hok.
    cbn in Hok. specialize (Hok ltac:(constructor)).
    rewrite Forall_forall in Hok. apply list_elem_of_In in Hb.
    destruct (Hok b Hb) as [Hne|Hbare]; [contradiction|exact Hbare].
Qed.

(** C2, as stated, fails on the Concise parser: a part-of-speech header
    alone leaves a block without senses in the entry. *)
Lemma concise_keeps_block_without_senses :
  exists e b,
    Concise._parse_html HtmlParser.html_parser "v"
      "<blockquote><c c=green>v</c></blockquote>" = Ret e
    /\ In b (ParsedEntry.pos_blocks e)
    /\ PartOfSpeechBlock.senses b = [].
Proof.
  eexists. eexists. split; [vm_compute; reflexivity|].
  split; [left; reflexivity|reflexivity].
Qed.

End BlockFacts.

(** ** The headnote of the OALD parser *)

Module HeadnoteFacts.
Import Headnote.

Ltac fields :=
  cbn [Oald.entry Oald.headnote_fragments Oald.before_first_sense
       Oald.current_block Oald.last_sense Oald.pending_section
       Oald.active_section Oald.set_entry andb].

Lemma split_at_break_spec (cs pre rest : list node) :
  split_at_break cs = (pre, rest) ->
  cs = (pre ++ rest)%list
  /\ Forall (fun c => is_break c = false) pre
  /\ (rest = [] \/ exists c r, rest = c :: r /\ is_break c = true).
Proof.
  revert pre rest. induction cs as [|c cs IH]; intros pre rest H; cbn in H.
  - inversion H; subst. split; [done|]. split; [constructor|now left].
  - destruct (is_break c) eqn:Eb.
    + inversion H; subst. split; [done|]. split; [constructor|].
      right. eauto.
    + destruct (split_at_break cs) as [p r]. inversion H; subst.
      destruct (IH p rest eq_refl) as (-> & Hp & Hr).
      split; [done|]. split; [constructor; done|done].
Qed.

Lemma add_fragments_nil (st : Oald.loop_state) : add_fragments [] st = st.
Proof. destruct st. unfold add_fragments. cbn. now rewrite app_nil_r. Qed.

Lemma add_fragments_app (a b : list string) (st : Oald.loop_state) :
  add_fragments b (add_fragments a st) = add_fragments (a ++ b) st.
Proof. unfold add_fragments. cbn. now rewrite app_assoc. Qed.

Lemma keyword_not_headnote (text_lower keyword section_key : string) :
  Oald._detect_section text_lower = Some (keyword, section_key) ->
  section_key <> "headnote".
Proof.
  unfold Oald._detect_section. intros H. apply find_some in H as [H _].
  cbn in H.
  repeat (destruct H as [H|H]; [inversion H; discriminate|]). destruct H.
Qed.

Section Dicts.
Context {A : Type}.
Implicit Types (d hn : list (string * list A)).

Lemma get_cons k (v : list A) d key :
  Dict.get key ((k, v) :: d)
  = if String.eqb k key then Some v else Dict.get key d.
Proof. reflexivity. Qed.

Lemma alter_cons (f : list A -> list A) k (v : list A) d key :
  Dict.alter f key ((k, v) :: d)
  = if String.eqb k key then (k, f v) :: d else (k, v) :: Dict.alter f key d.
Proof. reflexivity. Qed.

Lemma get_prepend hn d key :
  only_headnote hn -> key <> "headnote" ->
  Dict.get key (hn ++ d) = Dict.get key d.
Proof.
  intros [->|[l ->]] Hk; [done|]. cbn [app]. rewrite get_cons.
  destruct (String.eqb_spec "headnote" key); [congruence|done].
Qed.

Lemma alter_prepend (f : list A -> list A) hn d key :
  only_headnote hn -> key <> "headnote" ->
  Dict.alter f key (hn ++ d) = (hn ++ Dict.alter f key d)%list.
Proof.
  intros [->|[l ->]] Hk; [done|]. cbn [app]. rewrite alter_cons.
  destruct (String.eqb_spec "headnote" key); [congruence|done].
Qed.

Lemma setdefault_append_prepend hn d key (x : A) :
  only_headnote hn -> key <> "headnote" ->
  Dict.setdefault_append key x (hn ++ d)
  = (hn ++ Dict.setdefault_append key x d)%list.
Proof.
  intros Hh Hk. unfold Dict.setdefault_append, Dict.setdefault.
  rewrite (get_prepend _ _ _ Hh Hk).
  destruct (Dict.get key d).
  - now apply alter_prepend.
  - rewrite <- app_assoc. now apply alter_prepend.
Qed.

Lemma get_alter_other (f : list A -> list A) d key key' :
  Dict.get key' (Dict.alter f key d) = None <-> Dict.get key' d = None.
Proof.
  induction d as [|[k v] d IH]; [done|]. rewrite alter_cons.
  destruct (String.eqb_spec k key) as [->|Hne]; rewrite !get_cons.
  - destruct (String.eqb key key'); [split; discriminate|done].
  - destruct (String.eqb k key'); [split; discriminate|exact IH].
Qed.

Lemma get_app_none d d' key :
  Dict.get key (d ++ d') = None <->
  Dict.get key d = None /\ Dict.get key d' = None.
Proof.
  induction d as [|[k v] d IH]; [cbn; tauto|].
  cbn [app]. rewrite !get_cons.
  destruct (String.eqb k key); [|exact IH]. split; [discriminate|intros [? _]; done].
Qed.

Lemma get_setdefault_append_other d key key' (x : A) :
  key <> key' -> Dict.get key' d = None ->
  Dict.get key' (Dict.setdefault_append key x d) = None.
Proof.
  intros Hk Hd. unfold Dict.setdefault_append, Dict.setdefault.
  apply get_alter_other. destruct (Dict.get key d); [exact Hd|].
  apply get_app_none. split; [exact Hd|]. rewrite get_cons.
  destruct (String.eqb_spec key key'); [congruence|done].
Qed.

End Dicts.

Section WithParser.
Variable BeautifulSoup : string -> node.

Lemma append_section_prepend hn e key block :
  only_headnote hn -> key <> "headnote" ->
  Oald._append_section (prepend hn e) key block
  = prepend hn (Oald._append_section e key block).
Proof.
  intros Hh Hk. unfold Oald._append_section.
  destruct (Py.is_empty (Oald._tag_html block)); [done|].
  unfold prepend, Oald.with_sections, Concise.with_sections. cbn.
  now rewrite (setdefault_append_prepend _ _ _ _ Hh Hk).
Qed.

Lemma append_section_no_headnote e key block :
  key <> "headnote" ->
  Dict.get "headnote" (ParsedEntry.sections e) = None ->
  Dict.get "headnote" (ParsedEntry.sections (Oald._append_section e key block))
  = None.
Proof.
  intros Hk He. unfold Oald._append_section.
  destruct (Py.is_empty (Oald._tag_html block)); [done|]. cbn.
  now apply get_setdefault_append_other.
Qed.

Lemma leave_headnote_past (st : Oald.loop_state) :
  Oald.before_first_sense st = false ->
  Oald.leave_headnote BeautifulSoup st = st.
Proof. intros H. unfold Oald.leave_headnote. now rewrite H. Qed.

Ltac appended :=
  rewrite ?append_section_prepend by (assumption || discriminate || congruence).

Lemma step_blockquote_lift hn st c :
  only_headnote hn -> past_headnote st ->
  Oald.step_blockquote BeautifulSoup (lift hn st) c
  = match Oald.step_blockquote BeautifulSoup st c with
    | Ret s => Ret (lift hn s)
    | Raise x => Raise x
    | OutOfFuel => OutOfFuel
    end.
Proof.
  destruct st as [e fr b cb ls p a]. intros Hh (Hb & Hf & Hp & Ha).
  cbn in Hb, Hf, Hp, Ha. subst b fr.
  unfold Oald.step_blockquote, Oald.leave_headnote, lift. fields.
  destruct (Oald._detect_section (Py.lower (Oald._tag_text c))) as [[kw sk]|] eqn:Ed.
  { pose proof (keyword_not_headnote _ _ _ Ed) as Hsk.
    destruct (Oald._looks_like_section_label _ kw); [reflexivity|].
    appended. reflexivity. }
  destruct p as [pending|].
  { assert (pending <> "headnote") by congruence. appended. reflexivity. }
  destruct a as [active|].
  { assert (active <> "headnote") by congruence.
    destruct (existsb (String.eqb active) Oald.SECTION_ALWAYS_COLLECT
              || negb (Oald._looks_like_sense c)).
    { appended. reflexivity. }
    destruct (Oald._looks_like_sense c).
    - destruct cb as [idx|]; fields;
        destruct (Oald._build_sense BeautifulSoup c); reflexivity.
    - destruct ls as [[bi si]|]; [reflexivity|]. appended. reflexivity. }
  destruct (Oald._looks_like_sense c).
  - destruct cb as [idx|]; fields;
      destruct (Oald._build_sense BeautifulSoup c); reflexivity.
  - destruct ls as [[bi si]|]; [reflexivity|]. appended. reflexivity.
Qed.

Lemma step_lift hn st c :
  only_headnote hn -> past_headnote st ->
  Oald.step BeautifulSoup (lift hn st) c
  = match Oald.step BeautifulSoup st c with
    | Ret s => Ret (lift hn s)
    | Raise x => Raise x
    | OutOfFuel => OutOfFuel
    end.
Proof.
  intros Hh Hpast. destruct c as [u s|u nm at_ cs].
  { destruct st as [e fr b cb ls p a]. destruct Hpast as (Hb & _).
    cbn in Hb. subst b. reflexivity. }
  unfold Oald.step.
  destruct (String.eqb nm "k"); [reflexivity|].
  destruct (String.eqb nm "c" && Oald._is_pos_label (Tag u nm at_ cs)).
  { destruct st as [e fr b cb ls p a]. destruct Hpast as (Hb & _).
    cbn in Hb. subst b. reflexivity. }
  destruct (String.eqb nm "blockquote"); [now apply step_blockquote_lift|].
  destruct st as [e fr b cb ls p a]. destruct Hpast as (Hb & _).
  cbn in Hb. subst b. unfold lift. fields. appended. reflexivity.
Qed.

Lemma step_blockquote_past st c s :
  past_headnote st ->
  Dict.get "headnote" (ParsedEntry.sections (Oald.entry st)) = None ->
  Oald.step_blockquote BeautifulSoup st c = Ret s ->
  past_headnote s
  /\ Dict.get "headnote" (ParsedEntry.sections (Oald.entry s)) = None.
Proof.
  destruct st as [e fr b cb ls p a]. intros (Hb & Hf & Hp & Ha) He.
  cbn in Hb, Hf, Hp, Ha, He. subst b fr.
  unfold Oald.step_blockquote, Oald.leave_headnote. fields.
  assert (Hnone : (None : option string) <> Some "headnote") by discriminate.
  destruct (Oald._detect_section (Py.lower (Oald._tag_text c))) as [[kw sk]|] eqn:Ed.
  { pose proof (keyword_not_headnote _ _ _ Ed) as Hsk.
    assert (Hx : Some sk <> Some "headnote") by congruence.
    destruct (Oald._looks_like_section_label _ kw); intros H'; inversion H'; subst s.
    - repeat split; done.
    - repeat split; try done. now apply append_section_no_headnote. }
  destruct p as [pending|].
  { assert (Hx : pending <> "headnote") by congruence.
    intros H'; inversion H'; subst s. repeat split; try done.
    now apply append_section_no_headnote. }
  destruct a as [active|].
  { assert (Hx : active <> "headnote") by congruence.
    destruct (existsb (String.eqb active) Oald.SECTION_ALWAYS_COLLECT
              || negb (Oald._looks_like_sense c)).
    { intros H'; inversion H'; subst s. repeat split; try done.
      now apply append_section_no_headnote. }
    destruct (Oald._looks_like_sense c).
    - destruct cb as [idx|]; fields;
        destruct (Oald._build_sense BeautifulSoup c); intros H'; inversion H';
        subst s; repeat split; done.
    - destruct ls as [[bi si]|]; intros H'; inversion H'; subst s;
        repeat split; try done.
      now apply append_section_no_headnote. }
  destruct (Oald._looks_like_sense c).
  - destruct cb as [idx|]; fields;
      destruct (Oald._build_sense BeautifulSoup c); intros H'; inversion H';
      subst s; repeat split; done.
  - destruct ls as [[bi si]|]; intros H'; inversion H'; subst s;
      repeat split; try done.
    now apply append_section_no_headnote.
Qed.

Lemma step_past st c s :
  past_headnote st ->
  Dict.get "headnote" (ParsedEntry.sections (Oald.entry st)) = None ->
  Oald.step BeautifulSoup st c = Ret s ->
  past_headnote s
  /\ Dict.get "headnote" (ParsedEntry.sections (Oald.entry s)) = None.
Proof.
  intros Hpast He. destruct c as [u t|u nm at_ cs].
  { destruct st as [e fr b cb ls p a]. destruct Hpast as (Hb & Hrest).
    cbn in Hb. subst b. fields. intros H; inversion H; subst s. split; [|done].
    split; done. }
  unfold Oald.step.
  destruct (String.eqb nm "k"); [intros H; inversion H; subst s; done|].
  destruct (String.eqb nm "c" && Oald._is_pos_label (Tag u nm at_ cs)).
  { destruct st as [e fr b cb ls p a]. destruct Hpast as (Hb & Hf & Hp & Ha).
    cbn in Hb, Hf, Hp, Ha, He. subst b fr. fields.
    intros H; inversion H; subst s. repeat split; done. }
  destruct (String.eqb nm "blockquote"); [now apply step_blockquote_past|].
  destruct st as [e fr b cb ls p a]. destruct Hpast as (Hb & Hf & Hp & Ha).
  cbn in Hb, Hf, Hp, Ha, He. subst b fr. fields.
  intros H; inversion H; subst s. repeat split; try done.
  now apply append_section_no_headnote.
Qed.

Lemma run_loop_lift hn cs st :
  only_headnote hn -> past_headnote st ->
  Dict.get "headnote" (ParsedEntry.sections (Oald.entry st)) = None ->
  Oald.run_loop BeautifulSoup cs (lift hn st)
  = match Oald.run_loop BeautifulSoup cs st with
    | Ret s => Ret (lift hn s)
    | Raise x => Raise x
    | OutOfFuel => OutOfFuel
    end.
Proof.
  intros Hh. revert st. induction cs as [|c cs IH]; intros st Hpast He; [done|].
  cbn [Oald.run_loop]. rewrite (step_lift hn st c Hh Hpast).
  destruct (Oald.step BeautifulSoup st c) as [s| |] eqn:Es; [|done|done].
  destruct (step_past st c s Hpast He Es) as [Hpast' He']. now apply IH.
Qed.

Lemma run_loop_past cs st s :
  past_headnote st ->
  Dict.get "headnote" (ParsedEntry.sections (Oald.entry st)) = None ->
  Oald.run_loop BeautifulSoup cs st = Ret s ->
  past_headnote s
  /\ Dict.get "headnote" (ParsedEntry.sections (Oald.entry s)) = None.
Proof.
  revert st. induction cs as [|c cs IH]; intros st Hpast He H; cbn in H.
  - inversion H; subst. done.
  - destruct (Oald.step BeautifulSoup st c) as [s1| |] eqn:Es; try discriminate.
    destruct (step_past st c s1 Hpast He Es) as [Hpast' He']. eauto.
Qed.

Lemma prefix_step st c :
  is_break c = false -> Oald.before_first_sense st = true ->
  Oald.step BeautifulSoup st c = Ret (add_fragments (fragment c) st).
Proof.
  intros Hc Hb. destruct c as [u t|u nm at_ cs]; unfold Oald.step, fragment.
  - rewrite Hb. cbn [andb].
    destruct (Py.is_empty (Py.strip t)); cbn [negb];
      [now rewrite add_fragments_nil|unfold add_fragments; now rewrite Hb].
  - unfold is_break in Hc.
    destruct (String.eqb nm "k"); [now rewrite add_fragments_nil|].
    apply orb_false_elim in Hc as [Hc1 Hc2].
    rewrite Hc1, Hc2, Hb. unfold add_fragments. now rewrite Hb.
Qed.

Lemma prefix_run pre rest st :
  Forall (fun c => is_break c = false) pre ->
  Oald.before_first_sense st = true ->
  Oald.run_loop BeautifulSoup (pre ++ rest) st
  = Oald.run_loop BeautifulSoup rest (add_fragments (flat_map fragment pre) st).
Proof.
  intros Hpre. revert st. induction Hpre as [|c pre Hc Hpre IH]; intros st Hb.
  - cbn. now rewrite add_fragments_nil.
  - cbn [app Oald.run_loop flat_map]. rewrite (prefix_step st c Hc Hb).
    rewrite IH by exact Hb. now rewrite add_fragments_app.
Qed.

Lemma leave_headnote_idempotent st :
  Oald.leave_headnote BeautifulSoup (Oald.leave_headnote BeautifulSoup st)
  = Oald.leave_headnote BeautifulSoup st.
Proof.
  apply leave_headnote_past. unfold Oald.leave_headnote.
  destruct (Oald.before_first_sense st) eqn:Hb; [|exact Hb].
  now destruct (Oald._flush_headnote _ _ _).
Qed.

Lemma break_step st c :
  is_break c = true ->
  Oald.step BeautifulSoup st c
  = Oald.step BeautifulSoup (Oald.leave_headnote BeautifulSoup st) c.
Proof.
  intros Hc. destruct c as [u t|u nm at_ cs]; [discriminate|].
  unfold Oald.step, is_break in *.
  destruct (String.eqb_spec nm "k") as [->|_]; [discriminate|].
  destruct (String.eqb nm "c" && Oald._is_pos_label (Tag u nm at_ cs)).
  { now rewrite leave_headnote_idempotent. }
  cbn [orb] in Hc. rewrite Hc.
  unfold Oald.step_blockquote. now rewrite leave_headnote_idempotent.
Qed.

Lemma only_headnote_section (fragments : list string) :
  only_headnote (headnote_section BeautifulSoup fragments).
Proof.
  unfold headnote_section. destruct (Py.is_empty _); [now left|right; eauto].
Qed.

Lemma flush_init headword raw_html (F : list string) :
  Oald._flush_headnote BeautifulSoup
    (ParsedEntry.Build headword [] [] raw_html) F
  = (prepend (headnote_section BeautifulSoup F)
       (ParsedEntry.Build headword [] [] raw_html), []).
Proof.
  unfold Oald._flush_headnote, headnote_section, prepend.
  destruct F as [|x F]; [reflexivity|].
  destruct (Py.is_empty _); reflexivity.
Qed.

Lemma leave_init headword raw_html (F : list string) :
  Oald.leave_headnote BeautifulSoup
    (add_fragments F (Oald.init_state headword raw_html))
  = lift (headnote_section BeautifulSoup F)
      (Oald.leave_headnote BeautifulSoup (Oald.init_state headword raw_html)).
Proof.
  unfold Oald.leave_headnote, add_fragments, Oald.init_state. fields.
  cbn [app]. rewrite !flush_init. reflexivity.
Qed.

Lemma finish_lift hn st :
  Oald.headnote_fragments st = [] ->
  Oald.finish BeautifulSoup (lift hn st)
  = prepend hn (Oald.finish BeautifulSoup st).
Proof. destruct st as [e fr b cb ls p a]. cbn. intros ->. reflexivity. Qed.

Lemma finish_sections st :
  Oald.headnote_fragments st = [] ->
  ParsedEntry.sections (Oald.finish BeautifulSoup st)
  = ParsedEntry.sections (Oald.entry st).
Proof. destruct st as [e fr b cb ls p a]. cbn. intros ->. reflexivity. Qed.

Lemma leave_init_past headword raw_html :
  past_headnote
    (Oald.leave_headnote BeautifulSoup (Oald.init_state headword raw_html))
  /\ Dict.get "headnote"
       (ParsedEntry.sections
          (Oald.entry
             (Oald.leave_headnote BeautifulSoup
                (Oald.init_state headword raw_html)))) = None.
Proof. cbn. repeat split; done. Qed.

End WithParser.

(** C3, as the code has it.  In the OALD parser the texts that are not
    blank and the tags other than [k] that come, among the children of
    the root, before the first part-of-speech label and the first block
    quote make up the headnote section, one entry in the order of the
    document, or none when they are blank; the blocks and the other
    sections of the entry are those of the children from that first
    label or block quote on, and none of these is a headnote. *)
Theorem oald_headnote (BeautifulSoup : string -> node)
  (fallback_word raw_html : string) (e : ParsedEntry.t)
  (root : node) (pre rest : list node) :
  Soup.find (Soup.has_name "entry")
    (BeautifulSoup ("<entry>" ++ raw_html ++ "</entry>")%string) = Some root ->
  split_at_break (Soup.contents_of root) = (pre, rest) ->
  Oald._parse_entry BeautifulSoup fallback_word raw_html = Ret e ->
  exists e',
    parse_children BeautifulSoup (headword_of root fallback_word) raw_html rest
    = Ret e'
    /\ ParsedEntry.pos_blocks e = ParsedEntry.pos_blocks e'
    /\ ParsedEntry.sections e
       = (headnote_section BeautifulSoup (flat_map fragment pre)
            ++ ParsedEntry.sections e')%list
    /\ Dict.get "headnote" (ParsedEntry.sections e') = None.
Proof.
  intros Hroot Hsplit. unfold Oald._parse_entry. rewrite Hroot.
  fold (headword_of root fallback_word).
  set (hw := headword_of root fallback_word).
  destruct (split_at_break_spec _ _ _ Hsplit) as (Hcs & Hpre & Hrest).
  rewrite Hcs, (prefix_run BeautifulSoup pre rest
                 (Oald.init_state hw raw_html) Hpre eq_refl).
  set (F := flat_map fragment pre). unfold parse_children.
  destruct Hrest as [->|(c & r & -> & Hc)].
  - cbn [Oald.run_loop]. intros H; inversion H; subst e. clear H.
    eexists. split; [reflexivity|].
    unfold Oald.finish, add_fragments, Oald.init_state. fields. cbn [app].
    rewrite !flush_init. cbn. rewrite app_nil_r. done.
  - cbn [Oald.run_loop].
    rewrite (break_step BeautifulSoup (add_fragments F _) c Hc), leave_init.
    rewrite (break_step BeautifulSoup (Oald.init_state hw raw_html) c Hc).
    set (s0 := Oald.leave_headnote BeautifulSoup (Oald.init_state hw raw_html)).
    destruct (leave_init_past BeautifulSoup hw raw_html) as [Hpast He0].
    fold s0 in Hpast, He0.
    pose proof (run_loop_lift BeautifulSoup (headnote_section BeautifulSoup F)
                  (c :: r) s0 (only_headnote_section BeautifulSoup F) Hpast He0)
      as Hlift.
    cbn [Oald.run_loop] in Hlift. rewrite Hlift.
    destruct (Oald.step BeautifulSoup s0 c) as [s1| |] eqn:Es; try discriminate.
    destruct (Oald.run_loop BeautifulSoup r s1) as [st'| |] eqn:Er;
      try discriminate.
    intros H; inversion H; subst e. clear H.
    assert (Hrun : Oald.run_loop BeautifulSoup (c :: r) s0 = Ret st')
      by (cbn [Oald.run_loop]; now rewrite Es).
    destruct (run_loop_past BeautifulSoup _ _ _ Hpast He0 Hrun)
      as [(_ & Hfr & _) He'].
    exists (Oald.finish BeautifulSoup st'). split; [reflexivity|].
    rewrite (finish_lift BeautifulSoup _ _ Hfr).
    split; [reflexivity|]. split; [reflexivity|].
    now rewrite (finish_sections BeautifulSoup _ Hfr).
Qed.

(** C3, as stated, fails: a block quote that comes before the first
    part-of-speech header and the first section header is filed under
    the notes by the OALD parser, and becomes a sense of a block named
    [general] in the Concise parser; neither entry has a headnote. *)
Lemma block_before_headers_is_no_headnote :
  (exists e,
     Oald._parse_entry HtmlParser.html_parser "w"
       "<blockquote>An introductory note</blockquote><c c=orange>noun</c>"
     = Ret e
     /\ Dict.get "headnote" (ParsedEntry.sections e) = None
     /\ Dict.get "notes" (ParsedEntry.sections e)
        = Some [SectionEntry.Build "An introductory note" None
                  (Some "An introductory note")])
  /\ (exists e,
        Concise._parse_html HtmlParser.html_parser "w"
          "<blockquote>An introductory note</blockquote>"
        = Ret e
        /\ Dict.get "headnote" (ParsedEntry.sections e) = None
        /\ ParsedEntry.pos_blocks e
           = [PartOfSpeechBlock.Build "general" EmptyString
                [Sense.Build "An introductory note" None
                   (Some "An introductory note")]]).
Proof.
  split; eexists; (split; [vm_compute; reflexivity|]); split; reflexivity.
Qed.

End HeadnoteFacts.

(** ** Sanitization *)

Module CleanFacts.
Import Clean.

(** Induction on a tree whose tags hold lists of trees. *)
Lemma node_induction (P : node -> Prop) :
  (forall u s, P (NavigableString u s)) ->
  (forall u nm at_ cs, Forall P cs -> P (Tag u nm at_ cs)) ->
  forall n, P n.
Proof.
  intros Hs Ht. fix IH 1. intros [u s|u nm at_ cs]; [apply Hs|].
  apply Ht. induction cs as [|c cs IHcs]; constructor; [apply IH|exact IHcs].
Qed.

Lemma join_nonempty (sep x : string) (l : list string) :
  Py.is_empty x = false -> Py.is_empty (Py.join sep (x :: l)) = false.
Proof.
  destruct x as [|a x]; [discriminate|]. intros _.
  destruct l; reflexivity.
Qed.

Lemma get_text_visible (sep : string) (n t : node) :
  In t (Soup.strings n) -> Py.blank (Soup.text_of t) = false ->
  Py.is_empty (Soup.get_text sep n) = false.
Proof.
  intros Ht Hv. unfold Soup.get_text, Soup.stripped_strings.
  assert (Hin : In (Py.strip (Soup.text_of t))
                  (List.filter (fun s => negb (Py.is_empty s))
                     (map (fun t => Py.strip (Soup.text_of t)) (Soup.strings n)))).
  { apply filter_In. split; [|now rewrite PyFacts.is_empty_strip, Hv].
    apply in_map_iff. eauto. }
  destruct (List.filter _ _) as [|x l] eqn:El; [destruct Hin|].
  apply join_nonempty.
  assert (Hx : In x (x :: l)) by now left.
  rewrite <- El in Hx. apply filter_In in Hx as [_ Hx].
  now destruct (Py.is_empty x).
Qed.

Lemma get_text_blank (sep : string) (n : node) :
  (forall t, In t (Soup.strings n) -> Py.blank (Soup.text_of t) = true) ->
  Soup.get_text sep n = EmptyString.
Proof.
  intros H. unfold Soup.get_text, Soup.stripped_strings.
  destruct (List.filter _ _) as [|x l] eqn:El; [reflexivity|].
  assert (Hx : In x (x :: l)) by now left.
  rewrite <- El in Hx. apply filter_In in Hx as [Hx1 Hx2].
  apply in_map_iff in Hx1 as (t & <- & Ht).
  rewrite PyFacts.is_empty_strip, (H t Ht) in Hx2. discriminate.
Qed.

Lemma drop_text_eq (u : nat) (n : node) :
  Lookup.drop_text u n
  = if dropped u n then None else Some (drop_body u n).
Proof. destruct n; reflexivity. Qed.

Lemma in_kept (u : nat) (cs : list node) (c' : node) :
  In c' (flat_map (fun c => match Lookup.drop_text u c with
                            | Some c' => [c']
                            | None => []
                            end) cs)
  <-> exists c, In c cs /\ dropped u c = false /\ c' = drop_body u c.
Proof.
  rewrite in_flat_map. split.
  - intros (c & Hc & H). exists c. split; [exact Hc|].
    rewrite drop_text_eq in H. destruct (dropped u c); [destruct H|].
    destruct H as [<-|[]]. done.
  - intros (c & Hc & Hd & ->). exists c. split; [exact Hc|].
    rewrite drop_text_eq, Hd. now left.
Qed.

Lemma strings_tag (u : nat) (nm : string) (at_ : list (string * string))
  (cs : list node) (t : node) :
  In t (Soup.strings (Tag u nm at_ cs))
  <-> exists c, In c cs /\ In t (Soup.strings c).
Proof. cbn [Soup.strings]. apply in_flat_map. Qed.

Lemma descendants_tag (u : nat) (nm : string) (at_ : list (string * string))
  (cs : list node) (E : node) :
  In E (Soup.descendants (Tag u nm at_ cs))
  <-> exists c, In c cs /\ (E = c \/ In E (Soup.descendants c)).
Proof.
  cbn [Soup.descendants]. rewrite in_flat_map. split.
  - intros (c & Hc & [->|H]); eauto.
  - intros (c & Hc & [->|H]); exists c; (split; [exact Hc|]); [now left|now right].
Qed.

Lemma mentions_in (u : nat) (n t : node) :
  In t (Soup.strings n) -> Soup.uid_of t = u -> Lookup.mentions u n = true.
Proof.
  intros Ht Hu. unfold Lookup.mentions. apply existsb_exists.
  exists t. split; [exact Ht|]. now apply Nat.eqb_eq.
Qed.

(** What the removal of the text node [u] does to a tree. *)
Lemma drop_body_spec (u : nat) (n : node) :
  (forall t, In t (Soup.strings n) -> Soup.uid_of t <> u ->
     Py.blank (Soup.text_of t) = false -> In t (Soup.strings (drop_body u n)))
  /\ (dropped u n = false -> remains u n (drop_body u n))
  /\ (forall E', In E' (Soup.descendants (drop_body u n)) ->
        exists E0, In E0 (Soup.descendants n) /\ remains u E0 E').
Proof.
  induction n as [v s|v nm at_ cs IH] using node_induction.
  - split; [intros t Ht _ _; exact Ht|]. split; [|intros E' []].
    intros Hd. cbn in Hd. apply Nat.eqb_neq in Hd.
    split; [done|]. split; [done|]. split.
    + intros t [<-|[]]. split; [now left|exact Hd].
    + split; [intros t Ht _ _; exact Ht|discriminate].
  - rewrite Forall_forall in IH.
    assert (Hin : forall c, In c cs ->
              (forall t, In t (Soup.strings c) -> Soup.uid_of t <> u ->
                 Py.blank (Soup.text_of t) = false ->
                 In t (Soup.strings (drop_body u c)))
              /\ (dropped u c = false -> remains u c (drop_body u c))
              /\ (forall E', In E' (Soup.descendants (drop_body u c)) ->
                    exists E0, In E0 (Soup.descendants c) /\ remains u E0 E')).
    { intros c Hc. apply IH. now apply list_elem_of_In. }
    clear IH.
    assert (Hvis : forall t, In t (Soup.strings (Tag v nm at_ cs)) ->
              Soup.uid_of t <> u -> Py.blank (Soup.text_of t) = false ->
              In t (Soup.strings (drop_body u (Tag v nm at_ cs)))).
    { intros t Ht Hu Hv. apply strings_tag in Ht as (c & Hc & Ht).
      destruct (Hin c Hc) as (H2 & _ & _). specialize (H2 t Ht Hu Hv).
      unfold drop_body. apply strings_tag. exists (drop_body u c).
      split; [|exact H2]. apply in_kept. exists c. split; [exact Hc|].
      split; [|reflexivity].
      destruct c as [w s|w nm' at' cs']; cbn [dropped].
      - destruct Ht as [<-|[]]. cbn in Hu. now apply Nat.eqb_neq.
      - rewrite (get_text_visible " " _ t H2 Hv). apply andb_false_r. }
    split; [exact Hvis|]. split.
    + intros Hd. split; [done|]. split; [done|]. split; [|split].
      * intros t Ht. unfold drop_body in Ht.
        apply strings_tag in Ht as (c' & Hc' & Ht).
        apply in_kept in Hc' as (c & Hc & Hdc & ->).
        destruct (Hin c Hc) as (_ & Hr & _).
        destruct (Hr Hdc) as (_ & _ & Hs & _). destruct (Hs t Ht) as [Hs1 Hs2].
        split; [|exact Hs2]. apply strings_tag. eauto.
      * exact Hvis.
      * intros _ Hm. cbn [dropped] in Hd. rewrite Hm in Hd. exact Hd.
    + intros E' HE'. unfold drop_body in HE'.
      apply descendants_tag in HE' as (c' & Hc' & HE').
      apply in_kept in Hc' as (c & Hc & Hdc & ->).
      destruct (Hin c Hc) as (_ & Hr & Hdesc). destruct HE' as [->|HE'].
      * exists c. split; [|exact (Hr Hdc)]. apply descendants_tag. eauto.
      * destruct (Hdesc E' HE') as (E0 & HE0 & Hrem). exists E0.
        split; [|exact Hrem]. apply descendants_tag. eauto.
Qed.

(** The same, for the document. *)
Lemma drop_in_soup_spec (u : nat) (T : node) :
  (forall t, In t (Soup.strings (Lookup.drop_in_soup u T)) ->
     In t (Soup.strings T) /\ Soup.uid_of t <> u)
  /\ (forall E', In E' (Soup.descendants (Lookup.drop_in_soup u T)) ->
        exists E0, In E0 (Soup.descendants T) /\ remains u E0 E').
Proof.
  unfold Lookup.drop_in_soup. rewrite drop_text_eq.
  destruct (dropped u T) eqn:Hd; [split; intros ? []|].
  destruct (drop_body_spec u T) as (_ & Hr & Hdesc).
  split; [|exact Hdesc]. destruct (Hr Hd) as (_ & _ & Hs & _). exact Hs.
Qed.

Lemma bre_visible (t : node) :
  is_bre t -> Py.blank (Soup.text_of t) = false.
Proof.
  unfold is_bre. intros H. rewrite <- PyFacts.is_empty_strip.
  destruct (Py.strip (Soup.text_of t)); [discriminate|reflexivity].
Qed.

Lemma bre_should_drop (t : node) :
  is_bre t -> Lookup._should_drop (Soup.text_of t) = true.
Proof.
  intros H. pose proof (bre_visible t H) as Hv.
  unfold Lookup._should_drop. rewrite PyFacts.is_empty_strip, Hv.
  unfold is_bre in H. rewrite H. reflexivity.
Qed.

Lemma should_drop_visible (t : node) :
  Lookup._should_drop (Soup.text_of t) = true ->
  Py.blank (Soup.text_of t) = false.
Proof.
  unfold Lookup._should_drop. rewrite PyFacts.is_empty_strip.
  destruct (Py.blank (Soup.text_of t)); [discriminate|reflexivity].
Qed.

(** After the loop no text node that the test drops is left. *)
Lemma loop_drops_all (L : list node) (T : node) :
  (forall t, In t (Soup.strings T) ->
     Lookup._should_drop (Soup.text_of t) = true -> In t L) ->
  forall t, In t (Soup.strings (fold_left Lookup.sanitize_step L T)) ->
    Lookup._should_drop (Soup.text_of t) = false.
Proof.
  revert T. induction L as [|x L IH]; intros T HT t Ht.
  - cbn in Ht. destruct (Lookup._should_drop (Soup.text_of t)) eqn:E; [|done].
    destruct (HT t Ht E).
  - cbn [fold_left] in Ht. apply (IH (Lookup.sanitize_step T x)); [|exact Ht].
    intros t' Ht' Hd'. unfold Lookup.sanitize_step in Ht'.
    destruct (Lookup._should_drop (Soup.text_of x)) eqn:Ex.
    + destruct (drop_in_soup_spec (Soup.uid_of x) T) as [Hs _].
      destruct (Hs t' Ht') as [Hin Hne].
      destruct (HT t' Hin Hd') as [<-|Hl]; [done|exact Hl].
    + destruct (HT t' Ht' Hd') as [<-|Hl]; [congruence|exact Hl].
Qed.

Lemma strings_below (n t : node) :
  In t (Soup.strings n) -> t = n \/ In t (Soup.descendants n).
Proof.
  induction n as [v s|v nm at_ cs IH] using node_induction.
  - intros [<-|[]]. now left.
  - intros Ht. right. apply strings_tag in Ht as (c & Hc & Ht).
    rewrite Forall_forall in IH.
    apply descendants_tag. exists c. split; [exact Hc|].
    apply IH; [now apply list_elem_of_In|exact Ht].
Qed.

Lemma strings_of_descendant (n E t : node) :
  In E (Soup.descendants n) -> In t (Soup.strings E) -> In t (Soup.strings n).
Proof.
  induction n as [v s|v nm at_ cs IH] using node_induction; [intros []|].
  intros HE Ht. apply descendants_tag in HE as (c & Hc & HE).
  apply strings_tag. exists c. split; [exact Hc|].
  destruct HE as [->|HE]; [exact Ht|].
  rewrite Forall_forall in IH. apply (IH c); [now apply list_elem_of_In|done|done].
Qed.

Lemma remove_audio_uid (n : node) :
  Soup.uid_of (Lookup.remove_audio n) = Soup.uid_of n.
Proof. now destruct n. Qed.

Lemma remove_audio_uids (n : node) :
  uids_below (Lookup.remove_audio n) `sublist_of` uids_below n.
Proof.
  induction n as [v s|v nm at_ cs IH] using node_induction; [constructor|].
  unfold uids_below. cbn [Lookup.remove_audio Soup.descendants].
  induction IH as [|c cs Hc _ IHcs]; [constructor|].
  cbn [flat_map]. rewrite flat_map_app.
  destruct (Lookup.is_audio c).
  - cbn [flat_map map app]. rewrite map_app.
    apply sublist_cons, sublist_inserts_l. exact IHcs.
  - cbn [flat_map map app]. rewrite remove_audio_uid. apply sublist_skip.
    rewrite app_nil_r, !map_app. apply sublist_app; [exact Hc|exact IHcs].
Qed.

Lemma same_uid_same_node (l : list node) (a b : node) :
  NoDup (map Soup.uid_of l) -> In a l -> In b l ->
  Soup.uid_of a = Soup.uid_of b -> a = b.
Proof.
  induction l as [|x l IH]; intros Hnd Ha Hb Hu; [destruct Ha|].
  cbn in Hnd. apply NoDup_cons in Hnd as [Hx Hnd].
  destruct Ha as [->|Ha], Hb as [->|Hb]; [done| | |now apply IH].
  - exfalso. apply Hx. rewrite Hu. apply list_elem_of_In. now apply in_map.
  - exfalso. apply Hx. rewrite <- Hu. apply list_elem_of_In. now apply in_map.
Qed.

Section Enclosing.
Variables E X : node.
Hypothesis HX : is_bre X.
Hypothesis Honly : only_visible_text E X.

Lemma step_holds (T y : node) :
  Soup.uid_of y <> Soup.uid_of X ->
  holds_X E X T -> holds_X E X (Lookup.sanitize_step T y).
Proof.
  intros Hy HT. unfold Lookup.sanitize_step.
  destruct (Lookup._should_drop (Soup.text_of y)); [|exact HT].
  intros E' HE' Hu.
  destruct (drop_in_soup_spec (Soup.uid_of y) T) as [_ Hd].
  destruct (Hd E' HE') as (E0 & HE0 & Hu0 & _ & Hs & Hv & _).
  destruct (HT E0 HE0 ltac:(congruence)) as [HX0 Hsub]. split.
  - apply Hv; [exact HX0|congruence|now apply bre_visible].
  - intros t Ht. apply Hsub. now destruct (Hs t Ht).
Qed.

Lemma step_gone (T y : node) :
  gone E T -> gone E (Lookup.sanitize_step T y).
Proof.
  intros HT. unfold Lookup.sanitize_step.
  destruct (Lookup._should_drop (Soup.text_of y)); [|exact HT].
  intros E' HE' Htag.
  destruct (drop_in_soup_spec (Soup.uid_of y) T) as [_ Hd].
  destruct (Hd E' HE') as (E0 & HE0 & Hu0 & Ht0 & _).
  rewrite Hu0. apply HT; [exact HE0|congruence].
Qed.

Lemma loop_gone (L : list node) (T : node) :
  gone E T -> gone E (fold_left Lookup.sanitize_step L T).
Proof.
  revert T. induction L as [|y L IH]; intros T HT; [exact HT|].
  cbn [fold_left]. apply IH, step_gone, HT.
Qed.

Lemma step_X_gone (T : node) :
  holds_X E X T -> gone E (Lookup.sanitize_step T X).
Proof.
  intros HT. unfold Lookup.sanitize_step. rewrite (bre_should_drop X HX).
  intros E' HE' Htag Hu.
  destruct (drop_in_soup_spec (Soup.uid_of X) T) as [_ Hd].
  destruct (Hd E' HE') as (E0 & HE0 & Hu0 & _ & Hs & _ & Hnonempty).
  destruct (HT E0 HE0 ltac:(congruence)) as [HX0 Hsub].
  specialize (Hnonempty Htag (mentions_in _ _ _ HX0 eq_refl)).
  rewrite (get_text_blank " " E') in Hnonempty; [discriminate|].
  intros t Ht. destruct (Hs t Ht) as [Ht0 Hne].
  destruct Honly as [_ Hblank]. apply Hblank; [now apply Hsub|].
  intros ->. now apply Hne.
Qed.

Lemma loop_removes_enclosing (L : list node) (T : node) :
  holds_X E X T -> In X L ->
  (forall y, In y L -> Soup.uid_of y = Soup.uid_of X -> y = X) ->
  gone E (fold_left Lookup.sanitize_step L T).
Proof.
  revert T. induction L as [|y L IH]; intros T HT HXL Huniq; [destruct HXL|].
  cbn [fold_left].
  destruct (Nat.eq_dec (Soup.uid_of y) (Soup.uid_of X)) as [Hy|Hy].
  - rewrite (Huniq y (or_introl eq_refl) Hy).
    apply loop_gone, step_X_gone, HT.
  - apply IH.
    + now apply step_holds.
    + destruct HXL as [->|HXL]; [done|exact HXL].
    + intros z Hz. apply Huniq. now right.
Qed.

End Enclosing.

Lemma strings_are_text (n t : node) :
  In t (Soup.strings n) -> Soup.is_tag t = false.
Proof.
  induction n as [v s|v nm at_ cs IH] using node_induction.
  - intros [<-|[]]. reflexivity.
  - intros Ht. apply strings_tag in Ht as (c & Hc & Ht).
    rewrite Forall_forall in IH. apply (IH c); [now apply list_elem_of_In|done].
Qed.



End CleanFacts.

(** ** The statements at concrete inputs *)

Module Witness.

Lemma get_def_blank_input_witness :
  Py.blank "   " = true
  /\ Lookup.get_def HtmlParser.html_parser None None Sample.run_only 5 "   "
       Sample.st0
     = (Ret EmptyString, Sample.st0).
Proof.
  split; [reflexivity|].
  apply LookupFacts.get_def_blank_input. reflexivity.
Defined.


Lemma cross_reference_terminates_witness :
  exists html seen visited,
    Lookup._lookup_with_cross_reference HtmlParser.html_parser 3
      (Some (Chain.logged Sample.cycle)) " a " ∅ []
    = (Ret html, seen, visited)
    /\ NoDup (Py.lower <$> visited)
    /\ (forall k, k ∈ visited -> k ∈ ["a"; "b"])
    /\ (List.length visited <= 2)%nat.
Proof.
  apply (HopFacts.cross_reference_terminates HtmlParser.html_parser
           Sample.cycle ["a"; "b"] " a " 3).
  - apply HopFacts.closedb_closed. vm_compute. reflexivity.
  - apply list_elem_of_In. vm_compute. now left.
  - cbn. lia.
Defined.


Lemma blocks_with_senses_witness :
  exists e b,
    Oald._parse_entry HtmlParser.html_parser "abandon" Sample.oald_raw = Ret e
    /\ In b (ParsedEntry.pos_blocks e)
    /\ PartOfSpeechBlock.senses b <> [].
Proof.
  eexists. eexists.
  split; [vm_compute; reflexivity|]. split; [left; reflexivity|].
  eapply (proj1 (BlockFacts.blocks_with_senses HtmlParser.html_parser
                   "abandon" Sample.oald_raw _ _)).
  - vm_compute. reflexivity.
  - left. reflexivity.
Defined.

Lemma oald_headnote_witness :
  exists root pre rest e,
    Soup.find (Soup.has_name "entry")
      (HtmlParser.html_parser ("<entry>" ++ Sample.oald_raw ++ "</entry>")%string)
    = Some root
    /\ Headnote.split_at_break (Soup.contents_of root) = (pre, rest)
    /\ Oald._parse_entry HtmlParser.html_parser "abandon" Sample.oald_raw = Ret e
    /\ exists e',
         Headnote.parse_children HtmlParser.html_parser
           (Headnote.headword_of root "abandon") Sample.oald_raw rest = Ret e'
         /\ ParsedEntry.pos_blocks e = ParsedEntry.pos_blocks e'
         /\ ParsedEntry.sections e
            = (Headnote.headnote_section HtmlParser.html_parser
                 (flat_map Headnote.fragment pre)
                 ++ ParsedEntry.sections e')%list
         /\ Dict.get "headnote" (ParsedEntry.sections e') = None.
Proof.
  eexists. eexists. eexists. eexists.
  split; [vm_compute; reflexivity|]. split; [vm_compute; reflexivity|].
  split; [vm_compute; reflexivity|].
  eapply HeadnoteFacts.oald_headnote; vm_compute; reflexivity.
Defined.


End Witness.

(** ** The model at work *)

Module Examples.

Example strip_unicode_space :
  Py.strip (" " ++ Parse.utf8 227 128 128 ++ "a  b" ++ Parse.utf8 226 128 137)
  = "a  b".
Proof. reflexivity. Qed.

Example tidy_punctuation :
  Parse._tidy_punctuation_spacing "( a , b ) ; c" = "(a, b); c".
Proof. reflexivity. Qed.

Example leading_parentheticals :
  Parse._strip_leading_parentheticals " (archaic) (of a (small) boat) to sail"
  = "to sail".
Proof. reflexivity. Qed.

Example unbalanced_parenthetical :
  Parse._strip_leading_parentheticals "(archaic to sail" = "(archaic to sail".
Proof. reflexivity. Qed.

Example redirect_notice_is_invalid :
  Lookup._is_valid_definition HtmlParser.html_parser
    "<p>See  it under <b>foo</b>, a long and real text</p>" = false.
Proof. vm_compute. reflexivity. Qed.

Example see_also_target :
  Lookup._extract_cross_reference HtmlParser.html_parser "see also foo"
  = Some "foo".
Proof. vm_compute. reflexivity. Qed.

Example see_also_alone :
  Lookup._extract_cross_reference HtmlParser.html_parser "<p>see also</p>"
  = Some "also".
Proof. vm_compute. reflexivity. Qed.

(** A headword whose definition is a redirect notice gets the
    definition of the target. *)
Example lookup_follows_redirect :
  fst (Lookup.get_def HtmlParser.html_parser None None Sample.redirecting 5
         "bar" Sample.st0)
  = Ret "<p>a real definition</p>".
Proof. vm_compute. reflexivity. Qed.

Example cycle_yields_nothing :
  fst (Lookup.get_def HtmlParser.html_parser None None Sample.cycle 5 "a"
         Sample.st0)
  = Ret EmptyString.
Proof. vm_compute. reflexivity. Qed.

Example boilerplate_is_removed :
  Lookup._strip_unwanted_segments HtmlParser.html_parser Sample.boilerplate
  = "<div> real text</div>".
Proof. vm_compute. reflexivity. Qed.

Example oald_entry :
  match Oald._parse_entry HtmlParser.html_parser "abandon" Sample.oald_raw with
  | Ret e =>
      (ParsedEntry.headword e,
       map PartOfSpeechBlock.label (ParsedEntry.pos_blocks e),
       map fst (ParsedEntry.sections e))
  | _ => (EmptyString, [], [])
  end
  = ("abandon", ["verb"], ["headnote"]).
Proof. vm_compute. reflexivity. Qed.

End Examples.

(** * Further properties of the code *)

(** ** More on the string primitives *)

Module PyMore.

Lemma app_cons (a : ascii) (t w : string) :
  (String a t ++ w)%string = String a (t ++ w).
Proof. reflexivity. Qed.

Lemma app_nil (w : string) : (EmptyString ++ w)%string = w.
Proof. reflexivity. Qed.

Lemma ws_head_app (p w : string) (k : nat) :
  Py.ws_head p = S k -> Py.ws_head (p ++ w) = S k.
Proof.
  destruct p as [|a [|b [|c p]]]; rewrite ?app_cons, ?app_nil;
    cbn [Py.ws_head]; try discriminate.
  - destruct (Py.ws1 a); [done|discriminate].
  - destruct (Py.ws1 a); [done|]. destruct (Py.ws2 a b); [done|discriminate].
  - destruct (Py.ws1 a); [done|]. destruct (Py.ws2 a b); [done|].
    destruct (Py.ws3 a b c); [done|discriminate].
Qed.

Lemma lstrip_app_below (n : nat) :
  forall p w, (String.length p < n)%nat ->
    Py.lstrip p = EmptyString -> Py.lstrip (p ++ w) = Py.lstrip w.
Proof.
  induction n as [|n IH]; intros p w Hlen Hp; [lia|].
  destruct p as [|a t]; [reflexivity|].
  cbn [Py.lstrip] in Hp. rewrite app_cons. cbn [Py.lstrip].
  destruct (Py.ws1 a) eqn:E1.
  { apply IH; [cbn in Hlen; lia|exact Hp]. }
  destruct t as [|b u]; [discriminate|]. rewrite app_cons.
  destruct (Py.ws2 a b) eqn:E2.
  { apply IH; [cbn in Hlen; lia|exact Hp]. }
  destruct u as [|c v]; [discriminate|]. rewrite app_cons.
  destruct (Py.ws3 a b c) eqn:E3; [|discriminate].
  apply IH; [cbn in Hlen; lia|exact Hp].
Qed.

(** Whitespace before whitespace is whitespace. *)
Lemma blank_app (p w : string) :
  Py.blank p = true -> Py.blank w = true -> Py.blank (p ++ w) = true.
Proof.
  unfold Py.blank. intros Hp Hw. apply PyFacts.is_empty_true in Hp.
  now rewrite (lstrip_app_below (S (String.length p)) p w ltac:(lia) Hp).
Qed.

(** What [rstrip] removes is whitespace. *)
Lemma rstrip_split (s : string) :
  exists w, s = (Py.rstrip s ++ w)%string /\ Py.blank w = true.
Proof.
  induction s as [|a t IH]; [exists EmptyString; done|].
  cbn [Py.rstrip]. destruct (Py.blank (String a t)) eqn:E.
  - exists (String a t). done.
  - destruct IH as (w & Ht & Hw). exists w. split; [|exact Hw].
    rewrite app_cons. now rewrite <- Ht.
Qed.

Lemma rstrip_idempotent (s : string) : Py.rstrip (Py.rstrip s) = Py.rstrip s.
Proof.
  induction s as [|a t IH]; [reflexivity|].
  cbn [Py.rstrip]. destruct (Py.blank (String a t)) eqn:E; [reflexivity|].
  cbn [Py.rstrip]. rewrite IH.
  destruct (Py.blank (String a (Py.rstrip t))) eqn:E'; [|reflexivity].
  destruct (rstrip_split t) as (w & Ht & Hw).
  pose proof (blank_app _ _ E' Hw) as H. rewrite app_cons in H.
  rewrite <- Ht in H. congruence.
Qed.

Lemma ws_head_rstrip (s : string) :
  Py.ws_head s = 0%nat -> Py.ws_head (Py.rstrip s) = 0%nat.
Proof.
  intros H. destruct (Py.ws_head (Py.rstrip s)) as [|k] eqn:E; [reflexivity|].
  destruct (rstrip_split s) as (w & Hs & _).
  pose proof (ws_head_app _ w _ E) as H'. rewrite <- Hs in H'. congruence.
Qed.

(** [strip] is idempotent. *)
Lemma strip_idempotent (s : string) : Py.strip (Py.strip s) = Py.strip s.
Proof.
  unfold Py.strip.
  rewrite (PyFacts.lstrip_no_ws (Py.rstrip (Py.lstrip s))).
  - apply rstrip_idempotent.
  - apply ws_head_rstrip, PyFacts.ws_head_lstrip.
Qed.

Lemma all_in_span (p : ascii -> bool) (s : string) :
  Py.all_in p (fst (Py.span p s)) = true.
Proof.
  induction s as [|a t IH]; [reflexivity|]. cbn.
  destruct (p a) eqn:E; [|reflexivity].
  destruct (Py.span p t) as [x y]. cbn in *. now rewrite E.
Qed.

End PyMore.

(** ** The resolver: what a resolution returns and what it leaves alone *)

Module ResolverFacts.
Import Lookup.

Section WithWorld.
Variable BeautifulSoup : string -> node.
Variable oald_files concise_files : option (gmap string string).
Variable _fallback : string -> string.

(** X1. What [_lookup_with_cross_reference] returns is the empty string
    or a valid definition that the provider itself returned, in the
    state the resolution ends in: a redirect notice never comes out. *)
Theorem xref_valid_or_empty {S : Type} (call : string -> S -> res string * S) :
  forall fuel word seen st h seen' st',
    _lookup_with_cross_reference BeautifulSoup fuel (Some call) word seen st
    = (Ret h, seen', st') ->
    h = EmptyString
    \/ (_is_valid_definition BeautifulSoup h = true
        /\ exists k s, call k s = (Ret h, st')).
Proof.
  induction fuel as [|fuel IH]; intros word seen st h seen' st' H.
  - cbn in H. discriminate.
  - cbn in H.
    destruct (Py.is_empty (Py.strip word)); [inversion H; now left|].
    destruct (decide (Py.lower (Py.strip word) ∈ seen)); [inversion H; now left|].
    destruct (call (Py.strip word) st) as [r1 st1] eqn:Ec.
    destruct r1 as [html|x|]; try discriminate.
    destruct (_is_valid_definition BeautifulSoup html) eqn:Ev.
    { inversion H; subst. right. split; [exact Ev|]. eauto. }
    destruct (_extract_cross_reference BeautifulSoup html) as [target|];
      [|inversion H; now left].
    destruct (negb (Py.is_empty target) && _); [|inversion H; now left].
    eapply IH; eauto.
Qed.

Lemma or_else_preserves (P : state -> Prop) a b st r st' :
  (forall s r' s', a s = (r', s') -> P s -> P s') ->
  (forall s r' s', b s = (r', s') -> P s -> P s') ->
  or_else a b st = (r, st') -> P st -> P st'.
Proof.
  intros Ha Hb. unfold or_else. destruct (a st) as [r1 st1] eqn:E.
  intros H HP. pose proof (Ha _ _ _ E HP) as HP1.
  destruct r1 as [html|x|].
  - destruct (Py.is_empty html); [eapply Hb; eauto|now inversion H; subst].
  - now inversion H; subst.
  - now inversion H; subst.
Qed.

Lemma resolve_preserves (P : state -> Prop) call fuel key st r st' :
  (forall k s r' s', call k s = (r', s') -> P s -> P s') ->
  resolve BeautifulSoup fuel call key st = (r, st') -> P st -> P st'.
Proof.
  intros Hcall. unfold resolve.
  destruct (_lookup_with_cross_reference BeautifulSoup fuel (Some call) key ∅ st)
    as [[r1 seen1] st1] eqn:E.
  intros H HP. inversion H; subst.
  eapply (LookupFacts.xref_preserves BeautifulSoup P call); eauto.
Qed.

Lemma lookup_oald_uses Do Dc k st r st' :
  _lookup_oald BeautifulSoup oald_files k st = (r, st') ->
  Sources.uses oald_files concise_files Do Dc st ->
  Sources.uses oald_files concise_files Do Dc st'.
Proof.
  unfold _lookup_oald, _get_oald_parser, Sources.uses.
  destruct (_oald_parser st) eqn:Es; [destruct oald_files| |];
    intros H [Ho Hc]; inversion H; subst; cbn in *; rewrite ?Es; auto.
Qed.

Lemma lookup_concise_uses Do Dc k st r st' :
  _lookup_concise BeautifulSoup concise_files k st = (r, st') ->
  Sources.uses oald_files concise_files Do Dc st ->
  Sources.uses oald_files concise_files Do Dc st'.
Proof.
  unfold _lookup_concise, _get_concise_parser, Sources.uses.
  destruct (_concise_parser st) eqn:Es; [destruct concise_files| |];
    intros H [Ho Hc]; inversion H; subst; cbn in *; rewrite ?Es; auto.
Qed.

Lemma sources_uses Do Dc fuel key st r st' :
  Terms.sources BeautifulSoup oald_files concise_files _fallback fuel key st
  = (r, st') ->
  Sources.uses oald_files concise_files Do Dc st ->
  Sources.uses oald_files concise_files Do Dc st'.
Proof.
  unfold Terms.sources. apply or_else_preserves.
  - intros s r' s'. apply resolve_preserves. apply lookup_oald_uses.
  - intros s r' s'. apply or_else_preserves.
    + intros s0 r0 s0'. apply resolve_preserves. apply lookup_concise_uses.
    + intros s0 r0 s0'. apply resolve_preserves.
      intros k s1 r1 s1' H. now inversion H; subst.
Qed.

(** X2. The parser that each dictionary source uses never changes: a
    parser that is built stays, a construction that failed is not tried
    again, and a parser not yet built is still to be built from the same
    files, whatever [get_def] is asked and whatever it gives. *)
Theorem get_def_keeps_parsers (fuel : nat) (word : string) (st : state) :
  Chain.effective
    (_oald_parser
       (snd (get_def BeautifulSoup oald_files concise_files _fallback fuel word st)))
    oald_files
  = Chain.effective (_oald_parser st) oald_files
  /\ Chain.effective
       (_concise_parser
          (snd (get_def BeautifulSoup oald_files concise_files _fallback fuel word st)))
       concise_files
     = Chain.effective (_concise_parser st) concise_files.
Proof.
  unfold get_def. destruct (Py.is_empty (Py.strip word)); [done|].
  destruct (_cache st !! Py.lower (Py.strip word)); [done|].
  change (or_else _ _ st) with
    (Terms.sources BeautifulSoup oald_files concise_files _fallback fuel
       (Py.strip word) st).
  destruct (Terms.sources _ _ _ _ _ _ st) as [r1 st1] eqn:Es.
  destruct (sources_uses _ _ _ _ _ _ _ Es (conj eq_refl eq_refl)) as [Ho Hc].
  destruct r1; cbn; auto.
Qed.


(** X4. The sources are tried in order and lazily: when the resolution
    in the first dictionary gives a definition, [get_def] returns it
    sanitized, caches it, and has neither built the parser of the second
    dictionary nor changed anything else. *)
Theorem first_source_wins (fuel : nat) (word h : string) (st st1 : state) :
  Py.blank word = false ->
  _cache st !! Py.lower (Py.strip word) = None ->
  resolve BeautifulSoup fuel (_lookup_oald BeautifulSoup oald_files)
    (Py.strip word) st = (Ret h, st1) ->
  h <> EmptyString ->
  get_def BeautifulSoup oald_files concise_files _fallback fuel word st
  = (Ret (_strip_unwanted_segments BeautifulSoup h),
     State (_oald_parser st1) (_concise_parser st)
       (<[Py.lower (Py.strip word) := _strip_unwanted_segments BeautifulSoup h]>
          (_cache st))).
Proof.
  intros Hnb Hmiss Hres Hh. unfold get_def.
  rewrite PyFacts.is_empty_strip, Hnb, Hmiss.
  unfold or_else at 1. rewrite Hres.
  apply PyFacts.is_empty_false in Hh. rewrite Hh.
  assert (Hc : _concise_parser st1 = _concise_parser st
               /\ _cache st1 = _cache st).
  { apply (resolve_preserves
             (fun s => _concise_parser s = _concise_parser st
                       /\ _cache s = _cache st) _ _ _ _ _ _) in Hres; [done| |done].
    intros k s r' s'. unfold _lookup_oald, _get_oald_parser.
    destruct (_oald_parser s); [destruct oald_files| |];
      intros H Hs; inversion H; subst; exact Hs. }
  destruct Hc as [-> ->]. reflexivity.
Qed.

Lemma resolve_miss (call : string -> state -> res string * state) fuel key st st1 :
  Py.is_empty (Py.strip key) = false ->
  call (Py.strip key) st = (Ret EmptyString, st1) ->
  resolve BeautifulSoup (S fuel) call key st = (Ret EmptyString, st1).
Proof.
  intros Hk Hc. unfold resolve. cbn [_lookup_with_cross_reference].
  rewrite Hk. destruct (decide (Py.lower (Py.strip key) ∈ ∅)) as [Hin|_];
    [set_solver|].
  rewrite Hc. reflexivity.
Qed.

Lemma lookup_oald_miss key st :
  (forall d, Chain.effective (_oald_parser st) oald_files = Some d ->
     default EmptyString (d !! key) = EmptyString) ->
  exists st1,
    _lookup_oald BeautifulSoup oald_files key st = (Ret EmptyString, st1)
    /\ _concise_parser st1 = _concise_parser st
    /\ _cache st1 = _cache st.
Proof.
  intros H. unfold _lookup_oald, _get_oald_parser, Oald.get_entry.
  destruct (_oald_parser st) as [| |d] eqn:Es; cbn in H.
  - destruct oald_files as [d|].
    + rewrite (H d eq_refl). cbn. eauto.
    + eauto.
  - eauto.
  - rewrite (H d eq_refl). cbn. eauto.
Qed.

Lemma lookup_concise_miss key st :
  (forall d, Chain.effective (_concise_parser st) concise_files = Some d ->
     default EmptyString (d !! key) = EmptyString) ->
  exists st1,
    _lookup_concise BeautifulSoup concise_files key st = (Ret EmptyString, st1)
    /\ _oald_parser st1 = _oald_parser st
    /\ _cache st1 = _cache st.
Proof.
  intros H. unfold _lookup_concise, _get_concise_parser, Concise.get_entry.
  destruct (_concise_parser st) as [| |d] eqn:Es; cbn in H.
  - destruct concise_files as [d|].
    + rewrite (H d eq_refl). cbn. eauto.
    + eauto.
  - eauto.
  - rewrite (H d eq_refl). cbn. eauto.
Qed.

(** X5. A word that no source defines: when neither dictionary in use
    has a payload for the trimmed word and the fallback gives nothing
    for it, [get_def] returns the empty string and caches it under the
    key of the word, so the sources are not asked again. *)
Theorem get_def_caches_misses (fuel : nat) (word : string) (st : state) :
  Py.blank word = false ->
  _cache st !! Py.lower (Py.strip word) = None ->
  (forall d, Chain.effective (_oald_parser st) oald_files = Some d ->
     default EmptyString (d !! Py.strip word) = EmptyString) ->
  (forall d, Chain.effective (_concise_parser st) concise_files = Some d ->
     default EmptyString (d !! Py.strip word) = EmptyString) ->
  _fallback (Py.strip word) = EmptyString ->
  exists st',
    get_def BeautifulSoup oald_files concise_files _fallback (S fuel) word st
    = (Ret EmptyString, st')
    /\ _cache st' = <[Py.lower (Py.strip word) := EmptyString]> (_cache st).
Proof.
  intros Hnb Hmiss Ho Hc Hf. unfold get_def.
  assert (Hk : Py.is_empty (Py.strip (Py.strip word)) = false).
  { now rewrite PyMore.strip_idempotent, PyFacts.is_empty_strip. }
  rewrite PyFacts.is_empty_strip, Hnb, Hmiss.
  destruct (lookup_oald_miss (Py.strip word) st Ho) as (st1 & E1 & Hc1 & Hk1).
  rewrite <- (PyMore.strip_idempotent word) in E1 at 1.
  assert (Hc' : forall d,
            Chain.effective (_concise_parser st1) concise_files = Some d ->
            default EmptyString (d !! Py.strip word) = EmptyString).
  { now rewrite Hc1. }
  destruct (lookup_concise_miss (Py.strip word) st1 Hc') as (st2 & E2 & _ & Hk2).
  rewrite <- (PyMore.strip_idempotent word) in E2 at 1.
  unfold or_else.
  rewrite (resolve_miss _ fuel _ _ _ Hk E1). cbn [Py.is_empty].
  rewrite (resolve_miss _ fuel _ _ _ Hk E2). cbn [Py.is_empty].
  rewrite (resolve_miss (_lookup_fallback _fallback) fuel (Py.strip word) st2 st2 Hk).
  - eexists. split; [reflexivity|]. cbn. now rewrite Hk2, Hk1.
  - unfold _lookup_fallback. now rewrite PyMore.strip_idempotent, Hf.
Qed.

End WithWorld.

Lemma xref_valid_or_empty_witness :
  "<p>a real definition</p>" = EmptyString
  \/ (_is_valid_definition HtmlParser.html_parser "<p>a real definition</p>" = true
      /\ exists k s,
           _lookup_fallback Sample.redirecting k s
           = (Ret "<p>a real definition</p>", Sample.st0)).
Proof.
  eapply (xref_valid_or_empty HtmlParser.html_parser
            (_lookup_fallback Sample.redirecting) 5 "bar" ∅ Sample.st0).
  vm_compute. reflexivity.
Defined.


Lemma first_source_wins_witness :
  exists h st',
    get_def HtmlParser.html_parser (Some Sample.concise_dict) None
      Sample.no_fallback 3 " run" Sample.st0 = (Ret h, st')
    /\ _concise_parser st' = Uninit.
Proof.
  eexists. eexists. split; [|shelve].
  eapply (first_source_wins HtmlParser.html_parser (Some Sample.concise_dict)
            None Sample.no_fallback 3 " run").
  - reflexivity.
  - reflexivity.
  - vm_compute. reflexivity.
  - discriminate.
  Unshelve. reflexivity.
Defined.

Lemma get_def_caches_misses_witness :
  exists st',
    get_def HtmlParser.html_parser None (Some Sample.concise_dict)
      Sample.no_fallback 1 "walk " Sample.st0 = (Ret EmptyString, st')
    /\ _cache st' = <[Py.lower (Py.strip "walk ") := EmptyString]> (_cache Sample.st0).
Proof.
  apply (get_def_caches_misses HtmlParser.html_parser None
           (Some Sample.concise_dict) Sample.no_fallback 0 "walk " Sample.st0).
  - reflexivity.
  - reflexivity.
  - intros d H. discriminate.
  - intros d H. cbn in H. inversion H; subst d. vm_compute. reflexivity.
  - reflexivity.
Defined.

End ResolverFacts.

(** ** The target of a cross-reference *)

Module TargetFacts.
Import Lookup.

Lemma word_char_not_space (a : ascii) :
  word_char a = true ->
  Py.ws1 a = false
  /\ forall b, Py.ws2 a b = false /\ forall c, Py.ws3 a b c = false.
Proof.
  intros H.
  destruct a as [[] [] [] [] [] [] [] []]; try discriminate H;
    (split; [reflexivity|intros b; split; [reflexivity|intros c; reflexivity]]).
Qed.

Lemma word_char_no_ws (a : ascii) (r : string) :
  word_char a = true -> Py.ws_head (String a r) = 0%nat.
Proof.
  intros H. destruct (word_char_not_space a H) as [H1 H2].
  cbn [Py.ws_head]. rewrite H1. destruct r as [|b [|c r]]; [reflexivity| |].
  - now rewrite (proj1 (H2 b)).
  - rewrite (proj1 (H2 b)). now rewrite (proj2 (H2 b) c).
Qed.

Lemma word_rstrip (t : string) :
  Py.all_in word_char t = true -> Py.rstrip t = t.
Proof.
  induction t as [|a r IH]; [reflexivity|]. cbn [Py.all_in].
  intros H. apply andb_prop in H as [Ha Hr].
  cbn [Py.rstrip]. unfold Py.blank.
  rewrite (PyFacts.lstrip_no_ws _ (word_char_no_ws a r Ha)). cbn [Py.is_empty].
  now rewrite (IH Hr).
Qed.

(** A string of letters, apostrophes, underscores and hyphens has no
    whitespace to trim. *)
Lemma word_strip (t : string) :
  Py.all_in word_char t = true -> Py.strip t = t.
Proof.
  intros H. unfold Py.strip. destruct t as [|a r]; [reflexivity|].
  pose proof H as H'. cbn [Py.all_in] in H'. apply andb_prop in H' as [Ha _].
  rewrite (PyFacts.lstrip_no_ws _ (word_char_no_ws a r Ha)).
  now apply word_rstrip.
Qed.

Lemma take_word_shape (s w : string) :
  take_word s = Some w ->
  exists a r, w = String a r /\ Py.is_alpha a = true
              /\ Py.all_in word_char w = true.
Proof.
  destruct s as [|a t]; [discriminate|]. cbn [take_word].
  destruct (Py.is_alpha a) eqn:Ea; [|discriminate].
  assert (Hwc : word_char a = true) by (unfold word_char; now rewrite Ea).
  intros [= <-].
  pose proof (PyMore.all_in_span word_char (String a t)) as Hall.
  cbn [Py.span] in *. rewrite Hwc in *.
  destruct (Py.span word_char t) as [x y]. cbn [fst] in *.
  exists a, x. repeat split; auto.
Qed.

Lemma search_arrow_word (s w : string) :
  search_arrow s = Some w -> exists s', take_word s' = Some w.
Proof.
  induction s as [|a t IH]; [discriminate|]. cbn [search_arrow].
  destruct (Py.startswith ARROW (String a t)).
  - destruct (take_word (Py.lstrip (Py.drop 3 (String a t)))) as [w'|] eqn:E.
    + intros H. inversion H; subst. eauto.
    + exact IH.
  - exact IH.
Qed.

Lemma ws_then_word_word (s w : string) :
  ws_then_word s = Some w -> exists s', take_word s' = Some w.
Proof. unfold ws_then_word. destruct (Py.ws_head s); [discriminate|eauto]. Qed.

Lemma match_see_word (s w : string) :
  match_see s = Some w -> exists s', take_word s' = Some w.
Proof.
  unfold match_see. destruct (Py.startswith "see" (Py.lower s)); [|discriminate].
  destruct (Py.ws_head (Py.drop 3 s)).
  - apply ws_then_word_word.
  - destruct (Py.startswith "also" (Py.lower (Py.lstrip (Py.drop 3 s)))).
    + destruct (ws_then_word (Py.drop 4 (Py.lstrip (Py.drop 3 s)))) as [w'|] eqn:E.
      * intros H. inversion H; subst. eapply ws_then_word_word; eauto.
      * apply ws_then_word_word.
    + apply ws_then_word_word.
Qed.



End TargetFacts.

(** ** Sanitization: what is removed and what is kept *)

Module SanitizeFacts.
Import Clean CleanFacts.

Lemma in_unaudio (cs : list node) (c' : node) :
  In c' (flat_map (fun c => if Lookup.is_audio c then []
                            else [Lookup.remove_audio c]) cs)
  <-> exists c, In c cs /\ Lookup.is_audio c = false
                /\ c' = Lookup.remove_audio c.
Proof.
  rewrite in_flat_map. split.
  - intros (c & Hc & H). exists c. split; [exact Hc|].
    destruct (Lookup.is_audio c); [destruct H|].
    destruct H as [<-|[]]. done.
  - intros (c & Hc & Ha & ->). exists c. split; [exact Hc|].
    rewrite Ha. now left.
Qed.

Lemma is_audio_remove_audio (n : node) :
  Lookup.is_audio (Lookup.remove_audio n) = Lookup.is_audio n.
Proof. now destruct n. Qed.

Lemma is_audio_drop_body (u : nat) (n : node) :
  Lookup.is_audio (drop_body u n) = Lookup.is_audio n.
Proof. now destruct n. Qed.

Lemma remove_audio_clean (n E : node) :
  In E (Soup.descendants (Lookup.remove_audio n)) -> Lookup.is_audio E = false.
Proof.
  revert E. induction n as [v s|v nm at_ cs IH] using node_induction;
    intros E HE; [destruct HE|].
  cbn [Lookup.remove_audio] in HE.
  apply descendants_tag in HE as (c' & Hc' & HE).
  apply in_unaudio in Hc' as (c & Hc & Ha & ->).
  destruct HE as [->|HE]; [now rewrite is_audio_remove_audio|].
  rewrite Forall_forall in IH. apply (IH c); [now apply list_elem_of_In|exact HE].
Qed.

Lemma remove_audio_strings (n t : node) :
  In t (Soup.strings (Lookup.remove_audio n)) -> In t (Soup.strings n).
Proof.
  induction n as [v s|v nm at_ cs IH] using node_induction; [done|].
  cbn [Lookup.remove_audio]. intros Ht.
  apply strings_tag in Ht as (c' & Hc' & Ht).
  apply in_unaudio in Hc' as (c & Hc & _ & ->).
  apply strings_tag. exists c. split; [exact Hc|].
  rewrite Forall_forall in IH. apply (IH c); [now apply list_elem_of_In|exact Ht].
Qed.

(** What is below a pruned tree is a pruned subtree. *)
Lemma descendants_drop_body (u : nat) (n E' : node) :
  In E' (Soup.descendants (drop_body u n)) ->
  exists E0, In E0 (Soup.descendants n) /\ E' = drop_body u E0.
Proof.
  induction n as [v s|v nm at_ cs IH] using node_induction; [intros []|].
  unfold drop_body at 1. intros HE'.
  apply descendants_tag in HE' as (c' & Hc' & HE').
  apply in_kept in Hc' as (c & Hc & _ & ->).
  destruct HE' as [->|HE'].
  - exists c. split; [|reflexivity]. apply descendants_tag. eauto.
  - rewrite Forall_forall in IH.
    destruct (IH c (proj2 (list_elem_of_In _ _) Hc) HE') as (E0 & HE0 & ->).
    exists E0. split; [|reflexivity]. apply descendants_tag. eauto.
Qed.

Lemma drop_in_soup_clean (u : nat) (T : node) :
  (forall E, In E (Soup.descendants T) -> Lookup.is_audio E = false) ->
  forall E, In E (Soup.descendants (Lookup.drop_in_soup u T)) ->
    Lookup.is_audio E = false.
Proof.
  intros HT E. unfold Lookup.drop_in_soup. rewrite drop_text_eq.
  destruct (dropped u T); [intros []|].
  intros HE. apply descendants_drop_body in HE as (E0 & HE0 & ->).
  rewrite is_audio_drop_body. now apply HT.
Qed.

Lemma loop_clean (L : list node) (T : node) :
  (forall E, In E (Soup.descendants T) -> Lookup.is_audio E = false) ->
  forall E, In E (Soup.descendants (fold_left Lookup.sanitize_step L T)) ->
    Lookup.is_audio E = false.
Proof.
  revert T. induction L as [|x L IH]; intros T HT; [exact HT|].
  cbn [fold_left]. apply IH. unfold Lookup.sanitize_step.
  destruct (Lookup._should_drop (Soup.text_of x)); [|exact HT].
  now apply drop_in_soup_clean.
Qed.

Lemma loop_strings (L : list node) (T t : node) :
  In t (Soup.strings (fold_left Lookup.sanitize_step L T)) ->
  In t (Soup.strings T).
Proof.
  revert T. induction L as [|x L IH]; intros T Ht; [exact Ht|].
  cbn [fold_left] in Ht. apply IH in Ht. unfold Lookup.sanitize_step in Ht.
  destruct (Lookup._should_drop (Soup.text_of x)); [|exact Ht].
  now destruct (proj1 (drop_in_soup_spec (Soup.uid_of x) T) t Ht).
Qed.

(** X7. The sanitized tree holds no audio reference: no element named
    [rref] or [audio] is left anywhere below the document, whatever the
    pruning of the emptied parents did afterwards. *)
Theorem sanitize_no_audio (soup E : node) :
  In E (Soup.descendants (Lookup.sanitize_tree soup)) ->
  Soup.has_name "rref" E = false /\ Soup.has_name "audio" E = false.
Proof.
  intros HE. apply orb_false_elim.
  change (Lookup.is_audio E = false).
  unfold Lookup.sanitize_tree in HE.
  eapply loop_clean; [|exact HE]. intros E0. apply remove_audio_clean.
Qed.

(** X8. Sanitization only removes: every text node of the sanitized tree
    is a text node of the parsed tree, with its text as it was, and none
    of them is one that the drop test selects (accent labels, bracketed
    transcriptions, sound file names, short pronunciation notes). *)
Theorem sanitize_only_removes (soup t : node) :
  In t (Soup.strings (Lookup.sanitize_tree soup)) ->
  In t (Soup.strings soup)
  /\ Lookup._should_drop (Soup.text_of t) = false.
Proof.
  unfold Lookup.sanitize_tree. intros Ht. split.
  - apply remove_audio_strings. eapply loop_strings. exact Ht.
  - eapply loop_drops_all; [|exact Ht]. auto.
Qed.

Lemma drop_in_soup_keeps (u : nat) (T t : node) :
  In t (Soup.strings T) -> Soup.uid_of t <> u ->
  Py.blank (Soup.text_of t) = false ->
  In t (Soup.strings (Lookup.drop_in_soup u T)).
Proof.
  intros Ht Hu Hv. unfold Lookup.drop_in_soup. rewrite drop_text_eq.
  pose proof (proj1 (drop_body_spec u T) t Ht Hu Hv) as Hk.
  destruct (dropped u T) eqn:Hd; [exfalso|exact Hk].
  destruct T as [v s|v nm at_ cs]; cbn [dropped] in Hd.
  - destruct Ht as [<-|[]]. cbn in Hu. apply Nat.eqb_eq in Hd. done.
  - rewrite (get_text_visible " " _ t Hk Hv), andb_false_r in Hd. discriminate.
Qed.

Lemma loop_keeps (L : list node) (T t : node) :
  (forall x, In x L -> Lookup._should_drop (Soup.text_of x) = true ->
     Soup.uid_of t <> Soup.uid_of x) ->
  Py.blank (Soup.text_of t) = false ->
  In t (Soup.strings T) ->
  In t (Soup.strings (fold_left Lookup.sanitize_step L T)).
Proof.
  intros HL Hv. revert T HL. induction L as [|x L IH]; intros T HL Ht; [exact Ht|].
  cbn [fold_left]. apply IH; [intros y Hy; apply HL; now right|].
  unfold Lookup.sanitize_step.
  destruct (Lookup._should_drop (Soup.text_of x)) eqn:Ex; [|exact Ht].
  apply drop_in_soup_keeps; [exact Ht| |exact Hv].
  apply HL; [now left|exact Ex].
Qed.

Lemma strings_distinct (T a b : node) :
  NoDup (uids_below T) ->
  In a (Soup.strings T) -> In b (Soup.strings T) ->
  Soup.uid_of a = Soup.uid_of b -> a = b.
Proof.
  intros Hnd Ha Hb Hu.
  destruct T as [v s|v nm at_ cs].
  - destruct Ha as [<-|[]], Hb as [<-|[]]. reflexivity.
  - apply (same_uid_same_node _ a b Hnd); [| |exact Hu].
    + destruct (strings_below _ _ Ha) as [->|H]; [|exact H].
      now pose proof (strings_are_text _ _ Ha).
    + destruct (strings_below _ _ Hb) as [->|H]; [|exact H].
      now pose proof (strings_are_text _ _ Hb).
Qed.

(** X9. Sanitization keeps the real text: when the nodes of the parsed
    tree are distinct objects, a text node outside the audio references
    that is not blank and that the drop test does not select is still in
    the sanitized tree. *)
Theorem sanitize_keeps_text (soup t : node) :
  NoDup (uids_below soup) ->
  In t (Soup.strings (Lookup.remove_audio soup)) ->
  Py.blank (Soup.text_of t) = false ->
  Lookup._should_drop (Soup.text_of t) = false ->
  In t (Soup.strings (Lookup.sanitize_tree soup)).
Proof.
  intros Hnd Ht Hv Hkeep. unfold Lookup.sanitize_tree.
  assert (Hnd0 : NoDup (uids_below (Lookup.remove_audio soup)))
    by (eapply sublist_NoDup; [exact Hnd|apply remove_audio_uids]).
  apply loop_keeps; [|exact Hv|exact Ht].
  intros x Hx Hdrop Hu.
  rewrite (strings_distinct _ t x Hnd0 Ht Hx Hu) in Hkeep. congruence.
Qed.

Lemma unaudio_id (cs : list node) :
  Forall (fun c => Lookup.is_audio c = false /\ Lookup.remove_audio c = c) cs ->
  flat_map (fun c => if Lookup.is_audio c then [] else [Lookup.remove_audio c]) cs
  = cs.
Proof.
  induction 1 as [|c cs [Ha Hc] _ IH]; [reflexivity|].
  cbn [flat_map]. now rewrite Ha, Hc, IH.
Qed.

Lemma remove_audio_id (n : node) :
  (forall E, In E (Soup.descendants n) -> Lookup.is_audio E = false) ->
  Lookup.remove_audio n = n.
Proof.
  induction n as [v s|v nm at_ cs IH] using node_induction; [done|].
  intros H. cbn [Lookup.remove_audio]. f_equal. apply unaudio_id.
  rewrite Forall_forall in IH. apply Forall_forall. intros c Hc.
  pose proof (proj1 (list_elem_of_In _ _) Hc) as Hc'. split.
  - apply H. apply descendants_tag. eauto.
  - apply (IH c Hc). intros E HE. apply H. apply descendants_tag. eauto.
Qed.

Lemma loop_id (L : list node) (T : node) :
  (forall x, In x L -> Lookup._should_drop (Soup.text_of x) = false) ->
  fold_left Lookup.sanitize_step L T = T.
Proof.
  induction L as [|x L IH]; intros H; [reflexivity|].
  cbn [fold_left]. unfold Lookup.sanitize_step at 2.
  rewrite (H x (or_introl eq_refl)). apply IH. intros y Hy. apply H. now right.
Qed.

(** X10. One pass is enough: sanitizing a sanitized tree changes
    nothing. *)
Theorem sanitize_tree_idempotent (soup : node) :
  Lookup.sanitize_tree (Lookup.sanitize_tree soup) = Lookup.sanitize_tree soup.
Proof.
  set (out := Lookup.sanitize_tree soup).
  unfold Lookup.sanitize_tree at 1.
  assert (Ha : Lookup.remove_audio out = out).
  { apply remove_audio_id. intros E HE.
    unfold out, Lookup.sanitize_tree in HE.
    eapply loop_clean; [|exact HE]. intros E0. apply remove_audio_clean. }
  rewrite Ha. apply loop_id. intros x Hx.
  unfold out, Lookup.sanitize_tree in Hx.
  eapply loop_drops_all; [|exact Hx]. auto.
Qed.

Lemma sanitize_no_audio_witness :
  Soup.has_name "rref" (Tag 4 "b" [] [NavigableString 5 "y"]) = false
  /\ Soup.has_name "audio" (Tag 4 "b" [] [NavigableString 5 "y"]) = false.
Proof.
  apply (sanitize_no_audio
           (HtmlParser.html_parser "<p><audio>x</audio><b>y</b></p>")).
  vm_compute. right. now left.
Defined.

Lemma sanitize_only_removes_witness :
  In (NavigableString 4 " real text")
     (Soup.strings (HtmlParser.html_parser Sample.boilerplate))
  /\ Lookup._should_drop " real text" = false.
Proof.
  apply (sanitize_only_removes (HtmlParser.html_parser Sample.boilerplate)
           (NavigableString 4 " real text")).
  vm_compute. now left.
Defined.

Lemma sanitize_keeps_text_witness :
  In (NavigableString 4 " real text")
     (Soup.strings
        (Lookup.sanitize_tree (HtmlParser.html_parser Sample.boilerplate))).
Proof.
  apply sanitize_keeps_text.
  - apply (bool_decide_unpack _). vm_compute. exact I.
  - vm_compute. right. now left.
  - reflexivity.
  - vm_compute. reflexivity.
Defined.

End SanitizeFacts.

(** ** Class names and file names *)

Module SlugFacts.
Import Render.

Lemma dash_runs_class (s : string) :
  forall in_run, Py.all_in class_char (dash_runs in_run s) = true.
Proof.
  induction s as [|a t IH]; intros in_run; [reflexivity|].
  cbn [dash_runs]. destruct (class_char a) eqn:Ea.
  - cbn [Py.all_in]. now rewrite Ea, IH.
  - destruct in_run; [apply IH|]. cbn [Py.all_in]. now rewrite IH.
Qed.

Lemma all_in_after_span (p q : ascii -> bool) (s : string) :
  Py.all_in q s = true -> Py.all_in q (snd (Py.span p s)) = true.
Proof.
  induction s as [|a t IH]; [done|]. cbn [Py.all_in Py.span].
  intros H. pose proof H as H'. apply andb_prop in H' as [Ha Ht].
  destruct (p a).
  - specialize (IH Ht). destruct (Py.span p t) as [x y]. exact IH.
  - exact H.
Qed.

Lemma all_in_rstrip_chars (p q : ascii -> bool) (s : string) :
  Py.all_in q s = true -> Py.all_in q (Py.rstrip_chars p s) = true.
Proof.
  induction s as [|a t IH]; [done|]. intros H.
  cbn [Py.rstrip_chars]. destruct (Py.all_in p (String a t)); [reflexivity|].
  cbn [Py.all_in] in *. apply andb_prop in H as [Ha Ht].
  now rewrite Ha, IH.
Qed.

Lemma lower_char_slug (a : ascii) :
  class_char a = true -> Preview.slug_char (Py.lower_char a) = true.
Proof.
  destruct a as [[] [] [] [] [] [] [] []]; intros H; try discriminate H;
    reflexivity.
Qed.

Lemma lower_slug (s : string) :
  Py.all_in class_char s = true ->
  Py.all_in Preview.slug_char (Py.lower s) = true.
Proof.
  induction s as [|a t IH]; [done|]. cbn [Py.all_in Py.lower].
  intros H. apply andb_prop in H as [Ha Ht].
  now rewrite (lower_char_slug a Ha), IH.
Qed.

(** Whatever the text, its slug is made of slug characters. *)
Lemma slug_safe (s : string) :
  Py.all_in Preview.slug_char
    (Py.lower (Py.strip_chars Preview.is_dash (dash_runs false s))) = true.
Proof.
  apply lower_slug. unfold Py.strip_chars.
  apply all_in_rstrip_chars, all_in_after_span, dash_runs_class.
Qed.

(** X11. The class name that the renderer derives from a section key is
    never empty and holds digits, lowercase letters, underscores and
    hyphens only, whatever the key: it cannot close the attribute it is
    written in, nor add a class. *)
Theorem section_class_name_safe (section_key : string) :
  _section_class_name section_key <> EmptyString
  /\ Py.all_in Preview.slug_char (_section_class_name section_key) = true.
Proof.
  unfold _section_class_name.
  pose proof (slug_safe section_key) as H. unfold Preview.is_dash in H.
  destruct (Py.lower _) as [|a t] eqn:E; cbn [Py.is_empty].
  - split; [discriminate|reflexivity].
  - split; [discriminate|exact H].
Qed.

(** X12. The two preview scripts name the file of a word after the same
    slug, between their prefix and [.html]; the slug is never empty and
    holds digits, lowercase letters, underscores and hyphens only, so
    the name has no path separator and the file stays in the output
    directory. *)
Theorem preview_file_names (word : string) :
  exists slug,
    Preview._safe_filename word = ("anki_preview_" ++ slug ++ ".html")%string
    /\ Preview._safe_slug word = ("oald_preview_" ++ slug ++ ".html")%string
    /\ slug <> EmptyString
    /\ Py.all_in Preview.slug_char slug = true.
Proof.
  unfold Preview._safe_filename, Preview._safe_slug.
  pose proof (slug_safe (Py.strip word)) as H.
  destruct (Py.strip_chars Preview.is_dash (dash_runs false (Py.strip word)))
    as [|a t] eqn:E; cbn [Py.is_empty Py.lower] in *.
  - exists "entry". repeat split; discriminate.
  - exists (String (Py.lower_char a) (Py.lower t)).
    repeat split; [discriminate|exact H].
Qed.

End SlugFacts.

(** ** More on the renderer *)

Module RenderMore.
Import Render.

Lemma get_absent {V : Type} (k : string) (d : list (string * V)) :
  ~ In k (map fst d) -> Dict.get k d = None.
Proof.
  induction d as [|[k0 v] d IH]; [reflexivity|]. cbn. intros H.
  destruct (String.eqb k0 k) eqn:E.
  - apply String.eqb_eq in E. destruct H. now left.
  - apply IH. intros Hin. apply H. now right.
Qed.

Lemma get_without_empty {A : Type} (k : string) (d : list (string * list A)) :
  NoDup (map fst d) ->
  default [] (Dict.get k (List.filter Shown.has_items d))
  = default [] (Dict.get k d).
Proof.
  induction d as [|[k0 v] d IH]; [reflexivity|]. cbn [map fst].
  intros Hnd. apply NoDup_cons in Hnd as [Hk0 Hnd].
  cbn [List.filter Dict.get]. unfold Shown.has_items at 1. cbn [snd].
  destruct (String.eqb k0 k) eqn:E.
  - destruct v as [|x v]; [|cbn; now rewrite E].
    apply String.eqb_eq in E. subst k0.
    rewrite get_absent; [reflexivity|].
    intros Hin. apply Hk0. apply list_elem_of_In.
    apply in_map_iff in Hin as ([k1 v1] & Hk & Hin).
    apply filter_In in Hin as [Hin _]. apply in_map_iff. eauto.
  - destruct v as [|x v]; [now apply IH|]. cbn. rewrite E. now apply IH.
Qed.

Lemma remove_without_empty {A : Type} (k : string) (d : list (string * list A)) :
  Dict.remove k (List.filter Shown.has_items d)
  = List.filter Shown.has_items (Dict.remove k d).
Proof.
  induction d as [|[k0 v] d IH]; [reflexivity|].
  cbn [List.filter Dict.remove].
  destruct (Shown.has_items (k0, v)) eqn:Ev; cbn [Dict.remove];
    destruct (String.eqb k0 k); cbn [List.filter]; rewrite ?Ev, IH; reflexivity.
Qed.

Lemma blocks_without_empty (subseq_tag : string)
  (d : list (string * list ItemMap)) :
  flat_map (fun kv => _append_section_block subseq_tag (fst kv) (snd kv))
    (List.filter Shown.has_items d)
  = flat_map (fun kv => _append_section_block subseq_tag (fst kv) (snd kv)) d.
Proof.
  induction d as [|[k0 v] d IH]; [reflexivity|].
  cbn [List.filter]. destruct v as [|x v]; cbn [Shown.has_items snd].
  - cbn [flat_map fst snd _append_section_block app]. exact IH.
  - cbn [flat_map]. now rewrite IH.
Qed.

(** X13. A section without items leaves no trace in the rendered entry:
    for a mapping whose section keys are distinct, as those of a
    [dict] are, the output is the one of the mapping without its empty
    sections. *)
Theorem empty_sections_not_rendered (m : EntryMap) (heading_level : Z) :
  NoDup (map fst (sections m)) ->
  render_mapping m heading_level
  = render_mapping (Shown.without_empty_sections m) heading_level.
Proof.
  intros Hnd. unfold render_mapping, render_parts, heading_text.
  cbn [Shown.without_empty_sections headword pos_blocks sections].
  now rewrite (get_without_empty _ _ Hnd), remove_without_empty,
    blocks_without_empty.
Qed.

Lemma render_sense_unmarked (s : Sense.t) :
  Sense.marker s = None ->
  render_sense (MkSense (Sense.text s) (of_option (Sense.marker s))
                  (of_option (Sense.html s)))
  = Shown.marked_line "None"
      (_html_or_text (of_option (Sense.html s)) (Sense.text s)).
Proof. intros H. rewrite H. reflexivity. Qed.

(** X14. A sense that carries no number is rendered with the marker
    [None]: the mapping made from a parsed entry holds the key [marker]
    with the value [None], which [str] turns into a text that is not
    empty.  The line of every such sense of a parsed entry is among the
    lines of the output. *)
Theorem unnumbered_sense_shows_none (e : ParsedEntry.t)
  (b : PartOfSpeechBlock.t) (s : Sense.t) (heading_level : Z) :
  In b (ParsedEntry.pos_blocks e) ->
  In s (PartOfSpeechBlock.senses b) ->
  Sense.marker s = None ->
  In (Shown.marked_line "None"
        (_html_or_text (of_option (Sense.html s)) (Sense.text s)))
     (render_parts (_entry_mapping e) heading_level).
Proof.
  intros Hb Hs Hm. unfold render_parts.
  apply in_or_app. right. apply in_or_app. right. apply in_or_app. left.
  apply in_flat_map.
  set (to_sense := fun s : Sense.t =>
                     MkSense (Sense.text s) (of_option (Sense.marker s))
                       (of_option (Sense.html s))).
  set (to_block := fun b : PartOfSpeechBlock.t =>
                     MkBlock (Str (PartOfSpeechBlock.label b))
                       (Str (PartOfSpeechBlock.html b))
                       (map to_sense (PartOfSpeechBlock.senses b))).
  exists (to_block b). split.
  - cbn [_entry_mapping pos_blocks]. exact (in_map to_block _ _ Hb).
  - unfold render_block. cbn [to_block block_senses].
    apply in_or_app. right. apply in_or_app. right. apply in_or_app. left.
    pose proof (in_map to_sense _ _ Hs) as Hin.
    destruct (map to_sense (PartOfSpeechBlock.senses b)) as [|x xs] eqn:Em;
      [destruct Hin|].
    apply in_or_app. right. apply in_or_app. left.
    rewrite <- (render_sense_unmarked s Hm).
    exact (in_map render_sense _ _ Hin).
Qed.

Lemma empty_sections_not_rendered_witness :
  render_mapping
    (MkEntry (Str "run") [] [("origin", []); ("notes", [MkItem "x" PyNone PyNone])])
    2
  = render_mapping
      (Shown.without_empty_sections
         (MkEntry (Str "run") []
            [("origin", []); ("notes", [MkItem "x" PyNone PyNone])]))
      2.
Proof.
  apply empty_sections_not_rendered.
  apply (bool_decide_unpack _). vm_compute. exact I.
Defined.

Lemma unnumbered_sense_shows_none_witness :
  In (Shown.marked_line "None" "to move")
     (render_parts
        (_entry_mapping
           (ParsedEntry.Build "run"
              [PartOfSpeechBlock.Build "verb" EmptyString
                 [Sense.Build "to move" None None]] [] "raw"))
        2).
Proof.
  apply (unnumbered_sense_shows_none
           (ParsedEntry.Build "run"
              [PartOfSpeechBlock.Build "verb" EmptyString
                 [Sense.Build "to move" None None]] [] "raw")
           (PartOfSpeechBlock.Build "verb" EmptyString
              [Sense.Build "to move" None None])
           (Sense.Build "to move" None None) 2).
  - now left.
  - now left.
  - reflexivity.
Defined.

End RenderMore.

(** ** Ordered dictionaries *)

Module DictMore.
Import Shape.

Section WithValue.
Context {V : Type}.
Implicit Types (d : list (string * V)) (k : string).

Lemma get_some_in k d : Dict.get k d <> None <-> In k (keys d).
Proof.
  induction d as [|[k0 v] d IH]; cbn; [tauto|].
  destruct (String.eqb k0 k) eqn:E.
  - apply String.eqb_eq in E. split; [now left|discriminate].
  - apply String.eqb_neq in E. rewrite IH. split; [now right|].
    intros [H|H]; [done|exact H].
Qed.

Lemma get_none_out k d : Dict.get k d = None <-> ~ In k (keys d).
Proof.
  rewrite <- get_some_in. destruct (Dict.get k d) as [v|].
  - split; [discriminate|]. intros H. destruct H. discriminate.
  - split; [intros _ H; now apply H|reflexivity].
Qed.

Lemma keys_alter (f : V -> V) k d : keys (Dict.alter f k d) = keys d.
Proof.
  induction d as [|[k0 v] d IH]; [reflexivity|]. cbn.
  destruct (String.eqb k0 k); cbn; [reflexivity|]. f_equal. exact IH.
Qed.

Lemma keys_in_alter K (f : V -> V) k d :
  keys_in K d -> keys_in K (Dict.alter f k d).
Proof. unfold keys_in. now rewrite keys_alter. Qed.

Lemma setdefault_in k v d : In k (keys d) -> Dict.setdefault k v d = d.
Proof.
  intros H. apply get_some_in in H. unfold Dict.setdefault.
  now destruct (Dict.get k d).
Qed.

Lemma setdefault_out k v d :
  ~ In k (keys d) -> Dict.setdefault k v d = (d ++ [(k, v)])%list.
Proof.
  intros H. apply get_none_out in H. unfold Dict.setdefault. now rewrite H.
Qed.

Lemma keys_in_setdefault K k v d :
  In k K -> keys_in K d ->
  keys_in K (Dict.setdefault k v d) /\ In k (keys (Dict.setdefault k v d)).
Proof.
  intros Hk [Hnd HK]. destruct (in_dec string_dec k (keys d)) as [Hin|Hout].
  - rewrite (setdefault_in k v d Hin). repeat split; auto.
  - rewrite (setdefault_out k v d Hout). unfold keys_in, keys in *.
    rewrite map_app. cbn [map fst]. repeat split.
    + apply NoDup_app. split; [exact Hnd|]. split; [|apply NoDup_singleton].
      intros x Hx Hx'. apply list_elem_of_singleton in Hx'. subst x.
      apply Hout. now apply list_elem_of_In.
    + intros x Hx. apply in_app_or in Hx as [Hx|[<-|[]]]; auto.
    + apply in_or_app. right. now left.
Qed.

Lemma alter_app_out (f : V -> V) k v d :
  ~ In k (keys d) ->
  Dict.alter f k (d ++ [(k, v)])%list = (d ++ [(k, f v)])%list.
Proof.
  induction d as [|[k0 v0] d IH]; cbn; intros H.
  - now rewrite String.eqb_refl.
  - destruct (String.eqb k0 k) eqn:E.
    + apply String.eqb_eq in E. destruct H. now left.
    + f_equal. apply IH. intros Hin. apply H. now right.
Qed.

Lemma in_alter (f : V -> V) k d kv :
  In kv (Dict.alter f k d) -> In kv d \/ exists v, kv = (k, f v).
Proof.
  induction d as [|[k0 v0] d IH]; cbn; [tauto|].
  destruct (String.eqb k0 k) eqn:E.
  - apply String.eqb_eq in E. subst k0. intros [<-|H]; [right; eauto|left; now right].
  - intros [<-|H]; [left; now left|]. destruct (IH H) as [H'|H']; [left; now right|now right].
Qed.

End WithValue.

Lemma keys_in_setdefault_append {A : Type} K k (x : A) (d : list (string * list A)) :
  In k K -> keys_in K d ->
  keys_in K (Dict.setdefault_append k x d).
Proof.
  intros Hk Hd. unfold Dict.setdefault_append. apply keys_in_alter.
  now apply keys_in_setdefault.
Qed.

Lemma filled_setdefault_append {A : Type} k (x : A) (d : list (string * list A)) :
  filled d -> filled (Dict.setdefault_append k x d).
Proof.
  intros Hd kv Hin. unfold Dict.setdefault_append in Hin.
  destruct (in_dec string_dec k (keys d)) as [Hk|Hk].
  - rewrite (setdefault_in k [] d Hk) in Hin.
    apply in_alter in Hin as [Hin|[v ->]]; [now apply Hd|].
    cbn. now destruct v.
  - rewrite (setdefault_out k [] d Hk), (alter_app_out _ k [] d Hk) in Hin.
    apply in_app_or in Hin as [Hin|[<-|[]]]; [now apply Hd|done].
Qed.

End DictMore.

(** ** What the parsers keep true *)

Module ShapeFacts.
Import Shape DictMore.

Section WithParser.
Variable BeautifulSoup : string -> node.

Lemma match_header_name (block : node) (s : string) :
  Concise._match_section_header block = Some s ->
  In s Parse.SECTION_HEADER_NAMES.
Proof.
  unfold Concise._match_section_header. intros H.
  apply find_some in H. tauto.
Qed.

Lemma header_not_senses (s : string) :
  In s Parse.SECTION_HEADER_NAMES -> s <> "senses".
Proof.
  cbn. intros H. repeat (destruct H as [<-|H]; [discriminate|]). destruct H.
Qed.

Lemma header_key (s : string) :
  In s Parse.SECTION_HEADER_NAMES -> In s CONCISE_KEYS.
Proof. intros H. apply in_or_app. now left. Qed.

Lemma concise_start_inv (hw raw : string) : concise_inv hw raw (concise_start hw raw).
Proof.
  split; [done|]. split; [split; [constructor|intros k []]|].
  split; [now left|discriminate].
Qed.

Lemma concise_step_inv (hw raw : string) (st : Concise.loop_state) (block : node) :
  concise_inv hw raw st ->
  concise_inv hw raw (Concise.step BeautifulSoup st block).
Proof.
  intros (He & Hk & Hc & Hb). unfold Concise.step.
  destruct (Py.is_empty (Parse._tag_to_text block)); [done|].
  destruct (Concise._match_section_header block) as [section|] eqn:Em.
  { pose proof (match_header_name _ _ Em) as Hs.
    destruct (keys_in_setdefault CONCISE_KEYS section []
                (ParsedEntry.sections (Concise.entry st)) (header_key _ Hs) Hk)
      as [Hk' Hin].
    split; [exact He|]. split; [exact Hk'|].
    split; [right; split; assumption|exact Hb]. }
  destruct (String.eqb (Concise.current_section st) "senses"
            && Concise._looks_like_pos_header block) eqn:Ep.
  { split; [exact He|]. split; [exact Hk|]. split; [now left|].
    intros idx [= <-]. cbn.
    destruct (Concise._build_inline_sense BeautifulSoup block);
      rewrite ?length_alter, List.length_app; cbn; lia. }
  destruct (negb (String.eqb (Concise.current_section st) "senses")) eqn:En.
  { split; [exact He|]. split; [apply keys_in_alter; exact Hk|]. split; [|exact Hb].
    destruct Hc as [Hc|[Hc1 Hc2]]; [rewrite Hc in En; discriminate|].
    right. split; [exact Hc1|].
    cbn [Concise.entry Concise.current_section Concise.with_sections
           ParsedEntry.sections].
    rewrite keys_alter. exact Hc2. }
  destruct (Concise._build_sense block) as [sense|].
  - destruct (Concise.current_block st) as [idx|] eqn:Eb.
    + split; [exact He|]. split; [exact Hk|]. split; [exact Hc|].
      intros i [= <-]. cbn. rewrite length_alter. now apply Hb.
    + split; [exact He|]. split; [exact Hk|]. split; [exact Hc|].
      intros i [= <-]. cbn. rewrite length_alter, List.length_app. cbn. lia.
  - split; [exact He|]. split.
    + apply keys_in_setdefault_append; [|exact Hk].
      apply in_or_app. right. now left.
    + split; [|exact Hb]. left.
      apply negb_false_iff, String.eqb_eq in En. exact En.
Qed.

Lemma concise_loop_inv (hw raw : string) (blocks : list node)
  (st : Concise.loop_state) :
  concise_inv hw raw st ->
  concise_inv hw raw (fold_left (Concise.step BeautifulSoup) blocks st).
Proof.
  revert st. induction blocks as [|b blocks IH]; intros st H; [exact H|].
  cbn [fold_left]. apply IH, concise_step_inv, H.
Qed.

Lemma concise_after_inv (hw raw : string) (blocks : list node) :
  concise_inv hw raw (concise_after BeautifulSoup hw raw blocks).
Proof. apply concise_loop_inv, concise_start_inv. Qed.

(** While a section is open the blocks of the entry do not change. *)
Lemma concise_step_frozen (st : Concise.loop_state) (block : node) :
  Concise.current_section st <> "senses" ->
  Concise.current_section (Concise.step BeautifulSoup st block) <> "senses"
  /\ ParsedEntry.pos_blocks (Concise.entry (Concise.step BeautifulSoup st block))
     = ParsedEntry.pos_blocks (Concise.entry st).
Proof.
  intros Hc. unfold Concise.step.
  destruct (Py.is_empty (Parse._tag_to_text block)); [done|].
  destruct (Concise._match_section_header block) as [section|] eqn:Em.
  { split; [|reflexivity]. cbn. apply header_not_senses.
    exact (match_header_name _ _ Em). }
  pose proof Hc as Hc'. apply String.eqb_neq in Hc'. rewrite Hc'.
  cbn [andb negb]. split; [exact Hc|reflexivity].
Qed.

Lemma concise_loop_frozen (blocks : list node) (st : Concise.loop_state) :
  Concise.current_section st <> "senses" ->
  ParsedEntry.pos_blocks
    (Concise.entry (fold_left (Concise.step BeautifulSoup) blocks st))
  = ParsedEntry.pos_blocks (Concise.entry st).
Proof.
  revert st. induction blocks as [|b blocks IH]; intros st H; [reflexivity|].
  cbn [fold_left]. destruct (concise_step_frozen st b H) as [H1 H2].
  now rewrite (IH _ H1).
Qed.

Lemma header_has_text (block : node) (s : string) :
  Concise._match_section_header block = Some s ->
  Py.is_empty (Parse._tag_to_text block) = false.
Proof.
  unfold Concise._match_section_header.
  destruct (Parse._tag_to_text block); [discriminate|reflexivity].
Qed.

(** *** The OALD parser *)

Lemma section_key (s : string) : In s OALD_SECTIONS -> In s OALD_KEYS.
Proof. intros H. right. apply in_or_app. now left. Qed.

Lemma notes_key : In "notes" OALD_KEYS.
Proof. right. apply in_or_app. right. now left. Qed.

Lemma append_section_inv (hw raw : string) (e : ParsedEntry.t) (key : string)
  (child : node) :
  In key OALD_KEYS -> oald_entry_inv hw raw e ->
  oald_entry_inv hw raw (Oald._append_section e key child).
Proof.
  intros Hkey (He & Hk & Hf). unfold Oald._append_section.
  destruct (Py.is_empty (Oald._tag_html child)); [done|].
  split; [exact He|]. split.
  - now apply keys_in_setdefault_append.
  - now apply filled_setdefault_append.
Qed.

Lemma flush_inv (hw raw : string) (e : ParsedEntry.t) (frags : list string) :
  oald_entry_inv hw raw e ->
  oald_entry_inv hw raw (fst (Oald._flush_headnote BeautifulSoup e frags)).
Proof.
  intros (He & Hk & Hf). unfold Oald._flush_headnote.
  destruct frags as [|f frags]; [done|].
  destruct (Py.is_empty _); [done|].
  split; [exact He|]. split.
  - apply keys_in_setdefault_append; [now left|exact Hk].
  - now apply filled_setdefault_append.
Qed.

Lemma leave_headnote_inv (hw raw : string) (st : Oald.loop_state) :
  oald_inv hw raw st -> oald_inv hw raw (Oald.leave_headnote BeautifulSoup st).
Proof.
  intros (He & Hp & Ha). unfold Oald.leave_headnote.
  destruct (Oald.before_first_sense st); [|done].
  pose proof (flush_inv hw raw _ (Oald.headnote_fragments st) He) as H.
  destruct (Oald._flush_headnote BeautifulSoup (Oald.entry st)
              (Oald.headnote_fragments st)) as [e frags].
  split; [exact H|]. split; [exact Hp|exact Ha].
Qed.

Lemma with_pos_blocks_inv (hw raw : string) (e : ParsedEntry.t)
  (bs : list PartOfSpeechBlock.t) :
  oald_entry_inv hw raw e -> oald_entry_inv hw raw (Oald.with_pos_blocks bs e).
Proof. intros (He & Hk & Hf). split; [exact He|]. split; [exact Hk|exact Hf]. Qed.

Lemma step_blockquote_inv (hw raw : string) (st st' : Oald.loop_state)
  (child : node) :
  oald_inv hw raw st ->
  Oald.step_blockquote BeautifulSoup st child = Ret st' ->
  oald_inv hw raw st'.
Proof.
  intros Hst. apply leave_headnote_inv in Hst. unfold Oald.step_blockquote.
  set (s := Oald.leave_headnote BeautifulSoup st) in *. clearbody s.
  destruct Hst as (He & Hp & Ha). cbv zeta.
  destruct (Oald._detect_section (Py.lower (Oald._tag_text child)))
    as [[kw key]|] eqn:Ed.
  { assert (Hkey : In key OALD_SECTIONS).
    { apply find_some in Ed as [Hin _]. exact (in_map snd _ _ Hin). }
    destruct (Oald._looks_like_section_label _ kw); intros [= <-].
    - split; [exact He|]. split; intros x [= <-]; exact Hkey.
    - split; [apply append_section_inv; [now apply section_key|exact He]|].
      split; [intros x [=]|intros x [= <-]; exact Hkey]. }
  destruct (Oald.pending_section s) as [pending|] eqn:Epend.
  { intros [= <-].
    split; [apply append_section_inv; [apply section_key, Hp; reflexivity|exact He]|].
    split; [intros x [=]|exact Ha]. }
  assert (Hnotes : forall e, oald_entry_inv hw raw e ->
            oald_inv hw raw (Oald.set_entry e s)).
  { intros e H. split; [exact H|]. split; [cbn; now rewrite Epend|exact Ha]. }
  assert (Hsense :
    forall r,
      (if Oald._looks_like_sense child
       then
         let '(blocks, idx) :=
           match Oald.current_block s with
           | Some idx => (ParsedEntry.pos_blocks (Oald.entry s), idx)
           | None =>
               ((ParsedEntry.pos_blocks (Oald.entry s)
                   ++ [PartOfSpeechBlock.Build "entry" EmptyString []])%list,
                List.length (ParsedEntry.pos_blocks (Oald.entry s)))
           end in
         match Oald._build_sense BeautifulSoup child with
         | Ret sense =>
             Ret (Oald.LoopState
                    (Oald.with_pos_blocks
                       (alter (Oald.alter_senses (fun l => l ++ [sense])%list)
                              idx blocks) (Oald.entry s))
                    (Oald.headnote_fragments s) (Oald.before_first_sense s)
                    (Some idx)
                    (Some (idx,
                           List.length
                             (default [] (PartOfSpeechBlock.senses <$> blocks !! idx))))
                    None None)
         | Raise x => Raise x
         | OutOfFuel => OutOfFuel
         end
       else
         match Oald.last_sense s with
         | Some (bi, si) =>
             Ret (Oald.set_entry
                    (Oald.with_pos_blocks
                       (alter (Oald.alter_senses
                                 (alter (fun x => Oald._append_to_sense x child) si))
                              bi (ParsedEntry.pos_blocks (Oald.entry s)))
                       (Oald.entry s)) s)
         | None => Ret (Oald.set_entry
                          (Oald._append_section (Oald.entry s) "notes" child) s)
         end) = Ret r -> oald_inv hw raw r).
  { intros r. destruct (Oald._looks_like_sense child).
    - destruct (Oald.current_block s);
        destruct (Oald._build_sense BeautifulSoup child); try discriminate;
        intros [= <-];
        (split; [now apply with_pos_blocks_inv|split; intros x [=]]).
    - destruct (Oald.last_sense s) as [[bi si]|]; intros [= <-].
      + apply Hnotes. now apply with_pos_blocks_inv.
      + apply Hnotes. apply append_section_inv; [apply notes_key|exact He]. }
  destruct (Oald.active_section s) as [active|] eqn:Eact; [|apply Hsense].
  destruct (existsb (String.eqb active) Oald.SECTION_ALWAYS_COLLECT
            || negb (Oald._looks_like_sense child)); [|apply Hsense].
  intros [= <-]. apply Hnotes.
  apply append_section_inv; [apply section_key, Ha; reflexivity|exact He].
Qed.

Lemma step_inv (hw raw : string) (st st' : Oald.loop_state) (child : node) :
  oald_inv hw raw st ->
  Oald.step BeautifulSoup st child = Ret st' ->
  oald_inv hw raw st'.
Proof.
  intros Hst. unfold Oald.step. destruct child as [u s|u nm at_ cs].
  - destruct (_ && _); intros [= <-]; [|exact Hst].
    destruct Hst as (He & Hp & Ha). split; [exact He|]. split; [exact Hp|exact Ha].
  - destruct (String.eqb nm "k"); [intros [= <-]; exact Hst|].
    destruct (String.eqb nm "c" && _).
    { intros [= <-]. apply leave_headnote_inv in Hst.
      destruct Hst as (He & Hp & Ha).
      split; [now apply with_pos_blocks_inv|]. split; [exact Hp|intros x [=]]. }
    destruct (String.eqb nm "blockquote"); [now apply step_blockquote_inv|].
    destruct Hst as (He & Hp & Ha).
    destruct (Oald.before_first_sense st); intros [= <-].
    + split; [exact He|]. split; [exact Hp|exact Ha].
    + split; [apply append_section_inv; [apply notes_key|exact He]|].
      split; [exact Hp|intros x [=]].
Qed.

Lemma run_loop_inv (hw raw : string) (children : list node) :
  forall st st', oald_inv hw raw st ->
    Oald.run_loop BeautifulSoup children st = Ret st' -> oald_inv hw raw st'.
Proof.
  induction children as [|c cs IH]; intros st st' Hst; cbn [Oald.run_loop].
  - intros [= <-]. exact Hst.
  - destruct (Oald.step BeautifulSoup st c) as [s1|x|] eqn:Es; try discriminate.
    apply IH. eapply step_inv; eauto.
Qed.

Lemma finish_inv (hw raw : string) (st : Oald.loop_state) :
  oald_inv hw raw st -> oald_entry_inv hw raw (Oald.finish BeautifulSoup st).
Proof.
  intros (He & _). unfold Oald.finish.
  pose proof (flush_inv hw raw _ (Oald.headnote_fragments st) He) as H.
  destruct (Oald._flush_headnote BeautifulSoup (Oald.entry st)
              (Oald.headnote_fragments st)) as [e frags].
  now apply with_pos_blocks_inv.
Qed.

Lemma init_inv (hw raw : string) : oald_inv hw raw (Oald.init_state hw raw).
Proof.
  split; [|split; intros x [=]].
  split; [done|]. split; [split; [constructor|intros k []]|intros kv []].
Qed.

(** What a turn of the loop can raise. *)
Lemma step_raises (st : Oald.loop_state) (child : node) :
  Oald.step BeautifulSoup st child <> OutOfFuel
  /\ forall x, Oald.step BeautifulSoup st child = Raise x -> x = AttributeError.
Proof.
  unfold Oald.step. destruct child as [u s|u nm at_ cs].
  { destruct (_ && _); split; try discriminate. }
  destruct (String.eqb nm "k"); [split; discriminate|].
  destruct (String.eqb nm "c" && _); [split; discriminate|].
  destruct (String.eqb nm "blockquote");
    [|destruct (Oald.before_first_sense st); split; discriminate].
  unfold Oald.step_blockquote. cbv zeta.
  set (s := Oald.leave_headnote BeautifulSoup st). clearbody s.
  destruct (Oald._detect_section _) as [[kw key]|].
  { destruct (Oald._looks_like_section_label _ kw); split; discriminate. }
  destruct (Oald.pending_section s); [split; discriminate|].
  assert (Hb : Oald._build_sense BeautifulSoup (Tag u nm at_ cs) <> OutOfFuel
               /\ forall x, Oald._build_sense BeautifulSoup (Tag u nm at_ cs)
                            = Raise x -> x = AttributeError).
  { unfold Oald._build_sense. destruct (Soup.find _ _); split; try discriminate.
    now intros x [= <-]. }
  destruct Hb as [Hb1 Hb2].
  destruct (Oald.active_section s) as [active|];
    [destruct (existsb _ _ || negb _); [split; discriminate|]|];
    (destruct (Oald._looks_like_sense (Tag u nm at_ cs));
     [destruct (Oald.current_block s);
      destruct (Oald._build_sense BeautifulSoup (Tag u nm at_ cs)) as [sense|y|];
      (split; [try discriminate; now destruct Hb1
              |try discriminate; intros x [= <-]; now apply Hb2])
     |destruct (Oald.last_sense s) as [[bi si]|]; split; discriminate]).
Qed.

Lemma run_loop_raises (children : list node) :
  forall st,
    Oald.run_loop BeautifulSoup children st <> OutOfFuel
    /\ forall x, Oald.run_loop BeautifulSoup children st = Raise x ->
         x = AttributeError.
Proof.
  induction children as [|c cs IH]; intros st; cbn [Oald.run_loop].
  - split; discriminate.
  - destruct (step_raises st c) as [H1 H2].
    destruct (Oald.step BeautifulSoup st c) as [s1|y|]; [apply IH| |done].
    split; [discriminate|]. intros x [= <-]. now apply H2.
Qed.

End WithParser.
End ShapeFacts.

(** ** The entries that the parsers return *)

Module ParserFacts.
Import Shape DictMore ShapeFacts.

Lemma concise_parse_cases (BeautifulSoup : string -> node)
  (w raw : string) (e : ParsedEntry.t) :
  Concise._parse_html BeautifulSoup w raw = Ret e ->
  exists root,
    Soup.find (Soup.has_name "entry")
      (BeautifulSoup ("<entry>" ++ raw ++ "</entry>")%string) = Some root
    /\ e = Concise.entry
             (concise_after BeautifulSoup (Headnote.headword_of root w) raw
                (Soup.find_all_children "blockquote" root)).
Proof.
  unfold Concise._parse_html.
  destruct (Soup.find _ _) as [root|]; [|discriminate].
  intros [= <-]. eauto.
Qed.

Lemma oald_parse_cases (BeautifulSoup : string -> node)
  (w raw : string) (e : ParsedEntry.t) :
  Oald._parse_entry BeautifulSoup w raw = Ret e ->
  exists root st,
    Soup.find (Soup.has_name "entry")
      (BeautifulSoup ("<entry>" ++ raw ++ "</entry>")%string) = Some root
    /\ Oald.run_loop BeautifulSoup (Soup.contents_of root)
         (Oald.init_state (Headnote.headword_of root w) raw) = Ret st
    /\ e = Oald.finish BeautifulSoup st.
Proof.
  unfold Oald._parse_entry.
  destruct (Soup.find _ _) as [root|]; [|discriminate].
  fold (Headnote.headword_of root w).
  destruct (Oald.run_loop _ _ _) as [st|x|] eqn:Er; try discriminate.
  intros [= <-]. eauto.
Qed.

(** What both parsers guarantee of the entry they return. *)
Lemma parsed_entry_inv (BeautifulSoup : string -> node)
  (w raw : string) (e : ParsedEntry.t) :
  Concise._parse_html BeautifulSoup w raw = Ret e
  \/ Oald._parse_entry BeautifulSoup w raw = Ret e ->
  exists root K,
    Soup.find (Soup.has_name "entry")
      (BeautifulSoup ("<entry>" ++ raw ++ "</entry>")%string) = Some root
    /\ entry_of (Headnote.headword_of root w) raw e
    /\ keys_in K (ParsedEntry.sections e)
    /\ (K = CONCISE_KEYS \/ K = OALD_KEYS).
Proof.
  intros [H|H].
  - apply concise_parse_cases in H as (root & Hroot & ->).
    destruct (concise_after_inv BeautifulSoup (Headnote.headword_of root w) raw
                (Soup.find_all_children "blockquote" root)) as (He & Hk & _).
    exists root, CONCISE_KEYS. auto.
  - apply oald_parse_cases in H as (root & st & Hroot & Hrun & ->).
    destruct (finish_inv BeautifulSoup (Headnote.headword_of root w) raw st)
      as (He & Hk & _).
    { eapply run_loop_inv; [apply init_inv|exact Hrun]. }
    exists root, OALD_KEYS. auto.
Qed.

(** X15. The entry that either parser returns carries the markup it was
    parsed from, unchanged, and its headword is the text of the first
    [k] element of the markup, or the word that was looked up when the
    markup has none. *)
Theorem parsers_keep_word_and_markup (BeautifulSoup : string -> node)
  (w raw : string) (e : ParsedEntry.t) :
  Concise._parse_html BeautifulSoup w raw = Ret e
  \/ Oald._parse_entry BeautifulSoup w raw = Ret e ->
  ParsedEntry.raw_html e = raw
  /\ exists root,
       Soup.find (Soup.has_name "entry")
         (BeautifulSoup ("<entry>" ++ raw ++ "</entry>")%string) = Some root
       /\ ParsedEntry.headword e
          = match Soup.find (Soup.has_name "k") root with
            | Some headword_tag => Soup.get_text EmptyString headword_tag
            | None => w
            end.
Proof.
  intros H. apply parsed_entry_inv in H as (root & K & Hroot & [Hh Hr] & _).
  split; [exact Hr|]. exists root. split; [exact Hroot|exact Hh].
Qed.

(** X16. The sections of the entry that either parser returns have
    distinct keys, and every key has a display name in the table of the
    renderer: the title-casing fallback of [_get_display_name] is never
    used for a parsed entry. *)
Theorem section_keys_have_names (BeautifulSoup : string -> node)
  (w raw : string) (e : ParsedEntry.t) :
  Concise._parse_html BeautifulSoup w raw = Ret e
  \/ Oald._parse_entry BeautifulSoup w raw = Ret e ->
  NoDup (map fst (ParsedEntry.sections e))
  /\ forall k, In k (map fst (ParsedEntry.sections e)) ->
       exists name,
         Soup.assoc_get k Parse.SECTION_DISPLAY_NAMES = Some name
         /\ Render._get_display_name k = name.
Proof.
  intros H. apply parsed_entry_inv in H as (root & K & _ & _ & [Hnd HK] & HKK).
  split; [exact Hnd|]. intros k Hk. apply HK in Hk.
  destruct HKK as [-> | ->]; cbn in Hk;
    repeat (destruct Hk as [<-|Hk]; [eexists; split; reflexivity|]);
    destruct Hk.
Qed.

(** X17. In the loop of [ConciseOxfordParser._parse_html] the section
    that [current_section] names, when it is not [senses], is a key of
    [entry.sections], and the block that [current_block] refers to is
    one of [entry.pos_blocks]: the subscript [entry.sections[...]] never
    misses, after any number of turns on any blocks. *)
Theorem concise_lookups_never_miss (BeautifulSoup : string -> node)
  (w raw : string) (blocks : list node) :
  Concise._parse_html BeautifulSoup w raw
  = match Soup.find (Soup.has_name "entry")
            (BeautifulSoup ("<entry>" ++ raw ++ "</entry>")%string) with
    | None => Raise ValueError
    | Some root =>
        Ret (Concise.entry
               (concise_after BeautifulSoup (Headnote.headword_of root w) raw
                  (Soup.find_all_children "blockquote" root)))
    end
  /\ (Concise.current_section (concise_after BeautifulSoup w raw blocks)
      = "senses"
      \/ Dict.get (Concise.current_section (concise_after BeautifulSoup w raw blocks))
           (ParsedEntry.sections
              (Concise.entry (concise_after BeautifulSoup w raw blocks)))
         <> None)
  /\ match Concise.current_block (concise_after BeautifulSoup w raw blocks) with
     | Some idx =>
         is_Some (ParsedEntry.pos_blocks
                    (Concise.entry (concise_after BeautifulSoup w raw blocks))
                  !! idx)
     | None => True
     end.
Proof.
  split; [reflexivity|].
  destruct (concise_after_inv BeautifulSoup w raw blocks) as (_ & _ & Hc & Hb).
  split.
  - destruct Hc as [Hc|[_ Hc]]; [now left|right]. now apply get_some_in.
  - destruct (Concise.current_block _) as [idx|]; [|exact I].
    apply lookup_lt_is_Some. now apply Hb.
Qed.

(** X18. In a Concise entry a section header closes the senses: once a
    block is a header ([Phrases], [Derivatives], [Origin], [Usage],
    [Grammar]), no later block adds a part-of-speech block or a sense,
    whatever it looks like. *)
Theorem concise_header_closes_senses (BeautifulSoup : string -> node)
  (w raw section : string) (pre post : list node) (header : node) :
  Concise._match_section_header header = Some section ->
  ParsedEntry.pos_blocks
    (Concise.entry (concise_after BeautifulSoup w raw (pre ++ header :: post)))
  = ParsedEntry.pos_blocks (Concise.entry (concise_after BeautifulSoup w raw pre)).
Proof.
  intros Hm. unfold concise_after. rewrite fold_left_app. cbn [fold_left].
  set (st := fold_left (Concise.step BeautifulSoup) pre (concise_start w raw)).
  assert (Hstep : Concise.current_section (Concise.step BeautifulSoup st header)
                  <> "senses"
                  /\ ParsedEntry.pos_blocks
                       (Concise.entry (Concise.step BeautifulSoup st header))
                     = ParsedEntry.pos_blocks (Concise.entry st)).
  { unfold Concise.step. rewrite (header_has_text _ _ Hm), Hm. cbn.
    split; [|reflexivity].
    apply header_not_senses.
    exact (match_header_name BeautifulSoup _ _ Hm). }
  destruct Hstep as [H1 H2].
  now rewrite (concise_loop_frozen BeautifulSoup post _ H1).
Qed.

(** X19. Every section of an entry returned by the OALD parser has at
    least one item: a section comes into being with its first item. *)
Theorem oald_sections_have_items (BeautifulSoup : string -> node)
  (w raw : string) (e : ParsedEntry.t) (kv : string * list SectionEntry.t) :
  Oald._parse_entry BeautifulSoup w raw = Ret e ->
  In kv (ParsedEntry.sections e) ->
  snd kv <> [].
Proof.
  intros H. apply oald_parse_cases in H as (root & st & Hroot & Hrun & ->).
  destruct (finish_inv BeautifulSoup (Headnote.headword_of root w) raw st)
    as (_ & _ & Hf).
  { eapply run_loop_inv; [apply init_inv|exact Hrun]. }
  apply Hf.
Qed.


Lemma parsers_keep_word_and_markup_witness :
  exists e,
    Oald._parse_entry HtmlParser.html_parser "abandon" Sample.oald_raw = Ret e
    /\ ParsedEntry.raw_html e = Sample.oald_raw.
Proof.
  eexists. split; [vm_compute; reflexivity|].
  eapply (proj1 (parsers_keep_word_and_markup HtmlParser.html_parser
                   "abandon" Sample.oald_raw _ _)).
  Unshelve. right. vm_compute. reflexivity.
Defined.

Lemma section_keys_have_names_witness :
  exists e,
    Oald._parse_entry HtmlParser.html_parser "abandon" Sample.oald_raw = Ret e
    /\ NoDup (map fst (ParsedEntry.sections e)).
Proof.
  eexists. split; [vm_compute; reflexivity|].
  eapply (proj1 (section_keys_have_names HtmlParser.html_parser
                   "abandon" Sample.oald_raw _ _)).
  Unshelve. right. vm_compute. reflexivity.
Defined.

Lemma concise_header_closes_senses_witness :
  ParsedEntry.pos_blocks
    (Concise.entry
       (concise_after HtmlParser.html_parser "w" "raw"
          ([] ++ Tag 1 "blockquote" [] [NavigableString 2 "Origin"]
              :: [Tag 3 "blockquote" [] [NavigableString 4 "a late sense"]])))
  = ParsedEntry.pos_blocks
      (Concise.entry (concise_after HtmlParser.html_parser "w" "raw" [])).
Proof.
  apply (concise_header_closes_senses HtmlParser.html_parser "w" "raw" "origin").
  vm_compute. reflexivity.
Defined.

Lemma oald_sections_have_items_witness :
  exists e kv,
    Oald._parse_entry HtmlParser.html_parser "abandon" Sample.oald_raw = Ret e
    /\ In kv (ParsedEntry.sections e)
    /\ snd kv <> [].
Proof.
  eexists. eexists.
  split; [vm_compute; reflexivity|]. split; [left; reflexivity|].
  eapply (oald_sections_have_items HtmlParser.html_parser
            "abandon" Sample.oald_raw _ _).
  - vm_compute. reflexivity.
  - left. reflexivity.
Defined.


End ParserFacts.

(** ** The StarDict fallback *)

Module EndictFacts.
Import Endict.

Lemma keep_first_spec (l : list string) :
  forall seen ordered,
    (forall x, x ∈ seen <-> In x ordered) ->
    NoDup ordered ->
    exists k,
      snd (fold_left keep_first l (seen, ordered)) = (ordered ++ k)%list
      /\ (forall x, x ∈ fst (fold_left keep_first l (seen, ordered))
                    <-> In x (ordered ++ k)%list)
      /\ NoDup (ordered ++ k)%list
      /\ k `sublist_of` l
      /\ (forall x, In x k -> x <> EmptyString)
      /\ (forall x, In x l -> x <> EmptyString -> In x (ordered ++ k)%list).
Proof.
  induction l as [|c l IH]; intros seen ordered Hseen Hnd.
  - exists []. cbn [fold_left fst snd]. rewrite app_nil_r.
    split; [reflexivity|]. split; [exact Hseen|]. split; [exact Hnd|].
    split; [constructor|]. split; intros x [].
  - cbn [fold_left]. unfold keep_first at 2 4. cbn [fst snd].
    destruct (negb (Py.is_empty c) && bool_decide (c ∉ seen)) eqn:E.
    + apply andb_prop in E as [Hc Hout].
      apply negb_true_iff, PyFacts.is_empty_false in Hc.
      apply bool_decide_eq_true in Hout.
      destruct (IH ({[c]} ∪ seen) (ordered ++ [c])%list)
        as (k & Hk & Hs & Hn & Hsub & Hne & Hall).
      { intros x. rewrite elem_of_union, elem_of_singleton, Hseen, in_app_iff.
        cbn. split; [intros [->|H]; auto|intros [H|[->|[]]]; auto]. }
      { apply NoDup_app. split; [exact Hnd|]. split; [|apply NoDup_singleton].
        intros x Hx Hx'. apply list_elem_of_singleton in Hx'. subst x.
        apply Hout, Hseen. now apply list_elem_of_In. }
      rewrite <- app_assoc in Hk, Hs, Hn, Hall. cbn [app] in Hk, Hs, Hn, Hall.
      exists (c :: k). split; [exact Hk|]. split; [exact Hs|].
      split; [exact Hn|]. split; [now apply sublist_skip|]. split.
      * intros x [<-|Hx]; [exact Hc|now apply Hne].
      * intros x [<-|Hx] Hx0; [apply in_or_app; right; now left|now apply Hall].
    + destruct (IH seen ordered Hseen Hnd)
        as (k & Hk & Hs & Hn & Hsub & Hne & Hall).
      exists k. split; [exact Hk|]. split; [exact Hs|].
      split; [exact Hn|]. split; [now apply sublist_cons|].
      split; [exact Hne|].
      intros x [<-|Hx] Hx0; [|now apply Hall].
      apply andb_false_iff in E as [E|E].
      * apply negb_false_iff, PyFacts.is_empty_true in E. done.
      * apply bool_decide_eq_false in E.
        apply in_or_app. left. apply Hseen.
        destruct (decide (c ∈ seen)) as [H|H]; [exact H|]. now destruct E.
Qed.


Lemma collect_in (dicts : list (gmap string string)) (key v : string) :
  In v (_collect_from_all dicts key)
  <-> exists d, In d dicts /\ default EmptyString (d !! key) = v
                /\ v <> EmptyString.
Proof.
  unfold _collect_from_all. rewrite in_flat_map. split.
  - intros (d & Hd & Hv). exists d. split; [exact Hd|].
    destruct (default EmptyString (d !! key)) as [|a t]; [destruct Hv|].
    destruct Hv as [<-|[]]. split; [reflexivity|discriminate].
  - intros (d & Hd & Hv & Hne). exists d. split; [exact Hd|].
    rewrite Hv. destruct v; [done|now left].
Qed.

(** X22. The fallback gives the empty string exactly when no loaded
    dictionary has a payload that is not empty for any of the candidate
    keys of the word; in particular when no dictionary is loaded. *)
Theorem get_def_empty_iff (nlp : string -> list string)
  (dicts : list (gmap string string)) (word : string) :
  get_def nlp dicts word = EmptyString
  <-> forall d c, In d dicts -> In c (_candidate_keys nlp word) ->
        default EmptyString (d !! c) = EmptyString.
Proof.
  unfold get_def.
  destruct dicts as [|d0 ds]; [split; [intros _ d c []|reflexivity]|].
  set (dicts := d0 :: ds).
  destruct (flat_map (_collect_from_all dicts) (_candidate_keys nlp word))
    as [|r rs] eqn:E.
  - split; [|reflexivity]. intros _ d c Hd Hc.
    destruct (default EmptyString (d !! c)) as [|a t] eqn:Ev; [reflexivity|].
    assert (Hin : In (String a t)
                    (flat_map (_collect_from_all dicts) (_candidate_keys nlp word))).
    { apply in_flat_map. exists c. split; [exact Hc|].
      apply collect_in. exists d. now repeat split. }
    rewrite E in Hin. destruct Hin.
  - split.
    + intros H. exfalso. cbn [map] in H.
      pose proof (CleanFacts.join_nonempty DIVIDER (block r) (map block rs)
                    eq_refl) as Hj.
      rewrite H in Hj. discriminate.
    + intros H. exfalso.
      assert (Hin : In r (flat_map (_collect_from_all dicts)
                            (_candidate_keys nlp word)))
        by (rewrite E; now left).
      apply in_flat_map in Hin as (c & Hc & Hr).
      apply collect_in in Hr as (d & Hd & Hv & Hne).
      rewrite (H d c Hd Hc) in Hv. now apply Hne.
Qed.

Lemma contains_cons (p : string) (a : ascii) (t : string) :
  Py.contains p (String a t) = false ->
  Py.startswith p (String a t) = false /\ Py.contains p t = false.
Proof. cbn [Py.contains]. apply orb_false_elim. Qed.

Lemma convert_plain (fuel : nat) :
  forall text, Py.contains "<k>" text = false -> convert_from fuel text = text.
Proof.
  induction fuel as [|fuel IH]; intros text H; [reflexivity|].
  destruct text as [|a t]; [reflexivity|].
  apply contains_cons in H as [H1 H2].
  cbn [convert_from]. rewrite H1. now rewrite (IH t H2).
Qed.

Lemma sanitize_plain (fuel : nat) :
  forall html, Py.contains STYLE_OPEN html = false ->
    sanitize_from fuel html = html.
Proof.
  induction fuel as [|fuel IH]; intros html H; [reflexivity|].
  destruct html as [|a t]; [reflexivity|].
  apply contains_cons in H as [H1 H2].
  cbn [sanitize_from]. rewrite H1. now rewrite (IH t H2).
Qed.

(** X23. A payload that holds no [k] element and no [style] attribute
    goes through the conversion and the style cleaning unchanged: its
    block in the output is the payload itself inside the wrapping
    [div]. *)
Theorem plain_payload_unchanged (raw : string) :
  Py.contains "<k>" raw = false ->
  Py.contains STYLE_OPEN raw = false ->
  _sanitize_styles (_convert_xml_to_html raw) = raw
  /\ block raw = (BLOCK_OPEN ++ raw ++ "</div>")%string.
Proof.
  intros Hk Hs.
  assert (H : _sanitize_styles (_convert_xml_to_html raw) = raw).
  { unfold _sanitize_styles, _convert_xml_to_html.
    rewrite (convert_plain _ raw Hk). now apply sanitize_plain. }
  split; [exact H|]. unfold block. now rewrite H.
Qed.

Lemma plain_payload_unchanged_witness :
  _sanitize_styles (_convert_xml_to_html "<b>run</b> to move fast")
  = "<b>run</b> to move fast"
  /\ block "<b>run</b> to move fast"
     = (BLOCK_OPEN ++ "<b>run</b> to move fast" ++ "</div>")%string.
Proof.
  apply plain_payload_unchanged; vm_compute; reflexivity.
Defined.

End EndictFacts.

(** ** The EPUB pipeline *)

Module EpubFacts.
Import Endict Epub.

Lemma app_assoc_s (x y z : string) : ((x ++ y) ++ z = x ++ (y ++ z))%string.
Proof.
  induction x as [|a x IH]; [reflexivity|].
  rewrite !PyMore.app_cons. now rewrite IH.
Qed.

Lemma all_in_app (P : ascii -> bool) (x y : string) :
  Py.all_in P (x ++ y) = Py.all_in P x && Py.all_in P y.
Proof.
  induction x as [|a x IH]; [reflexivity|].
  rewrite PyMore.app_cons. cbn [Py.all_in]. now rewrite IH, andb_assoc.
Qed.

Lemma all_in_ext (P Q : ascii -> bool) (s : string) :
  (forall b, P b = Q b) -> Py.all_in P s = Py.all_in Q s.
Proof.
  intros H. induction s as [|b t IH]; [reflexivity|].
  cbn [Py.all_in]. now rewrite H, IH.
Qed.

Lemma all_in_true (s : string) : Py.all_in (fun _ => true) s = true.
Proof. induction s as [|b t IH]; [reflexivity|exact IH]. Qed.

Lemma replace_char_app (a : ascii) (by_ x y : string) :
  Soup.replace_char a by_ (x ++ y)
  = (Soup.replace_char a by_ x ++ Soup.replace_char a by_ y)%string.
Proof.
  induction x as [|b x IH]; [reflexivity|].
  rewrite PyMore.app_cons. cbn [Soup.replace_char].
  now rewrite IH, app_assoc_s.
Qed.

Lemma replace_all_in (P Q : ascii -> bool) (a : ascii) (by_ s : string) :
  Py.all_in P by_ = true ->
  (forall b, Ascii.eqb a b = false -> Q b = true -> P b = true) ->
  Py.all_in Q s = true ->
  Py.all_in P (Soup.replace_char a by_ s) = true.
Proof.
  intros Hby HPQ. induction s as [|b s IH]; [reflexivity|].
  cbn [Py.all_in Soup.replace_char]. intros H. apply andb_prop in H as [Hb Hs].
  rewrite all_in_app, (IH Hs), andb_true_r.
  destruct (Ascii.eqb a b) eqn:E; [exact Hby|].
  cbn [Py.all_in]. now rewrite (HPQ b E Hb).
Qed.

Lemma split_on_not_nil (sep : ascii) (s : string) : split_on sep s <> [].
Proof.
  destruct s as [|a t]; [discriminate|]. cbn [split_on].
  destruct (Ascii.eqb a sep); [discriminate|].
  destruct (split_on sep t); discriminate.
Qed.

Lemma split_on_app (sep : ascii) (x y : string) :
  split_on sep (x ++ String sep y) = (split_on sep x ++ split_on sep y)%list.
Proof.
  induction x as [|a x IH].
  - rewrite PyMore.app_nil. cbn [split_on]. now rewrite Ascii.eqb_refl.
  - rewrite PyMore.app_cons. cbn [split_on]. rewrite IH.
    destruct (Ascii.eqb a sep); [reflexivity|].
    pose proof (split_on_not_nil sep x) as Hx.
    destruct (split_on sep x) as [|r rest]; [done|]. reflexivity.
Qed.

Lemma split_on_free (sep : ascii) (x : string) :
  Py.all_in (fun b => negb (Ascii.eqb b sep)) x = true ->
  split_on sep x = [x].
Proof.
  induction x as [|a x IH]; [reflexivity|]. cbn [Py.all_in split_on].
  intros H. apply andb_prop in H as [Ha Hx]. apply negb_true_iff in Ha.
  now rewrite Ha, (IH Hx).
Qed.

Lemma split_all_in (P : ascii -> bool) (sep : ascii) (s : string) :
  Py.all_in P s = true ->
  forall x, In x (split_on sep s) -> Py.all_in P x = true.
Proof.
  induction s as [|a s IH]; cbn [Py.all_in split_on].
  - intros _ x [<-|[]]. reflexivity.
  - intros H. apply andb_prop in H as [Ha Hs]. specialize (IH Hs).
    destruct (Ascii.eqb a sep).
    + intros x [<-|Hx]; [reflexivity|now apply IH].
    + destruct (split_on sep s) as [|r rest].
      * intros x [<-|[]]. cbn. now rewrite Ha.
      * intros x [<-|Hx].
        -- cbn [Py.all_in]. rewrite Ha. apply IH. now left.
        -- apply IH. now right.
Qed.

Lemma split_free (sep : ascii) (s : string) :
  forall x, In x (split_on sep s) ->
    Py.all_in (fun b => negb (Ascii.eqb b sep)) x = true.
Proof.
  induction s as [|a s IH]; cbn [split_on].
  - intros x [<-|[]]. reflexivity.
  - destruct (Ascii.eqb a sep) eqn:E.
    + intros x [<-|Hx]; [reflexivity|now apply IH].
    + destruct (split_on sep s) as [|r rest].
      * intros x [<-|[]]. cbn. now rewrite E.
      * intros x [<-|Hx].
        -- cbn [Py.all_in]. rewrite E. apply IH. now left.
        -- apply IH. now right.
Qed.

Lemma last_in {A : Type} (l : list A) (d : A) : l <> [] -> In (List.last l d) l.
Proof.
  induction l as [|x l IH]; [done|]. intros _.
  destruct l as [|y l]; [now left|]. right. apply IH. discriminate.
Qed.

Lemma last_app_r {A : Type} (l k : list A) (d : A) :
  k <> [] -> List.last (l ++ k) d = List.last k d.
Proof.
  intros Hk. induction l as [|x l IH]; [reflexivity|].
  cbn [app]. destruct (l ++ k)%list as [|y r] eqn:E.
  - destruct l; [cbn in E; done|discriminate].
  - exact IH.
Qed.

Lemma normalize_name_under (dir name : string) (sep : ascii) :
  Soup.replace_char BACKSLASH "/" (String sep EmptyString) = "/" ->
  normalize_name (dir ++ String sep name) = normalize_name name.
Proof.
  intros Hsep. unfold normalize_name.
  change (String sep name) with (String sep EmptyString ++ name)%string.
  rewrite !replace_char_app, Hsep.
  change ("/" ++ Soup.replace_char BACKSLASH "/" name)%string
    with (String "/" (Soup.replace_char BACKSLASH "/" name)).
  rewrite split_on_app. apply last_app_r, split_on_not_nil.
Qed.


Lemma count_step_other (d : gmap string Z) (m k : string) :
  k <> m -> count_step d m !! k = d !! k.
Proof.
  intros Hk. unfold count_step. destruct (d !! m) as [n|]; [|reflexivity].
  destruct (WORD_SEEN_MAX <=? n + 1)%Z.
  - rewrite lookup_delete_ne by done. now rewrite lookup_insert_ne.
  - now rewrite lookup_insert_ne.
Qed.

Lemma count_step_none (d : gmap string Z) (m k : string) :
  d !! k = None -> count_step d m !! k = None.
Proof.
  intros H. destruct (decide (k = m)) as [->|Hk].
  - unfold count_step. now rewrite H.
  - now rewrite count_step_other.
Qed.

Lemma count_step_nonneg (d : gmap string Z) (m : string) :
  (forall k n, d !! k = Some n -> (0 <= n)%Z) ->
  count_step d m !! m = None
  /\ forall k n, count_step d m !! k = Some n -> (0 <= n)%Z.
Proof.
  intros Hd.
  assert (Hm : count_step d m !! m = None).
  { unfold count_step. destruct (d !! m) as [n|] eqn:E; [|exact E].
    pose proof (Hd m n E) as Hn. unfold WORD_SEEN_MAX.
    destruct (1 <=? n + 1)%Z eqn:El; [apply lookup_delete_eq|].
    apply Z.leb_gt in El. lia. }
  split; [exact Hm|]. intros k n. destruct (decide (k = m)) as [->|Hk].
  - rewrite Hm. discriminate.
  - rewrite count_step_other by done. apply Hd.
Qed.

Lemma count_fold_none (matched : list string) :
  forall d k, d !! k = None -> fold_left count_step matched d !! k = None.
Proof.
  induction matched as [|m l IH]; intros d k H; [exact H|].
  cbn [fold_left]. apply IH. now apply count_step_none.
Qed.

(** X25. [count_matches_delete_frequent] leaves the words that were not
    matched as they are; and when no count is negative, as in the
    dictionary that [read_words_into_dictionary] builds, every matched
    word is removed: a word is looked for until the document in which
    it is first found. *)
Theorem count_matches_spec (d : gmap string Z) (matched_words : list string) :
  (forall k, ~ In k matched_words ->
     count_matches_delete_frequent d matched_words !! k = d !! k)
  /\ ((forall k n, d !! k = Some n -> (0 <= n)%Z) ->
      forall k, In k matched_words ->
        count_matches_delete_frequent d matched_words !! k = None).
Proof.
  unfold count_matches_delete_frequent. split.
  - revert d. induction matched_words as [|m l IH]; intros d k Hk; [reflexivity|].
    cbn [fold_left]. rewrite IH by (intros H; apply Hk; now right).
    apply count_step_other. intros ->. apply Hk. now left.
  - revert d. induction matched_words as [|m l IH]; intros d Hd k Hk; [destruct Hk|].
    cbn [fold_left]. destruct (count_step_nonneg d m Hd) as [Hm Hd'].
    destruct (decide (k = m)) as [->|Hne].
    + now apply count_fold_none.
    + apply IH; [exact Hd'|]. destruct Hk as [->|Hk]; [done|exact Hk].
Qed.

Lemma clean_plain (s : string) : Py.all_in plain_char (clean s) = true.
Proof.
  unfold clean.
  apply (replace_all_in _
           (fun b => negb (Ascii.eqb b TAB) && negb (Ascii.eqb b CR)));
    [reflexivity| |].
  { intros b E H. unfold plain_char. rewrite H. cbn.
    now rewrite Ascii.eqb_sym, E. }
  apply (replace_all_in _ (fun b => negb (Ascii.eqb b TAB))); [reflexivity| |].
  { intros b E H. rewrite H. cbn. now rewrite Ascii.eqb_sym, E. }
  apply (replace_all_in _ (fun _ => true)); [reflexivity| |].
  { intros b E _. now rewrite Ascii.eqb_sym, E. }
  apply all_in_true.
Qed.

Lemma plain_free (s : string) :
  Py.all_in plain_char s = true ->
  Py.all_in (fun b => negb (Ascii.eqb b TAB)) s = true
  /\ Py.all_in (fun b => negb (Ascii.eqb b LF)) s = true.
Proof.
  induction s as [|b t IH]; [done|]. cbn [Py.all_in]. unfold plain_char at 1.
  intros H. apply andb_prop in H as [Hb Ht].
  apply andb_prop in Hb as [Hb Hlf]. apply andb_prop in Hb as [Htab _].
  destruct (IH Ht) as [H1 H2]. now rewrite Htab, Hlf, H1, H2.
Qed.

Lemma split_join (lines : list string) :
  lines <> [] ->
  (forall x, In x lines -> Py.all_in (fun b => negb (Ascii.eqb b LF)) x = true) ->
  split_on LF (Py.join (String LF EmptyString) lines) = lines.
Proof.
  induction lines as [|x l IH]; [done|]. intros _ H.
  destruct l as [|y l].
  - cbn [Py.join]. apply split_on_free, H. now left.
  - rewrite PyFacts.join_cons2, PyMore.app_cons, PyMore.app_nil, split_on_app.
    rewrite IH; [|discriminate|intros z Hz; apply H; now right].
    rewrite split_on_free; [reflexivity|apply H; now left].
Qed.

Lemma anki_lines_spec (entries : list (string * string * string)) :
  flat_map anki_line entries
  = map (fun e => (clean (fst (fst e)) ++ String TAB EmptyString
                     ++ clean (full_html (snd (fst e)) (snd e)))%string)
      (List.filter has_definition entries).
Proof.
  induction entries as [|[[w h] c] l IH]; [reflexivity|].
  cbn [flat_map List.filter anki_line].
  change (has_definition (w, h, c)) with (negb (Py.is_empty h)).
  destruct (Py.is_empty h); cbn [negb app map fst snd]; now rewrite IH.
Qed.

Lemma cards_plain (l : list (string * string * string)) :
  Forall (Forall (fun x => Py.all_in plain_char x = true)) (map card l).
Proof.
  induction l as [|e l IH]; constructor; [|exact IH].
  repeat constructor; apply clean_plain.
Qed.

(** X26. The Anki file is a table that can be read back: no file is
    written exactly when no entry has a definition; otherwise splitting
    the text at the line feeds and each line at the tabulations gives,
    for each entry with a definition and in order, its two fields, the
    word and the markup, which hold no tabulation, carriage return or
    line feed. *)
Theorem anki_tsv_round_trip (all_entries : list (string * string * string)) :
  match write_anki_tsv all_entries with
  | None => List.filter has_definition all_entries = []
  | Some content =>
      map (split_on TAB) (split_on LF content)
      = map card (List.filter has_definition all_entries)
      /\ Forall (Forall (fun x => Py.all_in plain_char x = true))
           (map card (List.filter has_definition all_entries))
  end.
Proof.
  unfold write_anki_tsv. rewrite anki_lines_spec.
  assert (Hline : forall e : string * string * string,
            Py.all_in (fun b => negb (Ascii.eqb b LF))
              (clean (fst (fst e)) ++ String TAB EmptyString
                 ++ clean (full_html (snd (fst e)) (snd e))) = true
            /\ split_on TAB
                 (clean (fst (fst e)) ++ String TAB EmptyString
                    ++ clean (full_html (snd (fst e)) (snd e)))
               = card e).
  { intros e.
    destruct (plain_free _ (clean_plain (fst (fst e)))) as [Hw1 Hw2].
    destruct (plain_free _ (clean_plain (full_html (snd (fst e)) (snd e))))
      as [Hh1 Hh2].
    split.
    - rewrite !all_in_app, Hw2, Hh2. reflexivity.
    - rewrite PyMore.app_cons, PyMore.app_nil, split_on_app.
      now rewrite (split_on_free _ _ Hw1), (split_on_free _ _ Hh1). }
  destruct (List.filter has_definition all_entries) as [|e l] eqn:E;
    [reflexivity|].
  cbn [map]. split.
  - change (split_on LF (Py.join (String LF EmptyString)
                           (map (fun e => (clean (fst (fst e))
                                             ++ String TAB EmptyString
                                             ++ clean (full_html (snd (fst e)) (snd e)))%string)
                                (e :: l))))
      with (split_on LF (Py.join (String LF EmptyString)
                           ((clean (fst (fst e)) ++ String TAB EmptyString
                               ++ clean (full_html (snd (fst e)) (snd e)))%string
                            :: map (fun e => (clean (fst (fst e))
                                                ++ String TAB EmptyString
                                                ++ clean (full_html (snd (fst e)) (snd e)))%string)
                                 l))).
    rewrite split_join.
    + cbn [map]. rewrite (proj2 (Hline e)). f_equal.
      rewrite map_map. apply map_ext. intros e'. apply Hline.
    + discriminate.
    + intros x [<-|Hx]; [apply Hline|].
      apply in_map_iff in Hx as (e' & <- & _). apply Hline.
  - apply (cards_plain (e :: l)).
Qed.

Lemma glossary_step_consistent (get_def : string -> string)
  (context_map : gmap string string) (word html : string)
  (c1 c2 : gmap string string) :
  consistent get_def c1 -> consistent get_def c2 ->
  fst (glossary_step get_def context_map (html, c1) word)
  = fst (glossary_step get_def context_map (html, c2) word)
  /\ consistent get_def (snd (glossary_step get_def context_map (html, c1) word))
  /\ snd (glossary_step get_def context_map (html, c1) word) !! word
     = Some (get_def word)
  /\ (forall w v, c1 !! w = Some v ->
        snd (glossary_step get_def context_map (html, c1) word) !! w = Some v).
Proof.
  intros H1 H2. unfold glossary_step.
  destruct (c1 !! word) as [v1|] eqn:E1; destruct (c2 !! word) as [v2|] eqn:E2;
    try rewrite (H1 _ _ E1); try rewrite (H2 _ _ E2); cbn [fst snd];
    (split; [reflexivity|]).
  - split; [exact H1|]. split; [now rewrite E1, (H1 _ _ E1)|auto].
  - split; [exact H1|]. split; [now rewrite E1, (H1 _ _ E1)|auto].
  - split; [|split; [apply lookup_insert_eq|]].
    + intros w v. destruct (decide (w = word)) as [->|Hw].
      * rewrite lookup_insert_eq. now intros [= <-].
      * rewrite lookup_insert_ne by done. apply H1.
    + intros w v Hw. rewrite lookup_insert_ne; [exact Hw|]. intros <-. congruence.
  - split; [|split; [apply lookup_insert_eq|]].
    + intros w v. destruct (decide (w = word)) as [->|Hw].
      * rewrite lookup_insert_eq. now intros [= <-].
      * rewrite lookup_insert_ne by done. apply H1.
    + intros w v Hw. rewrite lookup_insert_ne; [exact Hw|]. intros <-. congruence.
Qed.

Lemma glossary_fold_consistent (get_def : string -> string)
  (context_map : gmap string string) (words : list string) :
  forall html c1 c2,
    consistent get_def c1 -> consistent get_def c2 ->
    fst (fold_left (glossary_step get_def context_map) words (html, c1))
    = fst (fold_left (glossary_step get_def context_map) words (html, c2))
    /\ (forall w, In w words ->
          snd (fold_left (glossary_step get_def context_map) words (html, c1)) !! w
          = Some (get_def w))
    /\ (forall w v, c1 !! w = Some v ->
          snd (fold_left (glossary_step get_def context_map) words (html, c1)) !! w
          = Some v).
Proof.
  induction words as [|word l IH]; intros html c1 c2 H1 H2.
  - cbn. split; [reflexivity|]. split; [intros w []|auto].
  - cbn [fold_left].
    destruct (glossary_step_consistent get_def context_map word html c1 c2 H1 H2)
      as (Hf & Hc & Hw & Hk).
    destruct (glossary_step_consistent get_def context_map word html c2 c1 H2 H1)
      as (_ & Hc2 & _ & _).
    destruct (glossary_step get_def context_map (html, c1) word) as [h1 d1].
    destruct (glossary_step get_def context_map (html, c2) word) as [h2 d2].
    cbn [fst snd] in *. subst h2.
    destruct (IH h1 d1 d2 Hc Hc2) as (Hf' & Hin & Hkeep).
    split; [exact Hf'|]. split.
    + intros w [<-|Hw']; [now apply Hkeep|now apply Hin].
    + intros w v Hv. apply Hkeep, Hk, Hv.
Qed.

(** X27. The cache of definitions is transparent: when it holds
    definitions of the dictionary only, [build_glossary_section] gives
    the markup that it gives with an empty cache, every matched word is
    in the cache afterwards with the definition of the dictionary, and
    no binding of the cache is lost or replaced. *)
Theorem glossary_cache_transparent (get_def : string -> string)
  (context_map : gmap string string) (matched_words : list string)
  (section_title : string) (def_cache : gmap string string) :
  consistent get_def def_cache ->
  fst (build_glossary_section get_def context_map matched_words section_title
         def_cache)
  = fst (build_glossary_section get_def context_map matched_words section_title ∅)
  /\ (forall w, In w matched_words ->
        snd (build_glossary_section get_def context_map matched_words
               section_title def_cache) !! w = Some (get_def w))
  /\ (forall w v, def_cache !! w = Some v ->
        snd (build_glossary_section get_def context_map matched_words
               section_title def_cache) !! w = Some v).
Proof.
  intros Hc. unfold build_glossary_section.
  destruct (glossary_fold_consistent get_def context_map matched_words
              (glossary_head section_title) def_cache ∅ Hc)
    as (Hf & Hin & Hkeep).
  { intros w v H. rewrite lookup_empty in H. discriminate. }
  destruct (fold_left _ matched_words (glossary_head section_title, def_cache))
    as [h1 d1].
  destruct (fold_left _ matched_words (glossary_head section_title, ∅))
    as [h2 d2].
  cbn [fst snd] in *. subst h2. auto.
Qed.

Lemma count_matches_spec_witness :
  count_matches_delete_frequent {["rare" := 0%Z]} ["rare"] !! "rare" = None.
Proof.
  apply (proj2 (count_matches_spec {["rare" := 0%Z]} ["rare"])).
  - intros k n H. apply lookup_singleton_Some in H as [_ <-]. lia.
  - now left.
Defined.

Lemma glossary_cache_transparent_witness :
  fst (build_glossary_section Sample.run_only ∅ ["run"; "walk"] "One"
         {["run" := Sample.run_only "run"]})
  = fst (build_glossary_section Sample.run_only ∅ ["run"; "walk"] "One" ∅).
Proof.
  apply (proj1 (glossary_cache_transparent Sample.run_only ∅ ["run"; "walk"]
                  "One" {["run" := Sample.run_only "run"]}
                  ltac:(intros w v H;
                        apply lookup_singleton_Some in H as [<- <-];
                        reflexivity))).
Defined.

End EpubFacts.
